(** * GtDBusQueue: a shallow embedding of libglib-testing's mock D-Bus service

    The development follows the [gt_dbus_queue_*] functions of dbus-queue.c
    (in this tree the text that starts at [struct _GtDBusQueue] in
    [libglib-testing/signal-logger.h]) and the assertion macros of
    [libglib-testing/dbus-queue.h].

    - GLib's own primitives ([GAsyncQueue], [GArray], the precondition
      macros, the main loop) are modelled in [Module GLib] from their
      documented behaviour.
    - Every [gt_dbus_queue_*] function is a computation in a small
      trace/state/abort monad: it reads and writes the [GtDBusQueue]
      struct, emits the calls it makes on the outside world as [Event]s, and
      either returns, aborts the process, or blocks for ever.
    - Pointer arguments that the C API documents as non-nullable ([self],
      [func], the expected strings, ...) are non-optional by type, so their
      [g_return_if_fail (x != NULL)] and [G_IS_... (x)] checks have no
      counterpart here; every other precondition check is modelled. *)

From Stdlib Require Import ZArith NArith List String Ascii Bool Lia.
From Stdlib Require Import Permutation DecimalString.
From Stdlib Require HexadecimalString.
Import ListNotations.

Local Open Scope string_scope.
Local Open Scope list_scope.

Set Implicit Arguments.

(* ===================================================================== *)
(** * GLib primitives                                                     *)
(* ===================================================================== *)

Module GLib.

Definition guint := N.
Definition gpointer := N.

(** ** GAsyncQueue

    [items] holds the queued elements, next element to pop first.
    [waiting_threads] counts threads parked in a blocking
    [g_async_queue_pop]; [g_async_queue_length] subtracts it, which is why
    GLib documents that the length may be negative. *)
Module GAsyncQueue.

Record t (A : Type) : Type := mk
  { items : list A;
    waiting_threads : nat }.

Arguments mk {A} _ _.


Definition push {A} (q : t A) (data : A) : t A :=
  mk (items q ++ [data]) (waiting_threads q).

Definition try_pop {A} (q : t A) : option A * t A :=
  match items q with
  | [] => (None, q)
  | x :: rest => (Some x, mk rest (waiting_threads q))
  end.

Definition length {A} (q : t A) : Z :=
  Z.of_nat (List.length (items q)) - Z.of_nat (waiting_threads q).

End GAsyncQueue.

(** ** GArray of [guint] *)
Module GArray.

Definition t := list guint.

Definition append_val (a : t) (v : guint) : t := a ++ [v].

(** [g_array_remove_index_fast]: the last element is moved into the
    vacated slot, so the order of the array is not preserved. *)
Definition remove_index_fast (a : t) (i : nat) : t :=
  if Nat.eqb i (List.length a - 1)
  then removelast a
  else removelast (firstn i a ++ last a 0%N :: skipn (S i) a).

Definition set_size_0 (a : t) : t := [].

End GArray.

(** ** Syntax checks

    [g_variant_is_object_path], after GLib's serialiser: the path begins
    with '/', consists of elements of [A-Za-z0-9_] separated by single
    '/', and has no trailing '/' unless it is the root path. *)
Definition g_ascii_isalnum (c : ascii) : bool :=
  let n := nat_of_ascii c in
  ((48 <=? n) && (n <=? 57) || (65 <=? n) && (n <=? 90)
   || (97 <=? n) && (n <=? 122))%nat.

Definition is_slash (c : ascii) : bool := Ascii.eqb c "/"%char.
Definition is_underscore (c : ascii) : bool := Ascii.eqb c "_"%char.

(** The scan over [string[1..]]; [prev] is [string[i - 1]]. *)
Fixpoint object_path_tail (prev : ascii) (s : string) : bool :=
  match s with
  | EmptyString => true
  | String c rest =>
      if g_ascii_isalnum c || is_underscore c then object_path_tail c rest
      else if is_slash c
           then if is_slash prev then false else object_path_tail c rest
           else false
  end.

Fixpoint last_char (d : ascii) (s : string) : ascii :=
  match s with
  | EmptyString => d
  | String c rest => last_char c rest
  end.

Definition g_variant_is_object_path (s : string) : bool :=
  match s with
  | EmptyString => false
  | String c rest =>
      is_slash c && object_path_tail c rest &&
      negb ((1 <? String.length s)%nat && is_slash (last_char c rest))
  end.

(** ** Number formatting for [g_strdup_printf] ([%u], [G_GSIZE_FORMAT]) *)
Definition format_unsigned (n : Z) : string :=
  NilZero.string_of_uint (N.to_uint (Z.to_N n)).

Definition newline : string := String (ascii_of_nat 10) EmptyString.

End GLib.

Import GLib.

(* ===================================================================== *)
(** * The data model                                                      *)
(* ===================================================================== *)

Definition GThread := N.
Definition GtDBusQueueServerFunc := N.   (* a non-NULL function pointer *)
Definition GDBusInterfaceInfo := string. (* the interface's name *)

(** The two main contexts a queue knows; [g_main_context_get_thread_default]
    of the calling thread is one of them. *)
Inductive GMainContext : Type :=
| client_context
| server_context.

(** A [GVariant] is a type string and a serialised value; [g_variant_equal]
    compares both. *)
Record GVariant : Type :=
  { variant_type : string;
    variant_data : string }.

Definition g_variant_equal (one two : GVariant) : bool :=
  String.eqb (variant_type one) (variant_type two) &&
  String.eqb (variant_data one) (variant_data two).

Record GDBusMessage : Type :=
  { message_serial : guint;
    message_blob : string }.

Record GDBusMethodInvocation : Type :=
  { inv_sender : string;
    inv_object_path : string;
    inv_interface_name : string;
    inv_method_name : string;
    inv_parameters : GVariant;
    inv_message : GDBusMessage }.

Record GDBusConnection : Type :=
  { connection_id : N;
    unique_name : option string }.

(** [struct _GtDBusQueue].  [server_context], [client_context] and [lock]
    never change after [gt_dbus_queue_new]; they appear in the [Event]s. *)
Record GtDBusQueue : Type := mkQueue
  { bus_up : bool;                                   (* GTestDBus *bus *)
    server_thread : option GThread;
    server_filter_id : guint;
    server_func : option GtDBusQueueServerFunc;      (* (nullable) (atomic) *)
    server_func_data : gpointer;                     (* (atomic) *)
    quitting : bool;                                 (* (atomic) *)
    server_connection : option GDBusConnection;
    name_ids : GArray.t;                             (* (locked-by lock) *)
    object_ids : GArray.t;                           (* (locked-by lock) *)
    server_message_queue : GAsyncQueue.t GDBusMethodInvocation;
    client_connection : option GDBusConnection }.

Definition set_server_thread (q : GtDBusQueue) v :=
  mkQueue (bus_up q) v (server_filter_id q) (server_func q)
    (server_func_data q) (quitting q) (server_connection q) (name_ids q)
    (object_ids q) (server_message_queue q) (client_connection q).
Definition set_bus_up (q : GtDBusQueue) v :=
  mkQueue v (server_thread q) (server_filter_id q) (server_func q)
    (server_func_data q) (quitting q) (server_connection q) (name_ids q)
    (object_ids q) (server_message_queue q) (client_connection q).
Definition set_server_filter_id (q : GtDBusQueue) v :=
  mkQueue (bus_up q) (server_thread q) v (server_func q)
    (server_func_data q) (quitting q) (server_connection q) (name_ids q)
    (object_ids q) (server_message_queue q) (client_connection q).
Definition set_server_func (q : GtDBusQueue) v :=
  mkQueue (bus_up q) (server_thread q) (server_filter_id q) v
    (server_func_data q) (quitting q) (server_connection q) (name_ids q)
    (object_ids q) (server_message_queue q) (client_connection q).
Definition set_server_func_data (q : GtDBusQueue) v :=
  mkQueue (bus_up q) (server_thread q) (server_filter_id q) (server_func q)
    v (quitting q) (server_connection q) (name_ids q)
    (object_ids q) (server_message_queue q) (client_connection q).
Definition set_quitting (q : GtDBusQueue) v :=
  mkQueue (bus_up q) (server_thread q) (server_filter_id q) (server_func q)
    (server_func_data q) v (server_connection q) (name_ids q)
    (object_ids q) (server_message_queue q) (client_connection q).
Definition set_server_connection (q : GtDBusQueue) v :=
  mkQueue (bus_up q) (server_thread q) (server_filter_id q) (server_func q)
    (server_func_data q) (quitting q) v (name_ids q)
    (object_ids q) (server_message_queue q) (client_connection q).
Definition set_name_ids (q : GtDBusQueue) v :=
  mkQueue (bus_up q) (server_thread q) (server_filter_id q) (server_func q)
    (server_func_data q) (quitting q) (server_connection q) v
    (object_ids q) (server_message_queue q) (client_connection q).
Definition set_object_ids (q : GtDBusQueue) v :=
  mkQueue (bus_up q) (server_thread q) (server_filter_id q) (server_func q)
    (server_func_data q) (quitting q) (server_connection q) (name_ids q)
    v (server_message_queue q) (client_connection q).
Definition set_server_message_queue (q : GtDBusQueue) v :=
  mkQueue (bus_up q) (server_thread q) (server_filter_id q) (server_func q)
    (server_func_data q) (quitting q) (server_connection q) (name_ids q)
    (object_ids q) v (client_connection q).
Definition set_client_connection (q : GtDBusQueue) v :=
  mkQueue (bus_up q) (server_thread q) (server_filter_id q) (server_func q)
    (server_func_data q) (quitting q) (server_connection q) (name_ids q)
    (object_ids q) (server_message_queue q) v.

(** ** What a call does to the outside world *)
Inductive Event : Type :=
| EvCritical (expr : string)            (* g_return_if_fail logged a critical *)
| EvDebug (func : string) (serial : guint)              (* g_debug *)
| EvMutexLock | EvMutexUnlock                           (* self->lock *)
| EvAsyncQueueLock | EvAsyncQueueUnlock
| EvBusUnownName (id : guint)                           (* g_bus_unown_name *)
| EvUnregisterObject (id : guint)   (* g_dbus_connection_unregister_object *)
| EvConnectionClose (c : GDBusConnection)  (* g_dbus_connection_close_sync *)
| EvAddFilter (id : guint)
| EvRemoveFilter (id : guint)
| EvTestDBusUp | EvTestDBusDown
| EvAtomicSetQuitting                     (* g_atomic_int_set (&quitting, TRUE) *)
| EvWakeup (ctx : GMainContext)                   (* g_main_context_wakeup *)
| EvPushThreadDefault (ctx : GMainContext)
| EvPopThreadDefault (ctx : GMainContext)
| EvIteration (ctx : GMainContext) (may_block : bool)
| EvInvoke (callback : string)             (* g_main_context_invoke_full *)
| EvThreadNew (t : GThread)
| EvThreadJoin (t : GThread)
| EvServerFunc (f : GtDBusQueueServerFunc) (data : gpointer)
| EvVariantGet (parameters : GVariant) (format : string).

(** ** How a call ends *)
Inductive Abort : Type :=
| AssertionFailed (message : string)   (* g_assert, g_assertion_message *)
| FatalCritical (expr : string)        (* a critical under a fatal log mask *)
| FatalError (message : string)        (* g_error *)
| NullDereference (what : string).

Inductive Outcome (X : Type) : Type :=
| Returned (x : X)
| Aborted (a : Abort)
| Blocked.                             (* the call never returns *)

Arguments Returned {X} _.
Arguments Aborted {X} _.
Arguments Blocked {X}.

(** What another thread, or the transport, does while the calling thread is
    inside one [g_main_context_iteration]. *)
Inductive Happening : Type :=
| HMethodCall (invocation : GDBusMethodInvocation) (* dispatched to the vtable *)
| HSetServerFunc (func : GtDBusQueueServerFunc) (user_data : gpointer)
| HQuit.                                           (* quitting := TRUE *)

(** The queue together with what the main loop will bring: one batch of
    happenings per future iteration. *)
Record World : Type := mkWorld
  { self : GtDBusQueue;
    pending : list (list Happening) }.

(** ** The monad *)
Definition M (S A : Type) : Type := S -> list Event * Outcome (A * S).

Definition ret {S A} (a : A) : M S A := fun s => ([], Returned (a, s)).

Definition bind {S A B} (m : M S A) (k : A -> M S B) : M S B :=
  fun s =>
    match m s with
    | (tr, Returned (a, s')) => let '(tr', o) := k a s' in (tr ++ tr', o)
    | (tr, Aborted a) => (tr, Aborted a)
    | (tr, Blocked) => (tr, Blocked)
    end.

Definition emit {S} (e : Event) : M S unit := fun s => ([e], Returned (tt, s)).
Definition get {S} : M S S := fun s => ([], Returned (s, s)).
Definition modify {S} (f : S -> S) : M S unit := fun s => ([], Returned (tt, f s)).
Definition abort {S A} (a : Abort) : M S A := fun _ => ([], Aborted a).
Definition block {S A} : M S A := fun _ => ([], Blocked).

Declare Scope monad_scope.
Delimit Scope monad_scope with monad.
Notation "x <- m ;; k" := (bind m (fun x => k))
  (at level 61, m at next level, right associativity) : monad_scope.
Notation "m ;;; k" := (bind m (fun _ => k))
  (at level 61, right associativity) : monad_scope.
Local Open Scope monad_scope.

(** Run a queue-level computation inside a [World]. *)
Definition liftQ {A} (m : M GtDBusQueue A) : M World A :=
  fun w =>
    match m (self w) with
    | (tr, Returned (a, q')) => (tr, Returned (a, mkWorld q' (pending w)))
    | (tr, Aborted a) => (tr, Aborted a)
    | (tr, Blocked) => (tr, Blocked)
    end.

(** [g_assert (cond)], [g_assert_not_reached ()], [g_assertion_message ()]. *)
Definition g_assert {S} (cond : bool) (expr : string) : M S unit :=
  if cond then ret tt else abort (AssertionFailed expr).
Definition g_assert_not_reached {S A} : M S A :=
  abort (AssertionFailed "code should not be reached").
Definition g_assertion_message {S A} (message : string) : M S A :=
  abort (AssertionFailed message).

Fixpoint for_each {S X} (l : list X) (body : X -> M S unit) : M S unit :=
  match l with
  | [] => ret tt
  | x :: rest => body x ;;; for_each rest body
  end.

Definition is_some {X} (o : option X) : bool :=
  match o with Some _ => true | None => false end.
Definition is_nil {X} (l : list X) : bool :=
  match l with [] => true | _ :: _ => false end.

(** Index of the first element equal to [id], counting from [i]: the
    [for (i = 0; i < len; i++) if (g_array_index (...) == id)] loops. *)
Fixpoint find_id (a : GArray.t) (id : guint) (i : nat) : option nat :=
  match a with
  | [] => None
  | found_id :: rest =>
      if N.eqb found_id id then Some i else find_id rest id (S i)
  end.

(** Whether every [g_bus_unown_name] / [g_dbus_connection_unregister_object]
    of a trace is made while [self->lock] is released; [held] is the state
    of the lock at the start of the trace. *)
Fixpoint unregisters_outside_lock (held : bool) (tr : list Event) : bool :=
  match tr with
  | [] => true
  | EvMutexLock :: rest => unregisters_outside_lock true rest
  | EvMutexUnlock :: rest => unregisters_outside_lock false rest
  | EvBusUnownName _ :: rest => negb held && unregisters_outside_lock held rest
  | EvUnregisterObject _ :: rest =>
      negb held && unregisters_outside_lock held rest
  | _ :: rest => unregisters_outside_lock held rest
  end.

(** How often a trace calls the server function. *)
Fixpoint count_server_func (tr : list Event) : nat :=
  match tr with
  | [] => 0
  | EvServerFunc _ _ :: rest => S (count_server_func rest)
  | _ :: rest => count_server_func rest
  end.

(** [hay] contains [needle]. *)
Definition contains (hay needle : string) : Prop :=
  exists before after, hay = (before ++ needle ++ after)%string.

Definition is_aborted {X} (o : Outcome X) : bool :=
  match o with Aborted _ => true | _ => false end.
Definition is_returned {X} (o : Outcome X) : bool :=
  match o with Returned _ => true | _ => false end.

(* ===================================================================== *)
(** * Sample data: the fixture of tests/dbus-queue.c                      *)
(* ===================================================================== *)

Definition sample_parameters : GVariant :=
  {| variant_type := "(u)"; variant_data := "123" |}.

Definition sample_invocation (serial : guint) : GDBusMethodInvocation :=
  {| inv_sender := ":1.1";
     inv_object_path := "/com/example/Test";
     inv_interface_name := "com.example.Test.Manager";
     inv_method_name := "GetObjectPath";
     inv_parameters := sample_parameters;
     inv_message := {| message_serial := serial; message_blob := "" |} |}.

Definition sample_client : GDBusConnection :=
  {| connection_id := 1%N; unique_name := Some ":1.1" |}.
Definition sample_server : GDBusConnection :=
  {| connection_id := 2%N; unique_name := Some ":1.2" |}.

(** A connected queue owning names 7 and 8 and exporting object 9, holding
    [messages]. *)
Definition sample_queue (messages : list GDBusMethodInvocation)
  : GtDBusQueue :=
  {| bus_up := true;
     server_thread := Some 1%N;
     server_filter_id := 5%N;
     server_func := None;
     server_func_data := 0%N;
     quitting := false;
     server_connection := Some sample_server;
     name_ids := [7%N; 8%N];
     object_ids := [9%N];
     server_message_queue := GAsyncQueue.mk messages 0;
     client_connection := Some sample_client |}.

(** A queue that was created but never connected. *)
Definition unconnected_queue : GtDBusQueue :=
  {| bus_up := false;
     server_thread := None;
     server_filter_id := 0%N;
     server_func := None;
     server_func_data := 0%N;
     quitting := false;
     server_connection := None;
     name_ids := [];
     object_ids := [];
     server_message_queue := GAsyncQueue.mk [] 0;
     client_connection := None |}.

(** Sample stand-ins for the GLib functions the model is parametric in. *)
Definition print_serial (m : GDBusMessage) (indent : nat) : string :=
  ("<" ++ format_unsigned (Z.of_N (message_serial m)) ++ ">")%string.
Definition parse_sample (s : string) : option GVariant :=
  if String.eqb s "(@u 123,)" then Some sample_parameters else None.
Definition any_name (s : string) : bool := negb (String.eqb s "").
Definition idle_server_func (f : GtDBusQueueServerFunc) (data : gpointer)
    (w : World) : Outcome World := Returned w.

(* ===================================================================== *)
(** * The functions of dbus-queue.c                                       *)
(* ===================================================================== *)

Module DBusQueue.
Section Model.

(** Whether the log mask makes criticals fatal ([g_test_init] does,
    [G_DEBUG=fatal-criticals] does; a plain program does not). *)
Variable fatal_criticals : bool.

(** GLib functions whose results are taken as given. *)
Variable g_dbus_message_print : GDBusMessage -> nat -> string.
Variable g_variant_new_parsed : string -> option GVariant.
Variable g_dbus_is_interface_name : string -> bool.
Variable g_dbus_is_member_name : string -> bool.
Variable g_dbus_is_name : string -> bool.
Variable g_dbus_is_unique_name : string -> bool.

(** What the test's server function does to the world when it is called. *)
Variable server_func_body :
  GtDBusQueueServerFunc -> gpointer -> World -> Outcome World.

(** [g_return_val_if_fail (cond, val)]: on failure a critical is logged
    and [val] is returned, unless criticals are fatal. *)
Definition g_return_val_if_fail {S A}
    (cond : bool) (expr : string) (val : A) (k : M S A) : M S A :=
  if cond then k
  else fun s =>
         if fatal_criticals
         then ([EvCritical expr], Aborted (FatalCritical expr))
         else ([EvCritical expr], Returned (val, s)).


Definition gt_dbus_queue_get_client_connection (q : GtDBusQueue)
  : option GDBusConnection := client_connection q.

(** [error_set] tells whether the [GError] location passed already holds
    an error; [new_client], [new_server]: what the two
    [g_dbus_connection_new_for_address_sync] calls return ([None] on
    error); [filter_id], [thread]: what [g_dbus_connection_add_filter] and
    [g_thread_new] return. *)
Definition gt_dbus_queue_connect (error_set : bool)
    (new_client new_server : option GDBusConnection)
    (filter_id : guint) (thread : GThread) : M GtDBusQueue bool :=
  q <- get ;;
  g_return_val_if_fail (negb (is_some (server_thread q)))
    "self->server_thread == NULL" false
    (g_return_val_if_fail (negb error_set)
       "error == NULL || *error == NULL" false
       (emit (EvPushThreadDefault client_context) ;;;
        emit EvTestDBusUp ;;;
        modify (fun q => set_bus_up q true) ;;;
        modify (fun q => set_client_connection q new_client) ;;;
        emit (EvPopThreadDefault client_context) ;;;
        if negb (is_some new_client) then ret false
        else
          emit (EvPushThreadDefault server_context) ;;;
          modify (fun q => set_server_connection q new_server) ;;;
          emit (EvPopThreadDefault server_context) ;;;
          if negb (is_some new_server) then ret false
          else
            emit (EvAddFilter filter_id) ;;;
            modify (fun q => set_server_filter_id q filter_id) ;;;
            emit (EvThreadNew thread) ;;;
            modify (fun q => set_server_thread q (Some thread)) ;;;
            ret true)).

Definition gt_dbus_queue_get_n_messages (q : GtDBusQueue) : Z :=
  let n_messages := GAsyncQueue.length (server_message_queue q) in
  Z.max n_messages 0.

Definition gt_dbus_queue_format_message (invocation : GDBusMethodInvocation)
  : string :=
  g_dbus_message_print (inv_message invocation) 0.

(** The [while ((message = g_async_queue_try_pop_unlocked (...)) != NULL)]
    loop.  The queue lock is held, so no element can arrive meanwhile and
    [fuel], the number of queued elements, bounds the iterations. *)
Fixpoint format_drain (fuel : nat)
    (mq : GAsyncQueue.t GDBusMethodInvocation)
    (output : string) (local_queue : list GDBusMethodInvocation)
  : GAsyncQueue.t GDBusMethodInvocation * string *
    list GDBusMethodInvocation :=
  match fuel with
  | O => (mq, output, local_queue)
  | S fuel' =>
      match GAsyncQueue.try_pop mq with
      | (None, _) => (mq, output, local_queue)
      | (Some message, mq') =>
          let formatted := gt_dbus_queue_format_message message in
          format_drain fuel' mq' (output ++ formatted)%string
            (local_queue ++ [message])
      end
  end.

Definition gt_dbus_queue_format_messages : M GtDBusQueue string :=
  emit EvAsyncQueueLock ;;;
  q <- get ;;
  let mq := server_message_queue q in
  let '(drained, output, local_queue) :=
    format_drain (List.length (GAsyncQueue.items mq)) mq "" [] in
  (* Reassemble the queue. *)
  let reassembled := fold_left GAsyncQueue.push local_queue drained in
  modify (fun q => set_server_message_queue q reassembled) ;;;
  emit EvAsyncQueueUnlock ;;;
  ret output.

(** The [gt_dbus_queue_assert_no_messages] macro of dbus-queue.h. *)
Definition gt_dbus_queue_assert_no_messages : M GtDBusQueue unit :=
  q <- get ;;
  if (gt_dbus_queue_get_n_messages q >? 0)%Z
  then
    anm_list <- gt_dbus_queue_format_messages ;;
    q' <- get ;;
    let anm_message :=
      ("Expected no messages, but saw " ++
       format_unsigned (gt_dbus_queue_get_n_messages q') ++ ":" ++
       newline ++ anm_list)%string in
    g_assertion_message anm_message
  else ret tt.

(** [thread_exits] tells whether the server thread comes to the end of its
    function, so that [g_thread_join] returns; it does not while the
    server function is still running, as when it sits in a blocking
    pop. *)
Definition gt_dbus_queue_disconnect (assert_queue_empty thread_exits : bool)
  : M GtDBusQueue unit :=
  q0 <- get ;;
  g_return_val_if_fail (is_some (server_thread q0))
    "self->server_thread != NULL" tt
    ((if assert_queue_empty then gt_dbus_queue_assert_no_messages
      else ret tt) ;;;
     q <- get ;;
     match client_connection q with
     | Some c => emit (EvConnectionClose c)
     | None => ret tt
     end ;;;
     modify (fun q => set_client_connection q None) ;;;
     emit EvMutexLock ;;;
     for_each (name_ids q) (fun id => emit (EvBusUnownName id)) ;;;
     modify (fun q => set_name_ids q (GArray.set_size_0 (name_ids q))) ;;;
     for_each (object_ids q) (fun id => emit (EvUnregisterObject id)) ;;;
     modify (fun q => set_object_ids q (GArray.set_size_0 (object_ids q))) ;;;
     emit EvMutexUnlock ;;;
     (if negb (N.eqb (server_filter_id q) 0)
      then emit (EvRemoveFilter (server_filter_id q)) ;;;
           modify (fun q => set_server_filter_id q 0%N)
      else ret tt) ;;;
     match server_connection q with
     | Some c => emit (EvConnectionClose c)
     | None => ret tt
     end ;;;
     modify (fun q => set_server_connection q None) ;;;
     emit EvTestDBusDown ;;;
     modify (fun q => set_bus_up q false) ;;;
     (* Pack up the server thread. *)
     emit EvAtomicSetQuitting ;;;
     modify (fun q => set_quitting q true) ;;;
     emit (EvWakeup server_context) ;;;
     match server_thread q with
     | Some t => emit (EvThreadJoin t) ;;;
                 if thread_exits then ret tt else block
     | None => ret tt
     end ;;;
     modify (fun q => set_server_thread q None)).

Definition gt_dbus_queue_unown_name (id : guint) : M GtDBusQueue unit :=
  q <- get ;;
  g_return_val_if_fail (is_some (server_thread q))
    "self->server_thread != NULL" tt
    (g_return_val_if_fail (negb (N.eqb id 0)) "id != 0" tt
       (emit EvMutexLock ;;;
        match find_id (name_ids q) id 0 with
        | Some i =>
            modify (fun q =>
                      set_name_ids q
                        (GArray.remove_index_fast (name_ids q) i)) ;;;
            emit EvMutexUnlock ;;;
            (* This is thread safe by itself. *)
            emit (EvBusUnownName id)
        | None =>
            emit EvMutexUnlock ;;;
            (* @id wasn't found. *)
            g_assert_not_reached
        end)).

(** [was_registered] is what [g_dbus_connection_unregister_object]
    returns. *)
Definition gt_dbus_queue_unexport_object (id : guint) (was_registered : bool)
  : M GtDBusQueue unit :=
  q <- get ;;
  g_return_val_if_fail (is_some (server_thread q))
    "self->server_thread != NULL" tt
    (g_return_val_if_fail (negb (N.eqb id 0)) "id != 0" tt
       (emit EvMutexLock ;;;
        match find_id (object_ids q) id 0 with
        | Some i =>
            modify (fun q =>
                      set_object_ids q
                        (GArray.remove_index_fast (object_ids q) i)) ;;;
            emit EvMutexUnlock ;;;
            (* This is inherently thread safe. *)
            emit (EvUnregisterObject id) ;;;
            g_assert was_registered "was_registered"
        | None =>
            emit EvMutexUnlock ;;;
            g_assert_not_reached
        end)).

(** [acquired] is the ID that [own_name_cb] publishes from the server
    thread ([None] if the callback never runs); the caller spins until it
    reads a non-zero ID. *)
Definition gt_dbus_queue_own_name (name : string) (acquired : option guint)
  : M GtDBusQueue guint :=
  q <- get ;;
  g_return_val_if_fail (is_some (server_thread q))
    "self->server_thread != NULL" 0%N
    (g_return_val_if_fail
       (g_dbus_is_name name && negb (g_dbus_is_unique_name name))
       "g_dbus_is_name (name) && !g_dbus_is_unique_name (name)" 0%N
       (emit (EvInvoke "own_name_cb") ;;;
        match acquired with
        | None => block
        | Some id =>
            if N.eqb id 0 then block
            else
              emit EvMutexLock ;;;
              modify (fun q =>
                        set_name_ids q (GArray.append_val (name_ids q) id)) ;;;
              emit EvMutexUnlock ;;;
              ret id
        end)).

(** [error_set] tells whether the [GError] location passed already holds
    an error.  [registered] is what [export_object_cb] publishes from the
    server thread: the ID returned by [g_dbus_connection_register_object]
    and its error, or [None] if the callback never runs.  The result is
    the returned ID and the error that this call propagates to the
    caller. *)
Definition gt_dbus_queue_export_object
    (object_path : string) (interface_info : GDBusInterfaceInfo)
    (error_set : bool) (registered : option (guint * option string))
  : M GtDBusQueue (guint * option string) :=
  q <- get ;;
  g_return_val_if_fail (is_some (server_thread q))
    "self->server_thread != NULL" (0%N, None)
    (g_return_val_if_fail (g_variant_is_object_path object_path)
       "object_path != NULL && g_variant_is_object_path (object_path)"
       (0%N, None)
       (g_return_val_if_fail (negb error_set)
          "error == NULL || *error == NULL" (0%N, None)
          (emit (EvInvoke "export_object_cb") ;;;
           match registered with
           | None => block
           | Some (id, error) =>
               if N.eqb id 0 && negb (is_some error) then block
               else
                 match error with
                 | Some local_error => ret (0%N, Some local_error)
                 | None =>
                     g_assert (negb (N.eqb id 0)) "id != 0" ;;;
                     emit EvMutexLock ;;;
                     modify (fun q =>
                               set_object_ids q
                                 (GArray.append_val (object_ids q) id)) ;;;
                     emit EvMutexUnlock ;;;
                     ret (id, None)
                 end
           end))).

Definition gt_dbus_queue_set_server_func
    (func : GtDBusQueueServerFunc) (user_data : gpointer)
  : M GtDBusQueue unit :=
  (* Set the data first so it's gated by the server func. *)
  modify (fun q => set_server_func_data q user_data) ;;;
  q <- get ;;
  let swapped := negb (is_some (server_func q)) in
  (if swapped then modify (fun q => set_server_func q (Some func))
   else ret tt) ;;;
  (* This function should not be called twice. *)
  g_assert swapped "swapped" ;;;
  emit (EvWakeup server_context).

Definition gt_dbus_queue_method_call (invocation : GDBusMethodInvocation)
  : M GtDBusQueue unit :=
  let message := inv_message invocation in
  emit (EvDebug "gt_dbus_queue_method_call" (message_serial message)) ;;;
  modify (fun q =>
            set_server_message_queue q
              (GAsyncQueue.push (server_message_queue q) invocation)) ;;;
  emit (EvWakeup client_context) ;;;
  emit (EvWakeup server_context).

Definition happen (h : Happening) : M GtDBusQueue unit :=
  match h with
  | HMethodCall invocation => gt_dbus_queue_method_call invocation
  | HSetServerFunc func user_data =>
      gt_dbus_queue_set_server_func func user_data
  | HQuit => modify (fun q => set_quitting q true)
  end.

(** One [g_main_context_iteration] that finds [batch] to do; the result is
    whether anything was dispatched. *)
Definition dispatch (ctx : GMainContext) (may_block : bool)
    (batch : list Happening) : M GtDBusQueue bool :=
  emit (EvIteration ctx may_block) ;;;
  for_each batch happen ;;;
  ret (negb (is_nil batch)).

(** With nothing left to come, a blocking iteration never returns. *)
Definition g_main_context_iteration (ctx : GMainContext) (may_block : bool)
  : M World bool :=
  fun w =>
    match pending w with
    | [] =>
        if may_block then ([EvIteration ctx true], Blocked)
        else ([EvIteration ctx false], Returned (false, w))
    | batch :: rest =>
        liftQ (dispatch ctx may_block batch) (mkWorld (self w) rest)
    end.

(** [while ((invocation = g_async_queue_try_pop (...)) == NULL)
      g_main_context_iteration (g_main_context_get_thread_default (), TRUE);]
    with [ctx] the calling thread's default context. *)
Fixpoint pop_message_loop (ctx : GMainContext)
    (batches : list (list Happening)) (q : GtDBusQueue)
  : list Event * Outcome (option GDBusMethodInvocation * World) :=
  match GAsyncQueue.try_pop (server_message_queue q) with
  | (Some invocation, mq') =>
      ([], Returned (Some invocation,
                     mkWorld (set_server_message_queue q mq') batches))
  | (None, _) =>
      match batches with
      | [] => ([EvIteration ctx true], Blocked)
      | batch :: rest =>
          match dispatch ctx true batch q with
          | (tr, Returned (_, q')) =>
              let '(tr', o) := pop_message_loop ctx rest q' in
              (tr ++ tr', o)
          | (tr, Aborted a) => (tr, Aborted a)
          | (tr, Blocked) => (tr, Blocked)
          end
      end
  end.

(** [out_invocation] tells whether a return location was passed; the
    second component of the result is what it then holds.  When [wait] is
    [FALSE] the [&&] of the loop condition short-circuits and
    [g_async_queue_try_pop] is not evaluated. *)
Definition gt_dbus_queue_pop_message_internal
    (ctx : GMainContext) (wait : bool) (out_invocation : bool)
  : M World (bool * option GDBusMethodInvocation) :=
  w <- get ;;
  g_return_val_if_fail (is_some (server_thread (self w)))
    "self->server_thread != NULL" (false, None)
    (invocation <-
       (if wait then (fun w => pop_message_loop ctx (pending w) (self w))
        else ret None) ;;
     message_popped <-
       match invocation with
       | Some i =>
           emit (EvDebug "gt_dbus_queue_pop_message_internal"
                   (message_serial (inv_message i))) ;;;
           ret true
       | None => ret false
       end ;;
     ret (message_popped, if out_invocation then invocation else None)).

Definition gt_dbus_queue_try_pop_message
    (ctx : GMainContext) (out_invocation : bool) :=
  gt_dbus_queue_pop_message_internal ctx false out_invocation.

Definition gt_dbus_queue_pop_message
    (ctx : GMainContext) (out_invocation : bool) :=
  gt_dbus_queue_pop_message_internal ctx true out_invocation.

(** [g_dbus_connection_get_unique_name], [NULL]-checked as in GIO. *)
Definition g_dbus_connection_get_unique_name
    (connection : option GDBusConnection) : M GtDBusQueue (option string) :=
  g_return_val_if_fail (is_some connection)
    "G_IS_DBUS_CONNECTION (connection)" None
    (ret match connection with
         | Some c => unique_name c
         | None => None
         end).

(** [g_str_equal] dereferences both arguments. *)
Definition g_str_equal (v1 : string) (v2 : option string)
  : M GtDBusQueue bool :=
  match v2 with
  | Some s2 => ret (String.eqb v1 s2)
  | None => abort (NullDereference "g_str_equal")
  end.

Definition gt_dbus_queue_match_client_message
    (invocation : GDBusMethodInvocation)
    (expected_object_path expected_interface_name
       expected_method_name : string)
    (expected_parameters_string : option string) : M GtDBusQueue bool :=
  g_return_val_if_fail (g_variant_is_object_path expected_object_path)
    "g_variant_is_object_path (expected_object_path)" false
    (g_return_val_if_fail (g_dbus_is_interface_name expected_interface_name)
       "g_dbus_is_interface_name (expected_interface_name)" false
       (g_return_val_if_fail (g_dbus_is_member_name expected_method_name)
          "g_dbus_is_member_name (expected_method_name)" false
          (expected_parameters <-
             match expected_parameters_string with
             | None => ret None
             | Some s =>
                 match g_variant_new_parsed s with
                 | Some v => ret (Some v)
                 | None => abort (FatalError "g_variant_new_parsed")
                 end
             end ;;
           q <- get ;;
           client_name <-
             g_dbus_connection_get_unique_name (client_connection q) ;;
           sender_matches <- g_str_equal (inv_sender invocation) client_name ;;
           ret (sender_matches &&
                String.eqb (inv_object_path invocation)
                  expected_object_path &&
                String.eqb (inv_interface_name invocation)
                  expected_interface_name &&
                String.eqb (inv_method_name invocation)
                  expected_method_name &&
                match expected_parameters with
                | None => true
                | Some v => g_variant_equal (inv_parameters invocation) v
                end)))).

Definition saw_no_messages
    (expected_object_path expected_interface_name
       expected_method_name : string) : string :=
  ("Expected message " ++ expected_interface_name ++ "." ++
   expected_method_name ++ " from " ++ expected_object_path ++
   ", but saw no messages")%string.

Definition saw_other_message
    (expected_object_path expected_interface_name
       expected_method_name invocation_formatted : string) : string :=
  ("Expected message " ++ expected_interface_name ++ "." ++
   expected_method_name ++ " from " ++ expected_object_path ++
   ", but saw: " ++ invocation_formatted)%string.

(** The result is the returned invocation ([None] for [NULL]); the
    parameters are handed to [g_variant_get_va]. *)
Definition gt_dbus_queue_assert_pop_message_impl
    (ctx : GMainContext) (macro_line : Z)
    (expected_object_path expected_interface_name
       expected_method_name parameters_format : string)
  : M World (option GDBusMethodInvocation) :=
  g_return_val_if_fail (0 <=? macro_line)%Z "macro_line >= 0" None
    (g_return_val_if_fail (g_variant_is_object_path expected_object_path)
       "g_variant_is_object_path (expected_object_path)" None
       (g_return_val_if_fail
          (g_dbus_is_interface_name expected_interface_name)
          "g_dbus_is_interface_name (expected_interface_name)" None
          (g_return_val_if_fail
             (g_dbus_is_member_name expected_method_name)
             "g_dbus_is_member_name (expected_method_name)" None
             (popped <- gt_dbus_queue_pop_message ctx true ;;
              if negb (fst popped)
              then g_assertion_message
                     (saw_no_messages expected_object_path
                        expected_interface_name expected_method_name)
              else
                match snd popped with
                | None => abort (NullDereference "invocation")
                | Some invocation =>
                    matched <-
                      liftQ (gt_dbus_queue_match_client_message invocation
                               expected_object_path expected_interface_name
                               expected_method_name None) ;;
                    if negb matched
                    then g_assertion_message
                           (saw_other_message expected_object_path
                              expected_interface_name expected_method_name
                              (gt_dbus_queue_format_message invocation))
                    else
                      (* Passed the test! *)
                      emit (EvVariantGet (inv_parameters invocation)
                              parameters_format) ;;;
                      ret (Some invocation)
                end)))).

(** [while (cond) g_main_context_iteration (ctx, TRUE);] *)
Fixpoint iterate_while (cond : GtDBusQueue -> bool) (ctx : GMainContext)
    (batches : list (list Happening)) (q : GtDBusQueue)
  : list Event * Outcome (unit * World) :=
  if cond q
  then
    match batches with
    | [] => ([EvIteration ctx true], Blocked)
    | batch :: rest =>
        match dispatch ctx true batch q with
        | (tr, Returned (_, q')) =>
            let '(tr', o) := iterate_while cond ctx rest q' in
            (tr ++ tr', o)
        | (tr, Aborted a) => (tr, Aborted a)
        | (tr, Blocked) => (tr, Blocked)
        end
    end
  else ([], Returned (tt, mkWorld q batches)).

(** [while (g_main_context_iteration (ctx, FALSE));] *)
Fixpoint iterate_ready (ctx : GMainContext)
    (batches : list (list Happening)) (q : GtDBusQueue)
  : list Event * Outcome (unit * World) :=
  match batches with
  | [] => ([EvIteration ctx false], Returned (tt, mkWorld q []))
  | batch :: rest =>
      match dispatch ctx false batch q with
      | (tr, Returned (dispatched, q')) =>
          if dispatched
          then let '(tr', o) := iterate_ready ctx rest q' in (tr ++ tr', o)
          else (tr, Returned (tt, mkWorld q' rest))
      | (tr, Aborted a) => (tr, Aborted a)
      | (tr, Blocked) => (tr, Blocked)
      end
  end.

Definition call_server_func (f : GtDBusQueueServerFunc) (data : gpointer)
  : M World unit :=
  fun w =>
    match server_func_body f data w with
    | Returned w' => ([], Returned (tt, w'))
    | Aborted a => ([], Aborted a)
    | Blocked => ([], Blocked)
    end.

(** The main function of the thread that [gt_dbus_queue_connect] starts. *)
Definition gt_dbus_queue_server_thread_cb : M World unit :=
  emit (EvPushThreadDefault server_context) ;;;
  (* Wait for the client to provide message handling. *)
  (fun w =>
     iterate_while
       (fun q => negb (quitting q) && negb (is_some (server_func q)))
       server_context (pending w) (self w)) ;;;
  w <- get ;;
  let server_func := server_func (self w) in
  let server_func_data := server_func_data (self w) in
  match server_func with
  | Some f => emit (EvServerFunc f server_func_data) ;;;
              call_server_func f server_func_data
  | None => ret tt
  end ;;;
  (* Wait for the process to signal to quit. *)
  (fun w =>
     iterate_while (fun q => negb (quitting q))
       server_context (pending w) (self w)) ;;;
  (* Process any remaining sources while quitting, without blocking. *)
  (fun w => iterate_ready server_context (pending w) (self w)) ;;;
  emit (EvPopThreadDefault server_context).

(** ** Schedules

    A schedule interleaves what the threads of a test do with the queue: a
    thread pops (blocking or not), dumps the queue, or runs one iteration
    of its main loop.  The transport delivers the method calls of [pending]
    during the iterations.  [run_schedule] collects what the pops hand
    out. *)
Inductive Action : Type :=
| APop (ctx : GMainContext)
| ATryPop (ctx : GMainContext)
| AFormat
| AIterate (ctx : GMainContext) (may_block : bool).

Definition perform (a : Action)
  : M World (option GDBusMethodInvocation) :=
  match a with
  | APop ctx =>
      r <- gt_dbus_queue_pop_message ctx true ;; ret (snd r)
  | ATryPop ctx =>
      r <- gt_dbus_queue_try_pop_message ctx true ;; ret (snd r)
  | AFormat => liftQ gt_dbus_queue_format_messages ;;; ret None
  | AIterate ctx may_block =>
      g_main_context_iteration ctx may_block ;;; ret None
  end.

Fixpoint run_schedule (s : list Action)
  : M World (list GDBusMethodInvocation) :=
  match s with
  | [] => ret []
  | a :: rest =>
      popped <- perform a ;;
      more <- run_schedule rest ;;
      ret (match popped with
           | Some invocation => invocation :: more
           | None => more
           end)
  end.

(** The method calls among [batches], in the order the transport delivers
    them. *)
Definition method_calls (batches : list (list Happening))
  : list GDBusMethodInvocation :=
  flat_map (fun h => match h with
                     | HMethodCall invocation => [invocation]
                     | _ => []
                     end) (List.concat batches).

(** Arrival order: the messages already queued, then those still to be
    delivered. *)
Definition arrivals (w : World) : list GDBusMethodInvocation :=
  GAsyncQueue.items (server_message_queue (self w)) ++
  method_calls (pending w).

(** The dump [gt_dbus_queue_format_messages] is expected to produce: every
    message formatted, head of the queue first. *)
Definition formatted_dump (l : list GDBusMethodInvocation) : string :=
  fold_right
    (fun m acc => (gt_dbus_queue_format_message m ++ acc)%string) "" l.

(** Which queues took a call in their documented state: after
    [gt_dbus_queue_connect] and before [gt_dbus_queue_disconnect]. *)
Definition connected (q : GtDBusQueue) : Prop :=
  is_some (server_thread q) = true.

(** The failure message of [gt_dbus_queue_assert_no_messages]. *)
Definition expected_no_messages (q : GtDBusQueue) : string :=
  ("Expected no messages, but saw " ++
   format_unsigned (gt_dbus_queue_get_n_messages q) ++ ":" ++
   newline ++
   formatted_dump (GAsyncQueue.items (server_message_queue q)))%string.

(** The server-function slot holds [f], to be called with [d]. *)
Definition installed (q : GtDBusQueue)
    (f : GtDBusQueueServerFunc) (d : gpointer) : Prop :=
  server_func q = Some f /\ server_func_data q = d.

(** The method calls of one batch. *)
Definition calls_of (batch : list Happening) : list GDBusMethodInvocation :=
  flat_map (fun h => match h with
                     | HMethodCall invocation => [invocation]
                     | _ => []
                     end) batch.

(** No other thread sets the server function during these iterations. *)
Definition quiet (batches : list (list Happening)) : Prop :=
  forall f d, ~ In (HSetServerFunc f d) (List.concat batches).

(* ===================================================================== *)
(** * More of dbus-queue.c                                                *)
(* ===================================================================== *)

(** [gt_dbus_queue_free].  Releasing memory ([g_array_unref],
    [g_clear_object], [g_mutex_clear], [g_free]) is not an event; the
    assertions on the way are modelled.  [thread_exits] is as for
    [gt_dbus_queue_disconnect]. *)
Definition gt_dbus_queue_free (thread_exits : bool) : M World unit :=
  w <- get ;;
  (* Give them the strictest assertion behaviour though. *)
  (if is_some (server_thread (self w))
   then liftQ (gt_dbus_queue_disconnect true thread_exits)
   else ret tt) ;;;
  w <- get ;;
  g_assert (Nat.eqb (List.length (object_ids (self w))) 0)
    "self->object_ids->len == 0" ;;;
  g_assert (Nat.eqb (List.length (name_ids (self w))) 0)
    "self->name_ids->len == 0" ;;;
  let popped := GAsyncQueue.try_pop (server_message_queue (self w)) in
  liftQ (modify (fun q => set_server_message_queue q (snd popped))) ;;;
  g_assert (negb (is_some (fst popped)))
    "g_async_queue_try_pop (self->server_message_queue) == NULL" ;;;
  dispatched <- g_main_context_iteration server_context false ;;
  g_assert (negb dispatched)
    "!g_main_context_iteration (self->server_context, FALSE)".

(** Whether a trace has a main-loop iteration that may block. *)
Fixpoint has_blocking_iteration (tr : list Event) : bool :=
  match tr with
  | [] => false
  | EvIteration _ true :: _ => true
  | _ :: rest => has_blocking_iteration rest
  end.

(** Whether the popped message is the expected call of the client. *)
Definition is_expected_call (q : GtDBusQueue)
    (invocation : GDBusMethodInvocation)
    (path iface method : string) : bool :=
  match client_connection q with
  | Some client =>
      match unique_name client with
      | Some name => String.eqb (inv_sender invocation) name
      | None => false
      end
  | None => false
  end &&
  String.eqb (inv_object_path invocation) path &&
  String.eqb (inv_interface_name invocation) iface &&
  String.eqb (inv_method_name invocation) method.

(** The queue as [gt_dbus_queue_disconnect] leaves it. *)
Definition torn_down (q : GtDBusQueue) : GtDBusQueue :=
  {| bus_up := false;
     server_thread := None;
     server_filter_id := 0%N;
     server_func := server_func q;
     server_func_data := server_func_data q;
     quitting := true;
     server_connection := None;
     name_ids := [];
     object_ids := [];
     server_message_queue := server_message_queue q;
     client_connection := None |}.

(* ===================================================================== *)
(** * signal-logger.c                                                     *)
(* ===================================================================== *)

Definition gulong := N.

(** A live [GObject] instance: where it is (never at [NULL]) and
    [G_OBJECT_TYPE_NAME]. *)
Record GObject : Type := mkObject
  { object_address : positive;
    object_type_name : string }.

(** The instance as a [gpointer]; [0] is [NULL]. *)
Definition G_OBJECT (obj : GObject) : gpointer := Npos (object_address obj).

(** A [GValue]: [G_VALUE_TYPE_NAME], and what [g_value_transform] to
    [G_TYPE_STRING] followed by [g_value_get_string] gives: [None] when the
    type has no transformation to a string, [Some None] when the string is
    [NULL]. *)
Record GValue : Type := mkValue
  { value_type_name : string;
    value_as_string : option (option string) }.

Record GtLoggedClosure : Type := mkClosure
  { closure_obj : gpointer;              (* not owned, opaque *)
    closure_obj_type_name : string;
    closure_signal_name : string;
    closure_signal_id : gulong }.        (* 0 when disconnected *)

(** [emission_closure] is the pointer to the closure, as its index in
    [closures] of the logger, which holds every closure made for the logger
    until the logger is freed; [n_param_values] is the length of
    [emission_param_values]. *)
Record GtSignalLoggerEmission : Type := mkEmission
  { emission_closure : nat;
    emission_param_values : list GValue }.

Record GtSignalLogger : Type := mkLogger
  { log : list GtSignalLoggerEmission;   (* head was the first emitted *)
    closures : list GtLoggedClosure }.

Definition set_log (l : GtSignalLogger) (v : list GtSignalLoggerEmission)
  : GtSignalLogger :=
  {| log := v; closures := closures l |}.

Definition set_closures (l : GtSignalLogger) (v : list GtLoggedClosure)
  : GtSignalLogger :=
  {| log := log l; closures := v |}.

(** [c->signal_id = id] for the closure at [closure]. *)
Fixpoint store_signal_id (cs : list GtLoggedClosure) (closure : nat)
    (id : gulong) : list GtLoggedClosure :=
  match cs, closure with
  | [], _ => []
  | c :: rest, O =>
      {| closure_obj := closure_obj c;
         closure_obj_type_name := closure_obj_type_name c;
         closure_signal_name := closure_signal_name c;
         closure_signal_id := id |} :: rest
  | c :: rest, S closure' => c :: store_signal_id rest closure' id
  end.

(** [emission->closure-> ...]. *)
Definition emission_closure_deref (emission : GtSignalLoggerEmission)
  : M GtSignalLogger GtLoggedClosure :=
  l <- get ;;
  match nth_error (closures l) (emission_closure emission) with
  | Some closure => ret closure
  | None => abort (NullDereference "emission->closure")
  end.

(** [printf ("%s", s)] prints a [NULL] string as this. *)
Definition printf_s (s : option string) : string :=
  match s with
  | Some s => s
  | None => "(null)"
  end.

(** [printf ("%p", p)], taken as given. *)
Variable format_pointer : gpointer -> string.

(** [printf ("%*zu", width, n)]: right-justified in at least [width]
    columns. *)
Fixpoint spaces (n : nat) : string :=
  match n with
  | O => ""
  | S n' => String " "%char (spaces n')
  end.

Definition pad_left (width : nat) (s : string) : string :=
  (spaces (width - String.length s) ++ s)%string.

(** [gt_signal_logger_emission_get_params]: every parameter value is
    copied to its return location; the result is what the return locations
    then hold.  (Return locations are given for all parameters.) *)
Definition gt_signal_logger_emission_get_params
    (emission : GtSignalLoggerEmission) : list GValue :=
  emission_param_values emission.

(** The marshaller of a logged closure: GObject calls it with the instance
    followed by the signal's parameters when the signal is emitted. *)
Definition gt_logged_closure_marshal (closure : nat)
    (param_values : list GValue) : M GtSignalLogger unit :=
  (* Log the @param_values.  Ignore the first of @param_values (which is
     the object instance). *)
  g_assert (1 <=? List.length param_values)%nat "n_param_values >= 1" ;;;
  let emission :=
    {| emission_closure := closure;
       emission_param_values := tl param_values |} in
  modify (fun l => set_log l (log l ++ [emission])).

(** The invalidate notifier: GObject calls it when the closure is
    invalidated, as when the object is finalised. *)
Definition gt_logged_closure_invalidate (closure : nat)
  : M GtSignalLogger unit :=
  modify (fun l => set_closures l (store_signal_id (closures l) closure 0%N)).

(** The result is the pointer to the new closure. *)
Definition gt_logged_closure_new (obj : GObject) (signal_name : string)
  : M GtSignalLogger nat :=
  l <- get ;;
  let closure :=
    {| closure_obj := G_OBJECT obj;
       closure_obj_type_name := object_type_name obj;
       closure_signal_name := signal_name;
       closure_signal_id := 0%N |} in
  modify (fun l => set_closures l (closures l ++ [closure])) ;;;
  ret (List.length (closures l)).

Definition gt_signal_logger_new : GtSignalLogger :=
  {| log := []; closures := [] |}.

(** [obj] is [None] when the pointer passed is not a [GObject] instance;
    [signal_name] is a string, so not [NULL]; [handler_id] is what
    [g_signal_connect_closure] returns. *)
Definition gt_signal_logger_connect (obj : option GObject)
    (signal_name : string) (handler_id : gulong) : M GtSignalLogger gulong :=
  match obj with
  | None => g_return_val_if_fail false "G_IS_OBJECT (obj)" 0%N (ret 0%N)
  | Some obj =>
      closure <- gt_logged_closure_new obj signal_name ;;
      modify (fun l =>
                set_closures l
                  (store_signal_id (closures l) closure handler_id)) ;;;
      ret handler_id
  end.

Definition gt_signal_logger_get_n_emissions (l : GtSignalLogger) : nat :=
  List.length (log l).

(** What the four return locations of [gt_signal_logger_pop_emission] hold
    afterwards; a location that was not passed counts as [NULL]. *)
Record PoppedEmission : Type := mkPopped
  { out_obj : gpointer;
    out_obj_type_name : option string;
    out_signal_name : option string;
    out_emission : option GtSignalLoggerEmission }.

(** The four flags tell which return locations are passed. *)
Definition gt_signal_logger_pop_emission
    (want_obj want_obj_type_name want_signal_name want_emission : bool)
  : M GtSignalLogger (bool * PoppedEmission) :=
  l <- get ;;
  match log l with
  | [] =>
      ret (false,
           {| out_obj := 0%N; out_obj_type_name := None;
              out_signal_name := None; out_emission := None |})
  | emission :: rest =>
      modify (fun l => set_log l rest) ;;;
      obj <-
        (if want_obj
         then closure <- emission_closure_deref emission ;;
              ret (closure_obj closure)
         else ret 0%N) ;;
      obj_type_name <-
        (if want_obj_type_name
         then closure <- emission_closure_deref emission ;;
              ret (Some (closure_obj_type_name closure))
         else ret None) ;;
      signal_name <-
        (if want_signal_name
         then closure <- emission_closure_deref emission ;;
              ret (Some (closure_signal_name closure))
         else ret None) ;;
      ret (true,
           {| out_obj := obj; out_obj_type_name := obj_type_name;
              out_signal_name := signal_name;
              out_emission := if want_emission then Some emission
                              else None |})
  end.

(** [g_string_append], which checks its argument as GLib does. *)
Definition g_string_append {St} (str : string) (val : option string)
  : M St string :=
  match val with
  | Some val => ret (str ++ val)%string
  | None => g_return_val_if_fail false "val != NULL" str (ret str)
  end.

(** The loop over the parameter values; [i] is the index of the first of
    [values]. *)
Fixpoint format_param_values {St} (i : nat) (values : list GValue)
    (str : string) : M St string :=
  match values with
  | [] => ret str
  | value :: rest =>
      str <- (if (0 <? i)%nat then g_string_append str (Some ", ")
              else ret str) ;;
      str <-
        match value_as_string value with
        | Some str_value => g_string_append str str_value
        | None =>
            ret (str ++ "GValue of type " ++ value_type_name value)%string
        end ;;
      format_param_values (S i) rest str
  end.

Definition gt_signal_logger_format_emission {St}
    (obj : gpointer) (obj_type_name signal_name : option string)
    (emission : option GtSignalLoggerEmission) : M St (option string) :=
  g_return_val_if_fail (negb (N.eqb obj 0)) "obj != NULL" None
    (g_return_val_if_fail (is_some signal_name) "signal_name != NULL" None
       (match emission with
        | None =>
            g_return_val_if_fail false "emission != NULL" None (ret None)
        | Some emission =>
            let str :=
              (printf_s obj_type_name ++ "::" ++ printf_s signal_name ++
               " from " ++ format_pointer obj ++ " (")%string in
            str <- format_param_values 0 (emission_param_values emission)
                     str ;;
            let str :=
              if Nat.eqb (List.length (emission_param_values emission)) 0
              then (str ++ "no arguments")%string
              else str in
            ret (Some (str ++ ")")%string)
        end)).

(** [while (n_emissions >= 10) { n_emissions /= 10; width++; }]; every
    iteration divides [n_emissions] by ten, so [fuel] = [n_emissions] is
    enough. *)
Fixpoint counter_width (fuel : nat) (n_emissions : nat) (width : nat)
  : nat :=
  match fuel with
  | O => width
  | S fuel' =>
      if (10 <=? n_emissions)%nat
      then counter_width fuel' (n_emissions / 10) (S width)
      else width
  end.

(** The loop over the log; [i] is the index of the first of
    [emissions]. *)
Fixpoint format_log (width : nat) (i : nat)
    (emissions : list GtSignalLoggerEmission) (str : string)
  : M GtSignalLogger string :=
  match emissions with
  | [] => ret str
  | emission :: rest =>
      let str := if (0 <? i)%nat then (str ++ newline)%string else str in
      closure <- emission_closure_deref emission ;;
      emission_str <-
        gt_signal_logger_format_emission (closure_obj closure)
          (Some (closure_obj_type_name closure))
          (Some (closure_signal_name closure)) (Some emission) ;;
      let str :=
        (str ++ " " ++
         pad_left width (format_unsigned (Z.of_nat (i + 1))) ++ ". " ++
         printf_s emission_str)%string in
      format_log width (S i) rest str
  end.

Definition gt_signal_logger_format_emissions : M GtSignalLogger string :=
  l <- get ;;
  (* Work out the width of the counter we need to number the emissions. *)
  let n_emissions := List.length (log l) in
  let width := counter_width n_emissions n_emissions 1 in
  (* Format each emission and list them. *)
  format_log width 0 (log l) "".

(** The [gt_signal_logger_assert_no_emissions] macro of signal-logger.h. *)
Definition gt_signal_logger_assert_no_emissions : M GtSignalLogger unit :=
  l <- get ;;
  if (0 <? gt_signal_logger_get_n_emissions l)%nat
  then
    ane_list <- gt_signal_logger_format_emissions ;;
    l' <- get ;;
    let ane_message :=
      ("Expected no signal emissions, but saw " ++
       format_unsigned (Z.of_nat (gt_signal_logger_get_n_emissions l')) ++
       ":" ++ newline ++ ane_list)%string in
    g_assertion_message ane_message
  else ret tt.

Definition expected_emission (obj : GObject) (signal_name : string)
  : string :=
  ("Expected emission of " ++ object_type_name obj ++ "::" ++ signal_name ++
   " from " ++ format_pointer (G_OBJECT obj))%string.

(** The [gt_signal_logger_assert_emission_pop] macro of signal-logger.h;
    the result is what the return locations of the varargs then hold. *)
Definition gt_signal_logger_assert_emission_pop
    (obj : GObject) (signal_name : string)
  : M GtSignalLogger (list GValue) :=
  popped <- gt_signal_logger_pop_emission true true true true ;;
  let aep_obj := out_obj (snd popped) in
  let aep_obj_type_name := out_obj_type_name (snd popped) in
  let aep_signal_name := out_signal_name (snd popped) in
  let aep_emission := out_emission (snd popped) in
  if fst popped
  then
    matches <-
      (if N.eqb aep_obj (G_OBJECT obj)
       then match aep_signal_name with
            | Some name => ret (String.eqb name signal_name)
            | None => abort (NullDereference "g_str_equal")
            end
       else ret false) ;;
    if matches
    then
      (* Passed the test! *)
      match aep_emission with
      | Some emission => ret (gt_signal_logger_emission_get_params emission)
      | None => abort (NullDereference "aep_emission")
      end
    else
      aep_args <-
        gt_signal_logger_format_emission aep_obj aep_obj_type_name
          aep_signal_name aep_emission ;;
      g_assertion_message
        (expected_emission obj signal_name ++ ", but saw: " ++
         printf_s aep_args)%string
  else
    g_assertion_message
      (expected_emission obj signal_name ++ ", but saw no emissions")%string.

(** Every logged emission points to a closure of the logger. *)
Definition log_valid (l : GtSignalLogger) : Prop :=
  Forall (fun emission =>
            emission_closure emission < List.length (closures l)) (log l).

(** An emission as a test sees it when it is popped: the object pointer,
    the type name, the signal name and the parameters. *)
Definition seen (l : GtSignalLogger) (emission : GtSignalLoggerEmission)
  : option (gpointer * string * string * list GValue) :=
  match nth_error (closures l) (emission_closure emission) with
  | Some closure =>
      Some (closure_obj closure, closure_obj_type_name closure,
            closure_signal_name closure, emission_param_values emission)
  | None => None
  end.

(** A parameter value as [gt_signal_logger_format_emission] prints it. *)
Definition printed_value (value : GValue) : string :=
  match value_as_string value with
  | Some (Some s) => s
  | Some None => ""
  | None => ("GValue of type " ++ value_type_name value)%string
  end.

(** Whether printing the value logs no critical. *)
Definition printable (value : GValue) : bool :=
  match value_as_string value with
  | Some None => false
  | _ => true
  end.

(** [n] calls of [gt_signal_logger_pop_emission] with all four return
    locations, as a test makes them to empty the log; the result is what
    the calls that returned [TRUE] handed out. *)
Fixpoint pop_emissions (n : nat) : M GtSignalLogger (list PoppedEmission) :=
  match n with
  | O => ret []
  | S n' =>
      popped <- gt_signal_logger_pop_emission true true true true ;;
      if fst popped
      then rest <- pop_emissions n' ;; ret (snd popped :: rest)
      else ret []
  end.

(** What a test reads from the return locations after a pop. *)
Definition popped_view (popped : PoppedEmission)
  : option (gpointer * string * string * list GValue) :=
  match out_obj_type_name popped, out_signal_name popped,
        out_emission popped with
  | Some obj_type_name, Some signal_name, Some emission =>
      Some (out_obj popped, obj_type_name, signal_name,
            emission_param_values emission)
  | _, _, _ => None
  end.

(** An emission as [gt_signal_logger_format_emission] prints it when it
    logs nothing. *)
Definition formatted_emission (obj : gpointer)
    (obj_type_name signal_name : string) (values : list GValue) : string :=
  (obj_type_name ++ "::" ++ signal_name ++ " from " ++ format_pointer obj ++
   " (" ++
   (if is_nil values then "no arguments"
    else String.concat ", " (map printed_value values)) ++
   ")")%string.

(** One line of [gt_signal_logger_format_emissions]. *)
Definition numbered_emission (l : GtSignalLogger) (width number : nat)
    (emission : GtSignalLoggerEmission) : string :=
  (" " ++ pad_left width (format_unsigned (Z.of_nat number)) ++ ". " ++
   match seen l emission with
   | Some (obj, obj_type_name, signal_name, values) =>
       formatted_emission obj obj_type_name signal_name values
   | None => ""
   end)%string.

(** The lines for [emissions], numbered from [first]. *)
Definition numbered_from (l : GtSignalLogger) (width first : nat)
    (emissions : list GtSignalLoggerEmission) : list string :=
  map (fun p => numbered_emission l width (fst p) (snd p))
    (combine (seq first (List.length emissions)) emissions).

(** The list [gt_signal_logger_format_emissions] is documented to give:
    the logged emissions, oldest first, numbered from 1, one per line. *)
Definition emissions_dump (l : GtSignalLogger) : string :=
  let n_emissions := List.length (log l) in
  String.concat newline
    (numbered_from l (counter_width n_emissions n_emissions 1) 1 (log l)).

(** The closures were made for live objects, and the logged values print
    without a critical. *)
Definition closures_live (l : GtSignalLogger) : Prop :=
  Forall (fun c => closure_obj c <> 0%N) (closures l).

Definition log_printable (l : GtSignalLogger) : Prop :=
  Forall (fun emission =>
            forallb printable (emission_param_values emission) = true)
    (log l).

(** ** Sample data for the signal logger *)

Definition sample_object : GObject := mkObject 4096 "GObject".

Definition sample_closure : GtLoggedClosure :=
  mkClosure (G_OBJECT sample_object) "GObject" "notify" 1%N.

Definition string_value (s : string) : GValue :=
  mkValue "gchararray" (Some (Some s)).

Definition sample_instance : GValue := mkValue "GObject" None.

(** A logger connected to "notify" of the sample object. *)
Definition sample_logger (emissions : list GtSignalLoggerEmission)
  : GtSignalLogger :=
  mkLogger emissions [sample_closure].

(** [printf ("%p", p)] as glibc prints it, for the examples. *)
Definition print_pointer (p : gpointer) : string :=
  if N.eqb p 0 then "(nil)"
  else ("0x" ++
        HexadecimalString.NilZero.string_of_uint (N.to_hex_uint p))%string.

(* ===================================================================== *)
(** * Properties                                                          *)
(* ===================================================================== *)

Unset Implicit Arguments.

(** ** Strings and queues *)

Lemma string_app_assoc (a b c : string) :
  ((a ++ b) ++ c = a ++ (b ++ c))%string.
Proof. induction a as [|ch a IH]; simpl; [reflexivity | now rewrite IH]. Qed.

Lemma string_app_empty_r (a : string) : (a ++ "" = a)%string.
Proof. induction a as [|ch a IH]; simpl; [reflexivity | now rewrite IH]. Qed.


Lemma queue_eta (q : GtDBusQueue) :
  set_server_message_queue q
    (GAsyncQueue.mk (GAsyncQueue.items (server_message_queue q))
       (GAsyncQueue.waiting_threads (server_message_queue q))) = q.
Proof. destruct q as [? ? ? ? ? ? ? ? ? [its w] ?]. reflexivity. Qed.

Lemma fold_left_push {A} (l xs : list A) (w : nat) :
  fold_left GAsyncQueue.push l (GAsyncQueue.mk xs w) =
  GAsyncQueue.mk (xs ++ l) w.
Proof.
  revert xs; induction l as [|x l IH]; intros xs; simpl.
  - now rewrite app_nil_r.
  - unfold GAsyncQueue.push at 2; simpl. rewrite IH.
    now rewrite <- app_assoc.
Qed.

(** The drain loop empties the queue, formats every message and keeps them
    in order in the side buffer. *)
Lemma format_drain_all (its : list GDBusMethodInvocation) (w : nat) :
  forall output local_queue,
    format_drain (List.length its) (GAsyncQueue.mk its w) output local_queue =
    (GAsyncQueue.mk [] w, (output ++ formatted_dump its)%string,
     local_queue ++ its).
Proof.
  induction its as [|m its IH]; intros output local_queue; simpl.
  - now rewrite string_app_empty_r, app_nil_r.
  - unfold GAsyncQueue.try_pop; simpl. rewrite IH.
    now rewrite string_app_assoc, <- app_assoc.
Qed.

(** After the drain loop the next [g_async_queue_try_pop_unlocked] fails:
    the loop really stops on its own condition. *)
Lemma format_drain_stops (mq : GAsyncQueue.t GDBusMethodInvocation) :
  forall output local_queue,
    fst (GAsyncQueue.try_pop
           (fst (fst (format_drain (List.length (GAsyncQueue.items mq)) mq
                        output local_queue)))) = None.
Proof.
  destruct mq as [its w]; intros; simpl.
  now rewrite format_drain_all.
Qed.

Lemma format_messages_spec (q : GtDBusQueue) :
  gt_dbus_queue_format_messages q =
  ([EvAsyncQueueLock; EvAsyncQueueUnlock],
   Returned (formatted_dump (GAsyncQueue.items (server_message_queue q)), q)).
Proof.
  unfold gt_dbus_queue_format_messages, bind, emit, get, modify, ret; simpl.
  destruct (server_message_queue q) as [its w] eqn:E.
  rewrite format_drain_all; simpl.
  rewrite fold_left_push; simpl.
  pose proof (queue_eta q) as Hq. rewrite E in Hq; simpl in Hq.
  now rewrite Hq.
Qed.

(** C2: for every queue state, [gt_dbus_queue_format_messages] returns the
    dump of every pending message, head first, and leaves the queue as it
    was: the same messages in the same order (indeed the same struct), the
    drain and the push-back lying between one lock and one unlock of the
    queue. *)
Theorem C2_format_messages_preserves_queue (q : GtDBusQueue) :
  exists dump q',
    gt_dbus_queue_format_messages q =
      ([EvAsyncQueueLock; EvAsyncQueueUnlock], Returned (dump, q')) /\
    dump = formatted_dump (GAsyncQueue.items (server_message_queue q)) /\
    GAsyncQueue.items (server_message_queue q') =
      GAsyncQueue.items (server_message_queue q) /\
    q' = q.
Proof.
  exists (formatted_dump (GAsyncQueue.items (server_message_queue q))), q.
  now rewrite format_messages_spec.
Qed.

(** ** Counting and the non-blocking pop *)

Lemma get_n_messages_nonneg (q : GtDBusQueue) :
  (0 <= gt_dbus_queue_get_n_messages q)%Z.
Proof. unfold gt_dbus_queue_get_n_messages. lia. Qed.

Lemma get_n_messages_empty (q : GtDBusQueue) :
  GAsyncQueue.items (server_message_queue q) = [] ->
  gt_dbus_queue_get_n_messages q = 0%Z.
Proof.
  intros H. unfold gt_dbus_queue_get_n_messages, GAsyncQueue.length.
  rewrite H; simpl. lia.
Qed.

(** With [wait = FALSE] the loop condition never evaluates
    [g_async_queue_try_pop]: on a connected queue the call returns [FALSE]
    and [NULL] whatever the queue holds, and changes nothing. *)
Lemma try_pop_message_spec (ctx : GMainContext) (out : bool) (w : World) :
  connected (self w) ->
  gt_dbus_queue_try_pop_message ctx out w = ([], Returned ((false, None), w)).
Proof.
  unfold connected; intros H.
  unfold gt_dbus_queue_try_pop_message, gt_dbus_queue_pop_message_internal,
    bind, get, g_return_val_if_fail, ret; simpl.
  rewrite H; simpl. now destruct out.
Qed.

(** C4: on a connected queue whose message queue is empty,
    [gt_dbus_queue_try_pop_message] returns [FALSE] at once (no main-loop
    iteration, no event at all) and leaves the queue as it was, so that
    [gt_dbus_queue_get_n_messages] still returns 0 afterwards; and
    [gt_dbus_queue_get_n_messages] is never negative, in any state. *)
Theorem C4_try_pop_on_empty_queue
    (ctx : GMainContext) (out : bool) (w : World) :
  connected (self w) ->
  GAsyncQueue.items (server_message_queue (self w)) = [] ->
  (exists w',
      gt_dbus_queue_try_pop_message ctx out w =
        ([], Returned ((false, None), w')) /\
      w' = w /\
      gt_dbus_queue_get_n_messages (self w') = 0%Z) /\
  (forall q : GtDBusQueue, (0 <= gt_dbus_queue_get_n_messages q)%Z).
Proof.
  intros Hc He. split.
  - exists w. rewrite try_pop_message_spec by assumption.
    repeat split. now apply get_n_messages_empty.
  - apply get_n_messages_nonneg.
Qed.

(** ** The assertion macro *)

Lemma expected_no_messages_contains_dump (q : GtDBusQueue) :
  contains (expected_no_messages q)
    (formatted_dump (GAsyncQueue.items (server_message_queue q))).
Proof.
  exists ("Expected no messages, but saw " ++
          format_unsigned (gt_dbus_queue_get_n_messages q) ++ ":" ++
          newline)%string, ""%string.
  unfold expected_no_messages.
  rewrite string_app_empty_r.
  now rewrite !string_app_assoc.
Qed.

Lemma assert_no_messages_spec (q : GtDBusQueue) :
  gt_dbus_queue_assert_no_messages q =
  if (gt_dbus_queue_get_n_messages q >? 0)%Z
  then ([EvAsyncQueueLock; EvAsyncQueueUnlock],
        Aborted (AssertionFailed (expected_no_messages q)))
  else ([], Returned (tt, q)).
Proof.
  unfold gt_dbus_queue_assert_no_messages, bind at 1, get at 1.
  destruct (gt_dbus_queue_get_n_messages q >? 0)%Z; [|reflexivity].
  unfold bind. rewrite format_messages_spec. reflexivity.
Qed.

(** C5: [gt_dbus_queue_assert_no_messages] either passes, returning with
    the queue untouched and nothing done, exactly when
    [gt_dbus_queue_get_n_messages] is 0; or, when the count is positive,
    fails the assertion with a message that contains the formatted dump of
    every pending message. *)
Theorem C5_assert_no_messages (q : GtDBusQueue) :
  (gt_dbus_queue_get_n_messages q = 0%Z /\
   gt_dbus_queue_assert_no_messages q = ([], Returned (tt, q)))
  \/
  ((0 < gt_dbus_queue_get_n_messages q)%Z /\
   exists tr message,
     gt_dbus_queue_assert_no_messages q =
       (tr, Aborted (AssertionFailed message)) /\
     contains message
       (formatted_dump (GAsyncQueue.items (server_message_queue q)))).
Proof.
  rewrite assert_no_messages_spec.
  pose proof (get_n_messages_nonneg q) as Hn.
  destruct (gt_dbus_queue_get_n_messages q >? 0)%Z eqn:E.
  - right. split; [lia|].
    eexists _, _. split; [reflexivity|].
    apply expected_no_messages_contains_dump.
  - left. split; [lia | reflexivity].
Qed.

(** ** The owned-ID arrays *)

Lemma find_id_none (a : GArray.t) (id : guint) :
  forall i, find_id a id i = None <-> ~ In id a.
Proof.
  induction a as [|x a IH]; intros i; simpl.
  - split; [intros _ [] | reflexivity].
  - destruct (N.eqb_spec x id) as [->|Hne].
    + split; [discriminate | intros H; exfalso; apply H; now left].
    + rewrite IH. split; intros H.
      * intros [E|E]; [exact (Hne E) | exact (H E)].
      * intros Hin. apply H. now right.
Qed.

Lemma find_id_some (a : GArray.t) (id : guint) :
  forall i j, find_id a id i = Some j ->
    exists pre post,
      a = pre ++ id :: post /\ j = i + List.length pre /\ ~ In id pre.
Proof.
  induction a as [|x a IH]; intros i j; simpl; [discriminate|].
  destruct (N.eqb_spec x id) as [->|Hne].
  - intros [= <-]. exists [], a. simpl. repeat split; [lia | intros []].
  - intros H. destruct (IH _ _ H) as (pre & post & -> & -> & Hpre).
    exists (x :: pre), post. simpl. repeat split; [lia|].
    intros [E|E]; [exact (Hne E) | exact (Hpre E)].
Qed.

Lemma skipn_past_middle {A} (pre post : list A) (x : A) :
  skipn (S (List.length pre)) (pre ++ x :: post) = post.
Proof. induction pre as [|y pre IH]; simpl; [reflexivity | exact IH]. Qed.

Lemma firstn_before_middle {A} (pre rest : list A) :
  firstn (List.length pre) (pre ++ rest) = pre.
Proof.
  induction pre as [|y pre IH]; simpl; [now destruct rest | now rewrite IH].
Qed.

Lemma remove_index_fast_split (pre post : list guint) (id : guint) :
  Permutation (pre ++ post)
    (GArray.remove_index_fast (pre ++ id :: post) (List.length pre)).
Proof.
  unfold GArray.remove_index_fast.
  rewrite firstn_before_middle, skipn_past_middle.
  destruct post as [|p post'] using rev_ind.
  - rewrite length_app; simpl.
    replace (List.length pre + 1 - 1) with (List.length pre) by lia.
    rewrite Nat.eqb_refl, removelast_last, app_nil_r. reflexivity.
  - clear IHpost'.
    destruct (Nat.eqb_spec (List.length pre)
                (List.length (pre ++ id :: post' ++ [p]) - 1)) as [E|_].
    + rewrite length_app in E; simpl in E. rewrite length_app in E.
      simpl in E. lia.
    + replace (pre ++ id :: post' ++ [p]) with ((pre ++ id :: post') ++ [p])
        by now rewrite <- app_assoc.
      rewrite last_last.
      replace (pre ++ p :: post' ++ [p]) with ((pre ++ p :: post') ++ [p])
        by now rewrite <- app_assoc.
      rewrite removelast_last.
      apply Permutation_app_head. symmetry. apply Permutation_cons_append.
Qed.

Lemma unown_name_untracked (q : GtDBusQueue) (id : guint) :
  connected q -> id <> 0%N -> ~ In id (name_ids q) ->
  gt_dbus_queue_unown_name id q =
  ([EvMutexLock; EvMutexUnlock],
   Aborted (AssertionFailed "code should not be reached")).
Proof.
  unfold connected; intros Hc Hid Hin.
  unfold gt_dbus_queue_unown_name, bind at 1, get at 1,
    g_return_val_if_fail.
  rewrite Hc. apply N.eqb_neq in Hid; rewrite Hid; simpl.
  apply (find_id_none _ _ 0) in Hin.
  unfold bind, emit. rewrite Hin. reflexivity.
Qed.

Lemma unown_name_tracked (q : GtDBusQueue) (id : guint) :
  connected q -> id <> 0%N -> In id (name_ids q) ->
  exists ids',
    gt_dbus_queue_unown_name id q =
      ([EvMutexLock; EvMutexUnlock; EvBusUnownName id],
       Returned (tt, set_name_ids q ids')) /\
    Permutation (name_ids q) (id :: ids').
Proof.
  unfold connected; intros Hc Hid Hin.
  unfold gt_dbus_queue_unown_name, bind at 1, get at 1,
    g_return_val_if_fail.
  rewrite Hc. apply N.eqb_neq in Hid; rewrite Hid; simpl.
  destruct (find_id (name_ids q) id 0) as [i|] eqn:F.
  - destruct (find_id_some _ _ _ _ F) as (pre & post & E & -> & _).
    exists (GArray.remove_index_fast (name_ids q) (0 + List.length pre)).
    split; [reflexivity|].
    rewrite E; simpl.
    apply Permutation_sym, Permutation_cons_app, Permutation_sym.
    apply remove_index_fast_split.
  - apply find_id_none in F. contradiction.
Qed.

(** C6 (as the code has it): on a connected queue and for a non-zero
    name-ownership ID, [gt_dbus_queue_unown_name] with an ID that is not
    tracked fails [g_assert_not_reached]; with a tracked ID it releases
    that name and removes exactly that one entry, every other tracked ID
    staying in place; and, the tracked IDs being distinct, a second call
    with the same ID fails [g_assert_not_reached] too.  On a queue that is
    not connected, or with the ID 0, the call fails a [g_return_if_fail]
    precondition check instead: it logs a critical, releases and changes
    nothing, and returns, unless the log mask makes criticals fatal. *)
Theorem C6_unown_name (q : GtDBusQueue) (id : guint) :
  (connected q -> id <> 0%N -> NoDup (name_ids q) ->
   (~ In id (name_ids q) ->
    gt_dbus_queue_unown_name id q =
      ([EvMutexLock; EvMutexUnlock],
       Aborted (AssertionFailed "code should not be reached")))
   /\
   (In id (name_ids q) ->
    exists ids',
      gt_dbus_queue_unown_name id q =
        ([EvMutexLock; EvMutexUnlock; EvBusUnownName id],
         Returned (tt, set_name_ids q ids')) /\
      Permutation (name_ids q) (id :: ids') /\
      (forall other, other <> id ->
                     (In other ids' <-> In other (name_ids q))) /\
      ~ In id ids' /\
      gt_dbus_queue_unown_name id (set_name_ids q ids') =
        ([EvMutexLock; EvMutexUnlock],
         Aborted (AssertionFailed "code should not be reached"))))
  /\
  (server_thread q = None \/ id = 0%N ->
   exists expr,
     gt_dbus_queue_unown_name id q =
     ([EvCritical expr],
      if fatal_criticals then Aborted (FatalCritical expr)
      else Returned (tt, q))).
Proof.
  split.
  - intros Hc Hid Hnd. split.
    + now apply unown_name_untracked.
    + intros Hin.
      destruct (unown_name_tracked q id Hc Hid Hin) as (ids' & Heq & Hperm).
      exists ids'. split; [exact Heq|]. split; [exact Hperm|].
      assert (Hnot : ~ In id ids').
      { apply (Permutation_NoDup Hperm) in Hnd. now inversion Hnd. }
      split; [|split; [exact Hnot|]].
      * intros other Hne. split; intros H.
        -- apply (Permutation_in _ (Permutation_sym Hperm)). now right.
        -- apply (Permutation_in _ Hperm) in H. destruct H; congruence.
      * apply unown_name_untracked; [exact Hc | exact Hid | exact Hnot].
  - intros Hout.
    unfold gt_dbus_queue_unown_name, bind at 1, get at 1,
      g_return_val_if_fail.
    destruct (is_some (server_thread q)) eqn:Hc.
    + destruct Hout as [Ht| ->]; [rewrite Ht in Hc; discriminate|].
      cbn. eexists. now destruct fatal_criticals.
    + eexists. now destruct fatal_criticals.
Qed.

(** ** Teardown *)

Lemma for_each_emit {S X} (f : X -> Event) (l : list X) (s : S) :
  for_each l (fun x => emit (f x)) s = (map f l, Returned (tt, s)).
Proof.
  induction l as [|x l IH]; simpl; [reflexivity|].
  unfold bind, emit at 1. now rewrite IH.
Qed.

(** C3 (as the code has it): on a queue as [gt_dbus_queue_connect] leaves
    it, [gt_dbus_queue_disconnect] closes the client connection; takes the
    lock once and, under it, releases every owned name and unregisters
    every exported object, clearing both ID arrays; unlocks; removes the
    debug filter; closes the server connection; takes the private bus down;
    stores the quitting flag; wakes the server main context; joins the
    server thread.  The call returns when the join does: when the server
    thread comes to its end. *)
Theorem C3_disconnect_order
    (q : GtDBusQueue) (assert_queue_empty thread_exits : bool)
    (t : GThread) (client server : GDBusConnection) :
  server_thread q = Some t ->
  client_connection q = Some client ->
  server_connection q = Some server ->
  server_filter_id q <> 0%N ->
  (assert_queue_empty = true -> gt_dbus_queue_get_n_messages q = 0%Z) ->
  exists q',
    gt_dbus_queue_disconnect assert_queue_empty thread_exits q =
      ([EvConnectionClose client; EvMutexLock]
         ++ map EvBusUnownName (name_ids q)
         ++ map EvUnregisterObject (object_ids q)
         ++ [EvMutexUnlock;
             EvRemoveFilter (server_filter_id q);
             EvConnectionClose server;
             EvTestDBusDown;
             EvAtomicSetQuitting;
             EvWakeup server_context;
             EvThreadJoin t],
       if thread_exits then Returned (tt, q') else Blocked) /\
    name_ids q' = [] /\ object_ids q' = [] /\
    quitting q' = true /\ server_thread q' = None /\
    client_connection q' = None /\ server_connection q' = None /\
    server_message_queue q' = server_message_queue q.
Proof.
  intros Ht Hc Hs Hf Hempty.
  unfold gt_dbus_queue_disconnect, bind at 1, get at 1,
    g_return_val_if_fail.
  rewrite Ht. apply N.eqb_neq in Hf. simpl.
  assert (Hassert :
            (if assert_queue_empty then gt_dbus_queue_assert_no_messages
             else ret tt) q = ([], Returned (tt, q))).
  { destruct assert_queue_empty; [|reflexivity].
    rewrite assert_no_messages_spec, Hempty by reflexivity. reflexivity. }
  unfold bind at 1. rewrite Hassert.
  unfold bind at 1, get at 1. rewrite Hc, Hs, Ht, Hf.
  unfold bind, emit at 1 2, modify at 1.
  rewrite for_each_emit.
  unfold modify at 1. rewrite for_each_emit.
  destruct thread_exits; simpl.
  - eexists. split; [reflexivity|]. simpl. repeat split.
  - exists (torn_down q). split; [reflexivity|]. simpl. repeat split.
Qed.

(** ** Exporting objects *)

Lemma object_path_starts_with_slash (s : string) :
  g_variant_is_object_path s = true -> exists rest, s = String "/"%char rest.
Proof.
  destruct s as [|c rest]; simpl; [discriminate|].
  unfold is_slash at 1. destruct (Ascii.eqb_spec c "/"%char) as [->|];
    simpl; [eauto | discriminate].
Qed.

Lemma export_object_rejects (q : GtDBusQueue)
    (object_path : string) (interface_info : GDBusInterfaceInfo)
    (error_set : bool) (registered : option (guint * option string)) :
  g_variant_is_object_path object_path = false ->
  exists expr,
    gt_dbus_queue_export_object object_path interface_info error_set
      registered q =
    ([EvCritical expr],
     if fatal_criticals then Aborted (FatalCritical expr)
     else Returned ((0%N, None), q)).
Proof.
  intros Hp.
  unfold gt_dbus_queue_export_object, bind at 1, get at 1,
    g_return_val_if_fail.
  rewrite Hp. simpl.
  destruct (is_some (server_thread q)); eexists;
    destruct fatal_criticals; reflexivity.
Qed.

(** C8 (as the code has it): [gt_dbus_queue_export_object] with a malformed
    object path, in particular one that does not start with '/', fails a
    [g_return_val_if_fail] precondition check: it logs a critical and does
    nothing else (no export is requested, the queue is unchanged); it then
    returns the zero ID with no error set, unless the log mask makes
    criticals fatal, in which case the process aborts on that critical. *)
Theorem C8_export_object_malformed_path (q : GtDBusQueue)
    (object_path : string) (interface_info : GDBusInterfaceInfo)
    (error_set : bool) (registered : option (guint * option string)) :
  (g_variant_is_object_path object_path = false \/
   forall rest, object_path <> String "/"%char rest) ->
  exists expr,
    gt_dbus_queue_export_object object_path interface_info error_set
      registered q =
    ([EvCritical expr],
     if fatal_criticals then Aborted (FatalCritical expr)
     else Returned ((0%N, None), q)).
Proof.
  intros [Hp|Hp]; [now apply export_object_rejects|].
  apply export_object_rejects.
  destruct (g_variant_is_object_path object_path) eqn:E; [|reflexivity].
  destruct (object_path_starts_with_slash _ E) as [rest ->].
  now elim (Hp rest).
Qed.

(** ** The server function *)

Lemma set_server_func_first (q : GtDBusQueue)
    (func : GtDBusQueueServerFunc) (user_data : gpointer) :
  server_func q = None ->
  gt_dbus_queue_set_server_func func user_data q =
  ([EvWakeup server_context],
   Returned (tt, set_server_func (set_server_func_data q user_data)
                   (Some func))).
Proof.
  intros H. unfold gt_dbus_queue_set_server_func, bind, modify, get; simpl.
  rewrite H. reflexivity.
Qed.

Lemma set_server_func_again (q : GtDBusQueue)
    (func installed : GtDBusQueueServerFunc) (user_data : gpointer) :
  server_func q = Some installed ->
  gt_dbus_queue_set_server_func func user_data q =
  ([], Aborted (AssertionFailed "swapped")).
Proof.
  intros H. unfold gt_dbus_queue_set_server_func, bind, modify, get; simpl.
  rewrite H. reflexivity.
Qed.

Lemma count_server_func_app (a b : list Event) :
  count_server_func (a ++ b) = count_server_func a + count_server_func b.
Proof.
  induction a as [|e a IH]; simpl; [reflexivity|].
  destruct e; simpl; rewrite IH; reflexivity.
Qed.

(** Sequencing adds up the calls. *)
Lemma bind_count {S A B} (m : M S A) (k : A -> M S B) (a b : nat) :
  (forall s, count_server_func (fst (m s)) <= a) ->
  (forall x s, count_server_func (fst (k x s)) <= b) ->
  forall s, count_server_func (fst (bind m k s)) <= a + b.
Proof.
  intros Hm Hk s. unfold bind. specialize (Hm s).
  destruct (m s) as [tr [[x s']| |]]; simpl in *; try lia.
  specialize (Hk x s'). destruct (k x s') as [tr' o]; simpl in *.
  rewrite count_server_func_app. lia.
Qed.

Lemma happen_count (h : Happening) (q : GtDBusQueue) :
  count_server_func (fst (happen h q)) = 0.
Proof.
  destruct h as [inv|f d|]; simpl; [reflexivity| |reflexivity].
  unfold gt_dbus_queue_set_server_func, bind, modify, get; simpl.
  destruct (server_func q); reflexivity.
Qed.

Lemma for_each_happen_count (batch : list Happening) :
  forall q, count_server_func (fst (for_each batch happen q)) = 0.
Proof.
  induction batch as [|h batch IH]; intros q; simpl; [reflexivity|].
  unfold bind. pose proof (happen_count h q) as Hh.
  destruct (happen h q) as [tr [[x q']| |]]; simpl in *; try assumption.
  specialize (IH q'). destruct (for_each batch happen q') as [tr' o].
  simpl in *. rewrite count_server_func_app. lia.
Qed.

Lemma dispatch_count (ctx : GMainContext) (may_block : bool)
    (batch : list Happening) (q : GtDBusQueue) :
  count_server_func (fst (dispatch ctx may_block batch q)) = 0.
Proof.
  unfold dispatch, bind, emit at 1; simpl.
  pose proof (for_each_happen_count batch q) as H.
  destruct (for_each batch happen q) as [tr [[x q']| |]]; simpl in *;
    try assumption.
  rewrite count_server_func_app; simpl. lia.
Qed.

Lemma iterate_while_count (cond : GtDBusQueue -> bool) (ctx : GMainContext)
    (batches : list (list Happening)) :
  forall q, count_server_func (fst (iterate_while cond ctx batches q)) = 0.
Proof.
  induction batches as [|batch rest IH]; intros q; simpl;
    destruct (cond q); try reflexivity.
  pose proof (dispatch_count ctx true batch q) as H.
  destruct (dispatch ctx true batch q) as [tr [[x q']| |]]; simpl in *;
    try assumption.
  specialize (IH q'). destruct (iterate_while cond ctx rest q') as [tr' o].
  simpl in *. rewrite count_server_func_app. lia.
Qed.

Lemma iterate_ready_count (ctx : GMainContext)
    (batches : list (list Happening)) :
  forall q, count_server_func (fst (iterate_ready ctx batches q)) = 0.
Proof.
  induction batches as [|batch rest IH]; intros q; simpl; [reflexivity|].
  pose proof (dispatch_count ctx false batch q) as H.
  destruct (dispatch ctx false batch q) as [tr [[x q']| |]]; simpl in *;
    try assumption.
  destruct x; [|assumption].
  specialize (IH q'). destruct (iterate_ready ctx rest q') as [tr' o].
  simpl in *. rewrite count_server_func_app. lia.
Qed.

Lemma server_thread_calls_at_most_once (w : World) :
  count_server_func (fst (gt_dbus_queue_server_thread_cb w)) <= 1.
Proof.
  unfold gt_dbus_queue_server_thread_cb.
  apply bind_count with (a := 0) (b := 1); [reflexivity|]; intros _.
  apply bind_count with (a := 0) (b := 1);
    [intros s; now rewrite iterate_while_count|]; intros _.
  apply bind_count with (a := 0) (b := 1); [reflexivity|]; intros w0.
  apply bind_count with (a := 1) (b := 0).
  - intros s. destruct (server_func (self w0)) as [f|]; [|simpl; lia].
    unfold bind, emit, call_server_func.
    destruct (server_func_body f (server_func_data (self w0)) s);
      simpl; lia.
  - intros _.
    apply bind_count with (a := 0) (b := 0);
      [intros s; now rewrite iterate_while_count|]; intros _.
    apply bind_count with (a := 0) (b := 0);
      [intros s; now rewrite iterate_ready_count|]; intros _.
    reflexivity.
Qed.

Lemma count_zero_not_in (tr : list Event)
    (f : GtDBusQueueServerFunc) (d : gpointer) :
  count_server_func tr = 0 -> ~ In (EvServerFunc f d) tr.
Proof.
  induction tr as [|e tr IH]; simpl; [intros _ []|].
  destruct e; simpl; intros H [E|E]; try discriminate; now apply (IH H).
Qed.

Lemma in_bind {S A B} (m : M S A) (k : A -> M S B) (s : S) (e : Event) :
  In e (fst (bind m k s)) ->
  In e (fst (m s)) \/
  exists tr x s', m s = (tr, Returned (x, s')) /\ In e (fst (k x s')).
Proof.
  unfold bind. destruct (m s) as [tr [[x s']| |]]; simpl; auto.
  destruct (k x s') as [tr' o] eqn:E; simpl. intros H.
  apply in_app_or in H as [H|H]; [now left|].
  right. exists tr, x, s'. rewrite E. auto.
Qed.

(** Who installed what the slot holds: a happening leaves the slot alone
    unless it is the successful [gt_dbus_queue_set_server_func]. *)
Lemma happen_installed (h : Happening) (q q' : GtDBusQueue)
    (tr : list Event) (f : GtDBusQueueServerFunc) (d : gpointer) :
  happen h q = (tr, Returned (tt, q')) ->
  installed q' f d ->
  installed q f d \/ h = HSetServerFunc f d.
Proof.
  unfold installed. destruct h as [inv|f1 d1|]; simpl.
  - unfold gt_dbus_queue_method_call, bind, emit, modify; simpl.
    intros [= <- <-]; simpl. now left.
  - destruct (server_func q) as [f0|] eqn:E.
    + rewrite (set_server_func_again q f1 f0 d1 E). discriminate.
    + rewrite (set_server_func_first q f1 d1 E).
      intros [= <- <-]; simpl. intros [[= ->] ->]. now right.
  - unfold modify. intros [= <- <-]; simpl. now left.
Qed.

Lemma for_each_happen_installed (batch : list Happening)
    (f : GtDBusQueueServerFunc) (d : gpointer) :
  forall q q' tr,
    for_each batch happen q = (tr, Returned (tt, q')) ->
    installed q' f d ->
    installed q f d \/ In (HSetServerFunc f d) batch.
Proof.
  induction batch as [|h batch IH]; intros q q' tr; simpl.
  - unfold ret. intros [= <- <-]. now left.
  - unfold bind. destruct (happen h q) as [tr1 [[[] q1]| |]] eqn:E1;
      try discriminate.
    destruct (for_each batch happen q1) as [tr2 o] eqn:E2.
    intros [= <- ->] Hi.
    destruct (IH _ _ _ E2 Hi) as [H|H]; [|now right; right].
    destruct (happen_installed _ _ _ _ _ _ E1 H) as [H'|H']; [now left|].
    right; left. now symmetry.
Qed.

Lemma dispatch_installed (ctx : GMainContext) (may_block : bool)
    (batch : list Happening) (q q' : GtDBusQueue) (tr : list Event)
    (x : bool) (f : GtDBusQueueServerFunc) (d : gpointer) :
  dispatch ctx may_block batch q = (tr, Returned (x, q')) ->
  installed q' f d ->
  installed q f d \/ In (HSetServerFunc f d) batch.
Proof.
  unfold dispatch, bind, emit at 1; simpl.
  destruct (for_each batch happen q) as [tr1 [[[] q1]| |]] eqn:E;
    try discriminate.
  simpl. intros [= <- <- <-]. now apply for_each_happen_installed with tr1.
Qed.

Lemma iterate_while_installed (cond : GtDBusQueue -> bool)
    (ctx : GMainContext) (batches : list (list Happening))
    (f : GtDBusQueueServerFunc) (d : gpointer) :
  forall q w' tr,
    iterate_while cond ctx batches q = (tr, Returned (tt, w')) ->
    installed (self w') f d ->
    installed q f d \/ In (HSetServerFunc f d) (List.concat batches).
Proof.
  induction batches as [|batch rest IH]; intros q w' tr; simpl;
    destruct (cond q); try discriminate;
    try (intros [= <- <-]; simpl; now left).
  destruct (dispatch ctx true batch q) as [tr1 [[x q1]| |]] eqn:E1;
    try discriminate.
  destruct (iterate_while cond ctx rest q1) as [tr2 o] eqn:E2.
  intros [= <- ->] Hi.
  destruct (IH _ _ _ E2 Hi) as [H|H].
  - destruct (dispatch_installed _ _ _ _ _ _ _ _ _ E1 H) as [H'|H']; [now left|].
    right. apply in_or_app. now left.
  - right. apply in_or_app. now right.
Qed.

(** Whatever the server thread calls was installed: it was in the slot
    when the thread started, or a [gt_dbus_queue_set_server_func] of
    another thread put it there while the thread waited. *)
Lemma server_thread_calls_installed (w : World)
    (f : GtDBusQueueServerFunc) (d : gpointer) :
  In (EvServerFunc f d) (fst (gt_dbus_queue_server_thread_cb w)) ->
  installed (self w) f d \/
  In (HSetServerFunc f d) (List.concat (pending w)).
Proof.
  unfold gt_dbus_queue_server_thread_cb. intros H.
  apply in_bind in H as [H|(tr0 & [] & w0 & E0 & H)];
    [simpl in H; destruct H as [H|[]]; discriminate|].
  unfold emit in E0. injection E0 as <- <-.
  apply in_bind in H as [H|(tr1 & [] & w1 & E1 & H)].
  { exfalso. revert H. apply count_zero_not_in, iterate_while_count. }
  apply in_bind in H as [H|(tr2 & w2 & w2' & E2 & H)]; [destruct H|].
  unfold get in E2. injection E2 as <- <- <-.
  apply in_bind in H as [H|(tr3 & [] & w3 & E3 & H)].
  - destruct (server_func (self w1)) as [f1|] eqn:Ef; [|destruct H].
    apply in_bind in H as [H|(tr4 & [] & w4 & E4 & H)].
    + simpl in H. destruct H as [[= <- <-]|[]].
      eapply iterate_while_installed; [exact E1|]. now split.
    + exfalso. unfold call_server_func in H.
      destruct (server_func_body f1 (server_func_data (self w1)) w4);
        destruct H.
  - exfalso.
    apply in_bind in H as [H|(tr4 & [] & w4 & E4 & H)].
    { revert H. apply count_zero_not_in, iterate_while_count. }
    apply in_bind in H as [H|(tr5 & [] & w5 & E5 & H)].
    { revert H. apply count_zero_not_in, iterate_ready_count. }
    simpl in H. destruct H as [H|[]]; discriminate.
Qed.

Lemma connect_starts_server_thread (q : GtDBusQueue)
    (client server : GDBusConnection) (filter_id : guint) (t : GThread) :
  server_thread q = None ->
  exists q',
    gt_dbus_queue_connect false (Some client) (Some server) filter_id t q =
      ([EvPushThreadDefault client_context; EvTestDBusUp;
        EvPopThreadDefault client_context;
        EvPushThreadDefault server_context;
        EvPopThreadDefault server_context;
        EvAddFilter filter_id; EvThreadNew t],
       Returned (true, q')) /\
    server_thread q' = Some t /\
    client_connection q' = Some client /\
    server_connection q' = Some server /\
    server_func q' = server_func q /\
    server_message_queue q' = server_message_queue q.
Proof.
  intros H. unfold gt_dbus_queue_connect, bind at 1, get at 1,
    g_return_val_if_fail.
  rewrite H. simpl. eexists. split; [reflexivity|]. simpl. repeat split.
Qed.

(** C7: the server-function slot is write-once.  A call of
    [gt_dbus_queue_set_server_func] that finds the slot empty installs the
    callback and its user data (and wakes the server context); any call
    that finds it filled, whatever its arguments, fails [g_assert
    (swapped)], so every second call does.  The server thread, which
    [gt_dbus_queue_connect] starts, calls the server function at most once,
    and what it calls is the installed callback with the installed data. *)
Theorem C7_server_func_is_set_once
    (q : GtDBusQueue) (func : GtDBusQueueServerFunc) (user_data : gpointer)
    (w : World) :
  (match server_func q with
   | None =>
       gt_dbus_queue_set_server_func func user_data q =
       ([EvWakeup server_context],
        Returned (tt, set_server_func (set_server_func_data q user_data)
                        (Some func)))
   | Some _ =>
       gt_dbus_queue_set_server_func func user_data q =
       ([], Aborted (AssertionFailed "swapped"))
   end) /\
  (forall tr q1,
      gt_dbus_queue_set_server_func func user_data q =
        (tr, Returned (tt, q1)) ->
      installed q1 func user_data /\
      forall func2 user_data2,
        gt_dbus_queue_set_server_func func2 user_data2 q1 =
        ([], Aborted (AssertionFailed "swapped"))) /\
  count_server_func (fst (gt_dbus_queue_server_thread_cb w)) <= 1 /\
  (forall f d,
      In (EvServerFunc f d) (fst (gt_dbus_queue_server_thread_cb w)) ->
      installed (self w) f d \/
      In (HSetServerFunc f d) (List.concat (pending w))) /\
  (forall client server filter_id t,
      server_thread q = None ->
      exists tr q',
        gt_dbus_queue_connect false (Some client) (Some server) filter_id
          t q =
          (tr ++ [EvThreadNew t], Returned (true, q')) /\
        server_thread q' = Some t).
Proof.
  split; [|split; [|split; [|split]]].
  - destruct (server_func q) as [f0|] eqn:E.
    + now apply set_server_func_again with f0.
    + now apply set_server_func_first.
  - intros tr q1. destruct (server_func q) as [f0|] eqn:E.
    + rewrite (set_server_func_again q func f0 user_data E). discriminate.
    + rewrite (set_server_func_first q func user_data E). intros [= <- <-].
      split; [now split|]. intros func2 user_data2.
      now apply set_server_func_again with func.
  - apply server_thread_calls_at_most_once.
  - apply server_thread_calls_installed.
  - intros client server filter_id t Ht.
    destruct (connect_starts_server_thread q client server filter_id t Ht)
      as (q' & E & Hq' & _).
    exists [EvPushThreadDefault client_context; EvTestDBusUp;
            EvPopThreadDefault client_context;
            EvPushThreadDefault server_context;
            EvPopThreadDefault server_context; EvAddFilter filter_id], q'.
    split; [exact E | exact Hq'].
Qed.

(** ** Matching a popped message *)

Lemma g_variant_equal_eq (one two : GVariant) :
  g_variant_equal one two = true <-> one = two.
Proof.
  unfold g_variant_equal. rewrite andb_true_iff, !String.eqb_eq.
  destruct one, two; simpl. split.
  - now intros [-> ->].
  - now intros [= -> ->].
Qed.

Lemma match_client_message_spec (q : GtDBusQueue)
    (invocation : GDBusMethodInvocation)
    (path iface method : string) (parameters_string : option string)
    (client : GDBusConnection) (name : string) :
  g_variant_is_object_path path = true ->
  g_dbus_is_interface_name iface = true ->
  g_dbus_is_member_name method = true ->
  client_connection q = Some client ->
  unique_name client = Some name ->
  gt_dbus_queue_match_client_message invocation path iface method
    parameters_string q =
  match parameters_string with
  | None =>
      ([], Returned
             (String.eqb (inv_sender invocation) name &&
              String.eqb (inv_object_path invocation) path &&
              String.eqb (inv_interface_name invocation) iface &&
              String.eqb (inv_method_name invocation) method && true, q))
  | Some s =>
      match g_variant_new_parsed s with
      | Some v =>
          ([], Returned
                 (String.eqb (inv_sender invocation) name &&
                  String.eqb (inv_object_path invocation) path &&
                  String.eqb (inv_interface_name invocation) iface &&
                  String.eqb (inv_method_name invocation) method &&
                  g_variant_equal (inv_parameters invocation) v, q))
      | None => ([], Aborted (FatalError "g_variant_new_parsed"))
      end
  end.
Proof.
  intros Hp Hi Hm Hc Hn.
  unfold gt_dbus_queue_match_client_message, g_return_val_if_fail.
  rewrite Hp, Hi, Hm.
  destruct parameters_string as [s|];
    [destruct (g_variant_new_parsed s) as [v|]|];
    unfold bind, ret, abort, get, g_dbus_connection_get_unique_name,
      g_return_val_if_fail, g_str_equal; simpl;
    try reflexivity;
    rewrite Hc; simpl; rewrite Hn; reflexivity.
Qed.

(** C9: called as documented (well-formed expected strings, a client
    connection that has a unique name, a parameters string that parses if
    one is given), [gt_dbus_queue_match_client_message] logs nothing,
    leaves the queue unchanged and returns [TRUE] exactly when the sender
    is the client connection's unique name, the object path, interface name
    and method name equal the expected strings and, if a parameters string
    is given, the parameters equal what it parses to; without a parameters
    string the parameters play no part. *)
Theorem C9_match_client_message (q : GtDBusQueue)
    (invocation : GDBusMethodInvocation)
    (path iface method : string) (parameters_string : option string)
    (client : GDBusConnection) (name : string) :
  g_variant_is_object_path path = true ->
  g_dbus_is_interface_name iface = true ->
  g_dbus_is_member_name method = true ->
  client_connection q = Some client ->
  unique_name client = Some name ->
  (forall s, parameters_string = Some s -> g_variant_new_parsed s <> None) ->
  exists matches,
    gt_dbus_queue_match_client_message invocation path iface method
      parameters_string q = ([], Returned (matches, q)) /\
    (matches = true <->
     inv_sender invocation = name /\
     inv_object_path invocation = path /\
     inv_interface_name invocation = iface /\
     inv_method_name invocation = method /\
     forall s, parameters_string = Some s ->
               g_variant_new_parsed s = Some (inv_parameters invocation)).
Proof.
  intros Hp Hi Hm Hc Hn Hparse.
  rewrite (match_client_message_spec q invocation path iface method
             parameters_string client name Hp Hi Hm Hc Hn).
  destruct parameters_string as [s|].
  - destruct (g_variant_new_parsed s) as [v|] eqn:E;
      [|now elim (Hparse s eq_refl)].
    eexists. split; [reflexivity|].
    rewrite !andb_true_iff, !String.eqb_eq, g_variant_equal_eq.
    split.
    + intros [[[[H1 H2] H3] H4] H5]. repeat split; try assumption.
      intros s' [= <-]. now rewrite E, H5.
    + intros (H1 & H2 & H3 & H4 & H5). repeat split; try assumption.
      specialize (H5 s eq_refl). rewrite E in H5. now injection H5.
  - eexists. split; [reflexivity|].
    rewrite !andb_true_iff, !String.eqb_eq.
    split.
    + intros [[[[H1 H2] H3] H4] _]. repeat split; try assumption.
      discriminate.
    + intros (H1 & H2 & H3 & H4 & _). repeat split; assumption.
Qed.

(** ** Deliveries and the blocking pop *)

Lemma method_calls_cons (batch : list Happening)
    (rest : list (list Happening)) :
  method_calls (batch :: rest) = calls_of batch ++ method_calls rest.
Proof. unfold method_calls, calls_of; simpl. apply flat_map_app. Qed.

Lemma calls_of_cons (h : Happening) (batch : list Happening) :
  calls_of (h :: batch) = calls_of [h] ++ calls_of batch.
Proof. unfold calls_of; simpl. now rewrite app_nil_r. Qed.

(** A happening appends the call it delivers, if any, and touches neither
    the queued messages nor the server thread otherwise; the only way it
    can stop the process is the second [gt_dbus_queue_set_server_func]. *)
Lemma happen_effect (h : Happening) (q : GtDBusQueue) :
  match happen h q with
  | (_, Returned (_, q')) =>
      GAsyncQueue.items (server_message_queue q') =
        GAsyncQueue.items (server_message_queue q) ++ calls_of [h] /\
      server_thread q' = server_thread q
  | (_, Aborted a) =>
      a = AssertionFailed "swapped" /\ exists f d, h = HSetServerFunc f d
  | (_, Blocked) => False
  end.
Proof.
  destruct h as [inv|f d|]; simpl.
  - split; reflexivity.
  - unfold gt_dbus_queue_set_server_func, bind, modify, get; simpl.
    destruct (server_func q); simpl.
    + split; [reflexivity | eauto].
    + now rewrite app_nil_r.
  - now rewrite app_nil_r.
Qed.

Lemma for_each_happen_effect (batch : list Happening) :
  forall q,
    match for_each batch happen q with
    | (_, Returned (_, q')) =>
        GAsyncQueue.items (server_message_queue q') =
          GAsyncQueue.items (server_message_queue q) ++ calls_of batch /\
        server_thread q' = server_thread q
    | (_, Aborted a) =>
        a = AssertionFailed "swapped" /\
        exists f d, In (HSetServerFunc f d) batch
    | (_, Blocked) => False
    end.
Proof.
  induction batch as [|h batch IH]; intros q.
  - simpl. now rewrite app_nil_r.
  - cbn [for_each]. rewrite calls_of_cons.
    unfold bind. pose proof (happen_effect h q) as Hh.
    destruct (happen h q) as [tr [[[] q1]| |]]; [| |contradiction].
    + specialize (IH q1).
      destruct (for_each batch happen q1) as [tr' [[[] q2]|a|]];
        [| |contradiction].
      * destruct Hh as [Hh1 Hh2], IH as [IH1 IH2].
        rewrite IH1, Hh1, IH2, Hh2, <- app_assoc. split; reflexivity.
      * destruct IH as [-> (f & d & Hin)]. split; [reflexivity|].
        exists f, d. now right.
    + destruct Hh as [-> (f & d & ->)]. split; [reflexivity|].
      exists f, d. now left.
Qed.

Lemma dispatch_effect (ctx : GMainContext) (may_block : bool)
    (batch : list Happening) (q : GtDBusQueue) :
  match dispatch ctx may_block batch q with
  | (_, Returned (_, q')) =>
      GAsyncQueue.items (server_message_queue q') =
        GAsyncQueue.items (server_message_queue q) ++ calls_of batch /\
      server_thread q' = server_thread q
  | (_, Aborted a) =>
      a = AssertionFailed "swapped" /\
      exists f d, In (HSetServerFunc f d) batch
  | (_, Blocked) => False
  end.
Proof.
  unfold dispatch, bind, emit at 1; simpl.
  pose proof (for_each_happen_effect batch q) as H.
  destruct (for_each batch happen q) as [tr [[[] q1]| |]]; simpl; exact H.
Qed.

(** The wait loop of the blocking pop: when it returns, it hands out the
    first message in arrival order; when the process stops in it, that is
    the failed assertion of a second [gt_dbus_queue_set_server_func]. *)
Lemma pop_message_loop_effect (ctx : GMainContext)
    (batches : list (list Happening)) :
  forall q,
    match pop_message_loop ctx batches q with
    | (_, Returned (o, w')) =>
        exists invocation,
          o = Some invocation /\
          GAsyncQueue.items (server_message_queue q) ++ method_calls batches =
            invocation :: arrivals w' /\
          server_thread (self w') = server_thread q /\
          exists consumed, batches = consumed ++ pending w'
    | (_, Aborted a) => a = AssertionFailed "swapped" /\ ~ quiet batches
    | (_, Blocked) =>
        GAsyncQueue.items (server_message_queue q) ++ method_calls batches
        = []
    end.
Proof.
  induction batches as [|batch rest IH]; intros q; simpl;
    unfold GAsyncQueue.try_pop;
    destruct (GAsyncQueue.items (server_message_queue q))
      as [|m its] eqn:Eq; simpl.
  - reflexivity.
  - exists m. unfold arrivals; simpl. repeat split. now exists [].
  - pose proof (dispatch_effect ctx true batch q) as Hd.
    destruct (dispatch ctx true batch q) as [tr [[x q1]|a|]];
      [| |contradiction].
    + specialize (IH q1). destruct Hd as [Hd1 Hd2].
      rewrite Eq in Hd1; simpl in Hd1.
      destruct (pop_message_loop ctx rest q1) as [tr' [[o w']|a|]].
      * destruct IH as (inv & -> & IH1 & IH2 & consumed & IH3). exists inv.
        rewrite method_calls_cons, <- Hd1, IH1, IH2, Hd2. repeat split.
        exists (batch :: consumed). now rewrite IH3.
      * destruct IH as [-> Hq]. split; [reflexivity|].
        intros Hquiet. apply Hq. intros f d Hin.
        apply (Hquiet f d). simpl. apply in_or_app. now right.
      * rewrite method_calls_cons, <- Hd1. exact IH.
    + destruct Hd as [-> (f & d & Hin)]. split; [reflexivity|].
      intros Hquiet. apply (Hquiet f d). simpl. apply in_or_app. now left.
  - exists m. unfold arrivals; simpl. repeat split. now exists [].
Qed.

Lemma pop_message_spec (ctx : GMainContext) (out : bool) (w : World) :
  connected (self w) ->
  match gt_dbus_queue_pop_message ctx out w with
  | (_, Returned ((popped, o), w')) =>
      popped = true /\
      exists invocation,
        o = (if out then Some invocation else None) /\
        arrivals w = invocation :: arrivals w' /\
        connected (self w') /\
        exists consumed, pending w = consumed ++ pending w'
  | (_, Aborted a) => a = AssertionFailed "swapped" /\ ~ quiet (pending w)
  | (_, Blocked) => arrivals w = []
  end.
Proof.
  unfold connected; intros Hc.
  unfold gt_dbus_queue_pop_message, gt_dbus_queue_pop_message_internal,
    bind at 1, get at 1, g_return_val_if_fail.
  rewrite Hc. simpl. unfold bind at 1.
  pose proof (pop_message_loop_effect ctx (pending w) (self w)) as H.
  destruct (pop_message_loop ctx (pending w) (self w))
    as [tr [[o w']|a|]]; [| exact H | exact H].
  destruct H as (inv & -> & H1 & H2 & H3). simpl.
  split; [reflexivity|]. exists inv. repeat split.
  - exact H1.
  - unfold connected. now rewrite H2.
  - exact H3.
Qed.



Local Arguments saw_other_message : simpl never.
Local Arguments saw_no_messages : simpl never.



(** ** Arrival order *)

Lemma try_pop_message_unchanged (ctx : GMainContext) (out : bool)
    (w : World) :
  match gt_dbus_queue_try_pop_message ctx out w with
  | (_, Returned ((popped, o), w')) => popped = false /\ o = None /\ w' = w
  | (_, Aborted a) => exists expr, a = FatalCritical expr
  | (_, Blocked) => False
  end.
Proof.
  unfold gt_dbus_queue_try_pop_message, gt_dbus_queue_pop_message_internal,
    bind, get, g_return_val_if_fail, ret; simpl.
  destruct (is_some (server_thread (self w))); simpl.
  - now destruct out.
  - destruct fatal_criticals; simpl; eauto.
Qed.

Lemma iteration_effect (ctx : GMainContext) (may_block : bool) (w : World) :
  match g_main_context_iteration ctx may_block w with
  | (_, Returned (_, w')) => arrivals w' = arrivals w
  | _ => True
  end.
Proof.
  unfold g_main_context_iteration, arrivals.
  destruct w as [q [|batch rest]]; simpl.
  - now destruct may_block.
  - unfold liftQ; simpl.
    pose proof (dispatch_effect ctx may_block batch q) as Hd.
    destruct (dispatch ctx may_block batch q) as [tr [[x q1]|a|]];
      [|exact I|exact I].
    destruct Hd as [Hd _]. simpl.
    now rewrite Hd, method_calls_cons, app_assoc.
Qed.

(** One action of a schedule takes at most the first message in arrival
    order and leaves the order of the others alone. *)
Lemma perform_effect (a : Action) (w : World) :
  match perform a w with
  | (_, Returned (o, w')) =>
      arrivals w =
      match o with Some invocation => [invocation] | None => [] end
        ++ arrivals w'
  | _ => True
  end.
Proof.
  destruct a as [ctx|ctx| |ctx may_block]; simpl; unfold bind.
  - destruct (is_some (server_thread (self w))) eqn:Hc.
    + pose proof (pop_message_spec ctx true w Hc) as H.
      destruct (gt_dbus_queue_pop_message ctx true w)
        as [tr [[[popped o] w']|a|]]; [|exact I|exact I].
      destruct H as (_ & inv & -> & H & _). simpl. exact H.
    + unfold gt_dbus_queue_pop_message, gt_dbus_queue_pop_message_internal,
        bind, get, g_return_val_if_fail. rewrite Hc.
      destruct fatal_criticals; simpl; [exact I | reflexivity].
  - pose proof (try_pop_message_unchanged ctx true w) as H.
    destruct (gt_dbus_queue_try_pop_message ctx true w)
      as [tr [[[popped o] w']|a|]]; [|exact I|exact I].
    destruct H as (_ & -> & ->). reflexivity.
  - unfold liftQ. rewrite format_messages_spec. simpl.
    now destruct w.
  - pose proof (iteration_effect ctx may_block w) as H.
    destruct (g_main_context_iteration ctx may_block w)
      as [tr [[x w']|a|]]; [|exact I|exact I].
    simpl. now rewrite H.
Qed.

(** FIFO: under every schedule of pops, non-blocking pops, dumps and
    main-loop iterations, by whichever threads, the messages handed out
    are, in order, the first messages in arrival order; none is skipped,
    duplicated or reordered. *)
Lemma run_schedule_fifo (s : list Action) :
  forall w,
    match run_schedule s w with
    | (_, Returned (popped, w')) => arrivals w = popped ++ arrivals w'
    | _ => True
    end.
Proof.
  induction s as [|a s IH]; intros w; simpl; [reflexivity|].
  unfold bind at 1. pose proof (perform_effect a w) as Ha.
  destruct (perform a w) as [tr [[o w1]|x|]]; [|exact I|exact I].
  unfold bind at 1. specialize (IH w1).
  destruct (run_schedule s w1) as [tr1 [[more w2]|x|]]; [|exact I|exact I].
  simpl. rewrite Ha, IH. now destruct o.
Qed.

Lemma quiet_suffix (consumed rest : list (list Happening)) :
  quiet (consumed ++ rest) -> quiet rest.
Proof.
  unfold quiet. intros H f d Hin. apply (H f d).
  rewrite concat_app. apply in_or_app. now right.
Qed.

(** As many blocking pops as there are arrivals return exactly the
    arrivals, in arrival order. *)
Lemma blocking_pops_return_arrivals (ctx : GMainContext) :
  forall n w,
    connected (self w) -> quiet (pending w) ->
    List.length (arrivals w) = n ->
    exists tr w',
      run_schedule (repeat (APop ctx) n) w =
        (tr, Returned (arrivals w, w')) /\
      arrivals w' = [].
Proof.
  induction n as [|n IH]; intros w Hc Hq Hlen; simpl.
  - apply length_zero_iff_nil in Hlen. rewrite Hlen.
    exists [], w. now split.
  - unfold bind at 1, bind at 1.
    pose proof (pop_message_spec ctx true w Hc) as Hpop.
    destruct (gt_dbus_queue_pop_message ctx true w)
      as [tr [[[popped o] w1]|a|]].
    + destruct Hpop as (-> & inv & -> & Ha & Hc1 & consumed & Hp).
      rewrite Hp in Hq. apply quiet_suffix in Hq.
      rewrite Ha in Hlen. simpl in Hlen. injection Hlen as Hlen.
      destruct (IH w1 Hc1 Hq Hlen) as (tr1 & w2 & E & Hw2).
      simpl. unfold bind at 1. rewrite E. simpl.
      eexists _, w2. rewrite Ha. now split.
    + now destruct Hpop as [_ Hn].
    + rewrite Hpop in Hlen. discriminate.
Qed.

(* ===================================================================== *)
(** * Further properties of the mock service                              *)
(* ===================================================================== *)

(** ** Connecting and disconnecting *)

Lemma has_blocking_iteration_app (a b : list Event) :
  has_blocking_iteration (a ++ b) =
  has_blocking_iteration a || has_blocking_iteration b.
Proof.
  induction a as [|e a IH]; simpl; [reflexivity|].
  destruct e; try exact IH. destruct may_block; [reflexivity | exact IH].
Qed.

Lemma has_blocking_iteration_map {X} (f : X -> Event) (l : list X) :
  (forall x, has_blocking_iteration [f x] = false) ->
  has_blocking_iteration (map f l) = false.
Proof.
  intros Hf. induction l as [|x l IH]; [reflexivity|]. cbn [map].
  change (f x :: map f l) with ([f x] ++ map f l).
  now rewrite has_blocking_iteration_app, Hf, IH.
Qed.

(** What [gt_dbus_queue_disconnect] does on any connected queue whose
    emptiness assertion, if asked for, passes. *)
Lemma disconnect_tears_down (q : GtDBusQueue)
    (assert_queue_empty thread_exits : bool) :
  connected q ->
  (assert_queue_empty = true -> gt_dbus_queue_get_n_messages q = 0%Z) ->
  exists tr,
    gt_dbus_queue_disconnect assert_queue_empty thread_exits q =
      (tr, if thread_exits then Returned (tt, torn_down q) else Blocked) /\
    has_blocking_iteration tr = false.
Proof.
  unfold connected. intros Hc Hempty.
  unfold gt_dbus_queue_disconnect, bind at 1, get at 1,
    g_return_val_if_fail.
  rewrite Hc.
  assert (Hassert :
            (if assert_queue_empty then gt_dbus_queue_assert_no_messages
             else ret tt) q = ([], Returned (tt, q))).
  { destruct assert_queue_empty; [|reflexivity].
    rewrite assert_no_messages_spec, Hempty by reflexivity. reflexivity. }
  unfold bind at 1. rewrite Hassert.
  unfold bind at 1, get at 1.
  unfold bind, emit at 1 2, modify at 1.
  destruct q as [bus [t|] filter func data quit sconn names objects mq cconn];
    [|discriminate].
  cbn [client_connection name_ids object_ids server_filter_id
       server_connection server_thread].
  destruct cconn as [c|]; cbn [emit ret];
    rewrite for_each_emit; unfold modify at 1; rewrite for_each_emit;
    destruct (N.eqb_spec filter 0) as [->|_]; destruct sconn as [s|];
    destruct thread_exits; cbn;
    (eexists; split; [reflexivity|]);
    repeat (rewrite ?has_blocking_iteration_app; cbn);
    rewrite !has_blocking_iteration_map by reflexivity; reflexivity.
Qed.

(** X1: on a connected queue that still counts messages,
    [gt_dbus_queue_disconnect] with [assert_queue_empty] fails the
    assertion with a message that contains the dump of the pending
    messages, and it does so before any teardown: no connection is closed,
    no name released, no object unregistered. *)
Theorem X1_disconnect_asserts_before_teardown
    (q : GtDBusQueue) (thread_exits : bool) :
  connected q ->
  (0 < gt_dbus_queue_get_n_messages q)%Z ->
  gt_dbus_queue_disconnect true thread_exits q =
    ([EvAsyncQueueLock; EvAsyncQueueUnlock],
     Aborted (AssertionFailed (expected_no_messages q))) /\
  contains (expected_no_messages q)
    (formatted_dump (GAsyncQueue.items (server_message_queue q))).
Proof.
  unfold connected. intros Hc Hn. split.
  - unfold gt_dbus_queue_disconnect, bind at 1, get at 1,
      g_return_val_if_fail.
    rewrite Hc. unfold bind at 1.
    rewrite assert_no_messages_spec.
    apply Z.gtb_lt in Hn. rewrite Hn. reflexivity.
  - apply expected_no_messages_contains_dump.
Qed.

(** X2: when one of the two connections cannot be opened (the call having
    passed its precondition checks), [gt_dbus_queue_connect] returns
    [FALSE] with the private bus already up
    and no server thread started; the queue still counts as unconnected, so
    a later [gt_dbus_queue_disconnect] fails its precondition and takes
    nothing down. *)
Theorem X2_failed_connect_leaves_the_bus_up
    (q : GtDBusQueue) (new_client new_server : option GDBusConnection)
    (filter_id : guint) (thread : GThread)
    (assert_queue_empty thread_exits : bool) :
  server_thread q = None ->
  new_client = None \/ new_server = None ->
  exists tr q',
    gt_dbus_queue_connect false new_client new_server filter_id thread q =
      (tr, Returned (false, q')) /\
    In EvTestDBusUp tr /\ ~ In (EvThreadNew thread) tr /\
    bus_up q' = true /\ server_thread q' = None /\
    client_connection q' = new_client /\
    gt_dbus_queue_disconnect assert_queue_empty thread_exits q' =
      ([EvCritical "self->server_thread != NULL"],
       if fatal_criticals
       then Aborted (FatalCritical "self->server_thread != NULL")
       else Returned (tt, q')).
Proof.
  intros Ht Hfail.
  unfold gt_dbus_queue_connect, bind at 1, get at 1, g_return_val_if_fail.
  rewrite Ht. cbn [is_some negb].
  destruct new_client as [c|].
  - destruct Hfail as [Hfail| ->]; [discriminate|].
    eexists _, _. split; [reflexivity|]. cbn.
    repeat split; auto.
    + intros H. repeat (destruct H as [H|H]; [discriminate|]). exact H.
    + unfold gt_dbus_queue_disconnect, bind at 1, get at 1,
        g_return_val_if_fail. cbn. rewrite Ht. cbn.
      now destruct fatal_criticals.
  - eexists _, _. split; [reflexivity|]. cbn.
    repeat split; auto.
    + intros H. repeat (destruct H as [H|H]; [discriminate|]). exact H.
    + unfold gt_dbus_queue_disconnect, bind at 1, get at 1,
        g_return_val_if_fail. cbn. rewrite Ht. cbn.
      now destruct fatal_criticals.
Qed.



(** ** The server thread *)

Lemma bind_fst_prefix {S A B} (m : M S A) (k : A -> M S B) (s : S) :
  exists rest, fst (bind m k s) = fst (m s) ++ rest.
Proof.
  unfold bind. destruct (m s) as [tr [[a s']|a|]]; simpl.
  - destruct (k a s') as [tr' o]. now exists tr'.
  - exists []. now rewrite app_nil_r.
  - exists []. now rewrite app_nil_r.
Qed.

Lemma bind_returned_inv {S A B} (m : M S A) (k : A -> M S B) (s s2 : S)
    (tr : list Event) (b : B) :
  bind m k s = (tr, Returned (b, s2)) ->
  exists tr1 a s1 tr2,
    m s = (tr1, Returned (a, s1)) /\
    k a s1 = (tr2, Returned (b, s2)) /\ tr = tr1 ++ tr2.
Proof.
  unfold bind. destruct (m s) as [tr1 [[a s1]| |]]; try discriminate.
  destruct (k a s1) as [tr2 o] eqn:E. intros [= <- ->].
  exists tr1, a, s1, tr2. repeat split; [exact E].
Qed.

(** A happening runs no main-loop iteration and never clears the quitting
    flag. *)
Lemma happen_keeps_quitting (h : Happening) (q : GtDBusQueue) :
  has_blocking_iteration (fst (happen h q)) = false /\
  forall tr x q', happen h q = (tr, Returned (x, q')) ->
                  quitting q = true -> quitting q' = true.
Proof.
  destruct h as [inv|f d|]; simpl.
  - split; [reflexivity|]. intros tr x q' [= <- <- <-]. auto.
  - unfold gt_dbus_queue_set_server_func, bind, modify, get; simpl.
    destruct (server_func q); simpl; split; try reflexivity;
      intros tr x q'; [discriminate|]. intros [= <- <- <-]. auto.
  - split; [reflexivity|]. intros tr x q' [= <- <- <-]. auto.
Qed.

Lemma for_each_happen_keeps_quitting (batch : list Happening) :
  forall q,
    has_blocking_iteration (fst (for_each batch happen q)) = false /\
    forall tr x q', for_each batch happen q = (tr, Returned (x, q')) ->
                    quitting q = true -> quitting q' = true.
Proof.
  induction batch as [|h batch IH]; intros q; cbn [for_each].
  - split; [reflexivity|]. intros tr x q' [= <- <- <-]. auto.
  - unfold bind. destruct (happen_keeps_quitting h q) as [Hb Hq].
    destruct (happen h q) as [tr1 [[[] q1]| |]]; simpl in *;
      try (split; [exact Hb | discriminate]).
    destruct (IH q1) as [IHb IHq].
    destruct (for_each batch happen q1) as [tr2 o]. simpl in *.
    split.
    + now rewrite has_blocking_iteration_app, Hb, IHb.
    + intros tr x q' [= <- ->] Hquit.
      apply (IHq tr2 x q' eq_refl). now apply (Hq tr1 tt q1).
Qed.

Lemma iterate_while_false (cond : GtDBusQueue -> bool) (ctx : GMainContext)
    (batches : list (list Happening)) (q : GtDBusQueue) :
  cond q = false ->
  iterate_while cond ctx batches q = ([], Returned (tt, mkWorld q batches)).
Proof. intros H. destruct batches; simpl; now rewrite H. Qed.

(** When a [while (cond) g_main_context_iteration (...)] loop is left, its
    condition is false. *)
Lemma iterate_while_exit (cond : GtDBusQueue -> bool) (ctx : GMainContext)
    (batches : list (list Happening)) :
  forall q tr w',
    iterate_while cond ctx batches q = (tr, Returned (tt, w')) ->
    cond (self w') = false.
Proof.
  induction batches as [|batch rest IH]; intros q tr w'; simpl;
    destruct (cond q) eqn:Ec; try discriminate;
    try (intros [= <- <-]; exact Ec).
  destruct (dispatch ctx true batch q) as [tr1 [[x q1]| |]];
    try discriminate.
  destruct (iterate_while cond ctx rest q1) as [tr2 o] eqn:E.
  intros [= <- ->]. now apply (IH q1 tr2).
Qed.

(** The non-blocking drain loop never blocks and never clears quitting. *)
Lemma iterate_ready_keeps_quitting (ctx : GMainContext)
    (batches : list (list Happening)) :
  forall q,
    has_blocking_iteration (fst (iterate_ready ctx batches q)) = false /\
    snd (iterate_ready ctx batches q) <> Blocked /\
    forall tr w', iterate_ready ctx batches q = (tr, Returned (tt, w')) ->
                  quitting q = true -> quitting (self w') = true.
Proof.
  induction batches as [|batch rest IH]; intros q; simpl.
  - repeat split; [discriminate|]. intros tr w' [= <- <-]. auto.
  - unfold dispatch, bind, emit at 1; simpl.
    destruct (for_each_happen_keeps_quitting batch q) as [Hb Hq].
    pose proof (for_each_happen_effect batch q) as He.
    destruct (for_each batch happen q) as [tr1 [[[] q1]| |]];
      simpl in *; [| |contradiction].
    + destruct batch as [|h batch']; simpl.
      * rewrite app_nil_r. repeat split; [exact Hb|discriminate|].
        intros tr w' [= <- <-]. simpl. intros Hquit.
        now apply (Hq tr1 tt q1).
      * destruct (IH q1) as (IHb & IHn & IHq).
        destruct (iterate_ready ctx rest q1) as [tr2 o]. simpl in *.
        repeat split.
        -- rewrite app_nil_r, has_blocking_iteration_app, Hb. exact IHb.
        -- exact IHn.
        -- intros tr w' [= <- ->] Hquit.
           apply (IHq tr2 w' eq_refl). now apply (Hq tr1 tt q1).
    + repeat split; [exact Hb|discriminate|discriminate].
Qed.

Lemma quitting_server_thread_eq (w : World) :
  quitting (self w) = true ->
  server_func (self w) = None ->
  gt_dbus_queue_server_thread_cb w =
  match iterate_ready server_context (pending w) (self w) with
  | (tr, Returned (_, w')) =>
      (EvPushThreadDefault server_context
         :: tr ++ [EvPopThreadDefault server_context], Returned (tt, w'))
  | (tr, Aborted a) => (EvPushThreadDefault server_context :: tr, Aborted a)
  | (tr, Blocked) => (EvPushThreadDefault server_context :: tr, Blocked)
  end.
Proof.
  intros Hq Hf. unfold gt_dbus_queue_server_thread_cb.
  unfold bind at 1, emit at 1. unfold bind at 1.
  rewrite iterate_while_false by (cbn; now rewrite Hq).
  unfold bind at 1, get at 1. destruct w as [q batches]. simpl in Hq, Hf.
  cbn [self pending]. rewrite Hf.
  unfold bind at 1, ret at 1. unfold bind at 1.
  rewrite iterate_while_false by (cbn; now rewrite Hq).
  unfold bind at 1. cbn [self pending].
  destruct (iterate_ready server_context batches q) as [tr [[[] w']|a|]];
    reflexivity.
Qed.

(** X4: once the quitting flag is set (as it is for good after the first
    [gt_dbus_queue_disconnect]), a server thread that finds no server
    function installed waits for none: it runs no blocking main-loop
    iteration, never blocks, and calls no server function, not even one
    that is set while it drains the ready sources. *)
Theorem X4_quitting_server_thread_does_not_wait (w : World) :
  quitting (self w) = true ->
  server_func (self w) = None ->
  has_blocking_iteration (fst (gt_dbus_queue_server_thread_cb w)) = false /\
  count_server_func (fst (gt_dbus_queue_server_thread_cb w)) = 0 /\
  snd (gt_dbus_queue_server_thread_cb w) <> Blocked.
Proof.
  intros Hq Hf. rewrite (quitting_server_thread_eq w Hq Hf).
  destruct (iterate_ready_keeps_quitting server_context (pending w) (self w))
    as (Hb & Hn & _).
  pose proof (iterate_ready_count server_context (pending w) (self w)) as Hc.
  destruct (iterate_ready server_context (pending w) (self w))
    as [tr [[[] w']|a|]]; simpl in *.
  - repeat split.
    + now rewrite has_blocking_iteration_app, Hb.
    + now rewrite count_server_func_app, Hc.
    + discriminate.
  - repeat split; [exact Hb | exact Hc | discriminate].
  - now elim Hn.
Qed.

(** X5: the server thread function returns only with the quitting flag
    set; and a server function that is already installed when the thread
    starts is called at once, before any main-loop iteration and whether or
    not quitting is already set, with the installed data, and exactly
    once. *)
Theorem X5_server_thread_returns_after_quitting (w : World) :
  (forall tr w',
      gt_dbus_queue_server_thread_cb w = (tr, Returned (tt, w')) ->
      quitting (self w') = true) /\
  (forall f,
      server_func (self w) = Some f ->
      exists rest,
        fst (gt_dbus_queue_server_thread_cb w) =
          EvPushThreadDefault server_context
            :: EvServerFunc f (server_func_data (self w)) :: rest /\
        count_server_func (fst (gt_dbus_queue_server_thread_cb w)) = 1).
Proof.
  split.
  - intros tr w' E. unfold gt_dbus_queue_server_thread_cb in E.
    apply bind_returned_inv in E as (tr0 & [] & w0 & tr0' & _ & E & _).
    apply bind_returned_inv in E as (tr1 & [] & w1 & tr1' & _ & E & _).
    apply bind_returned_inv in E as (tr2 & w2 & w2' & tr2' & _ & E & _).
    apply bind_returned_inv in E as (tr3 & [] & w3 & tr3' & _ & E & _).
    apply bind_returned_inv in E as (tr4 & [] & w4 & tr4' & E4 & E & _).
    apply bind_returned_inv in E as (tr5 & [] & w5 & tr5' & E5 & E & _).
    unfold emit in E. injection E as _ <-.
    apply iterate_while_exit in E4. apply negb_false_iff in E4.
    destruct (iterate_ready_keeps_quitting server_context (pending w4)
                (self w4)) as (_ & _ & H).
    now apply (H tr5 w5).
  - intros f Hf.
    assert (E : exists rest,
               fst (gt_dbus_queue_server_thread_cb w) =
               EvPushThreadDefault server_context
                 :: EvServerFunc f (server_func_data (self w)) :: rest).
    { unfold gt_dbus_queue_server_thread_cb.
      unfold bind at 1, emit at 1. unfold bind at 1.
      rewrite iterate_while_false
        by (cbn; rewrite Hf; apply andb_false_r).
      unfold bind at 1, get at 1. destruct w as [q batches].
      simpl in Hf. cbn [self pending]. rewrite Hf.
      match goal with
      | |- context [bind (bind (emit ?e) ?k1) ?k2 ?s] =>
          destruct (bind_fst_prefix (bind (emit e) k1) k2 s) as [r1 E1];
          destruct (bind_fst_prefix (emit e) k1 s) as [r2 E2];
          destruct (bind (bind (emit e) k1) k2 s) as [tr' o];
          destruct (bind (emit e) k1 s) as [tr2 o2]
      end.
      simpl in E1, E2. subst tr2 tr'. eexists. simpl. reflexivity. }
    destruct E as [rest E]. exists rest. split; [exact E|].
    pose proof (server_thread_calls_at_most_once w) as Hle.
    rewrite E in *. simpl in *. lia.
Qed.

(** ** Owning names and exporting objects *)

Lemma find_id_app_fresh (a : GArray.t) (id : guint) :
  forall i, ~ In id a ->
    find_id (a ++ [id]) id i = Some (i + List.length a).
Proof.
  induction a as [|x a IH]; intros i Hin; simpl.
  - rewrite N.eqb_refl. f_equal. lia.
  - destruct (N.eqb_spec x id) as [->|Hne].
    + exfalso. apply Hin. now left.
    + rewrite IH by (intros H; apply Hin; now right). f_equal. lia.
Qed.

Lemma remove_index_fast_last (a : GArray.t) (id : guint) :
  GArray.remove_index_fast (a ++ [id]) (List.length a) = a.
Proof.
  unfold GArray.remove_index_fast. rewrite length_app. simpl.
  replace (List.length a + 1 - 1) with (List.length a) by lia.
  now rewrite Nat.eqb_refl, removelast_last.
Qed.

Lemma set_name_ids_back (q : GtDBusQueue) (ids : GArray.t) :
  set_name_ids (set_name_ids q ids) (name_ids q) = q.
Proof. now destruct q. Qed.

Lemma set_object_ids_back (q : GtDBusQueue) (ids : GArray.t) :
  set_object_ids (set_object_ids q ids) (object_ids q) = q.
Proof. now destruct q. Qed.

(** X6: owning a well-known name and unowning the returned ID is a round
    trip.  On a connected queue, for a valid well-known name and the fresh
    non-zero ID that the server thread publishes, [gt_dbus_queue_own_name]
    returns that ID and appends it to the tracked name IDs, and
    [gt_dbus_queue_unown_name] on it gives back exactly the queue from
    before, calling [g_bus_unown_name] once, after the lock is released. *)
Theorem X6_own_unown_name_round_trip
    (q : GtDBusQueue) (name : string) (id : guint) :
  connected q ->
  g_dbus_is_name name = true ->
  g_dbus_is_unique_name name = false ->
  id <> 0%N ->
  ~ In id (name_ids q) ->
  exists q1,
    gt_dbus_queue_own_name name (Some id) q =
      ([EvInvoke "own_name_cb"; EvMutexLock; EvMutexUnlock],
       Returned (id, q1)) /\
    name_ids q1 = name_ids q ++ [id] /\
    gt_dbus_queue_unown_name id q1 =
      ([EvMutexLock; EvMutexUnlock; EvBusUnownName id], Returned (tt, q)).
Proof.
  unfold connected. intros Hc Hn Hu Hid Hfresh.
  exists (set_name_ids q (GArray.append_val (name_ids q) id)).
  apply N.eqb_neq in Hid.
  split; [|split].
  - unfold gt_dbus_queue_own_name, bind at 1, get at 1,
      g_return_val_if_fail.
    rewrite Hc, Hn, Hu, Hid. reflexivity.
  - now destruct q.
  - unfold gt_dbus_queue_unown_name, bind at 1, get at 1,
      g_return_val_if_fail.
    replace (server_thread (set_name_ids q _)) with (server_thread q)
      by now destruct q.
    rewrite Hc, Hid. cbn [negb].
    replace (name_ids (set_name_ids q (GArray.append_val (name_ids q) id)))
      with (name_ids q ++ [id]) by now destruct q.
    unfold bind at 1, emit at 1.
    rewrite (find_id_app_fresh _ _ 0 Hfresh). cbn [Nat.add].
    unfold bind, emit, modify. cbn [app].
    replace (name_ids (set_name_ids q (GArray.append_val (name_ids q) id)))
      with (name_ids q ++ [id]) by now destruct q.
    now rewrite remove_index_fast_last, set_name_ids_back.
Qed.

(** X7: what [gt_dbus_queue_own_name] can do.  It never fails an assertion.
    When it returns 0 a precondition check has failed: one critical is
    logged and the queue is unchanged.  When it returns a non-zero ID, that
    is the ID published by the server thread and it has been appended to
    the tracked name IDs.  And on a connected queue with a valid name it
    returns only once a non-zero ID is published: until then it spins. *)
Theorem X7_own_name_outcomes
    (q : GtDBusQueue) (name : string) (acquired : option guint) :
  (forall tr id q',
      gt_dbus_queue_own_name name acquired q = (tr, Returned (id, q')) ->
      (id = 0%N /\ q' = q /\ exists expr, tr = [EvCritical expr]) \/
      (id <> 0%N /\ acquired = Some id /\
       q' = set_name_ids q (name_ids q ++ [id]))) /\
  (forall tr expr,
      gt_dbus_queue_own_name name acquired q <>
      (tr, Aborted (AssertionFailed expr))) /\
  (connected q ->
   g_dbus_is_name name && negb (g_dbus_is_unique_name name) = true ->
   (acquired = None \/ acquired = Some 0%N) ->
   snd (gt_dbus_queue_own_name name acquired q) = Blocked).
Proof.
  unfold connected, gt_dbus_queue_own_name, g_return_val_if_fail,
    bind, get.
  cbv beta iota.
  destruct (is_some (server_thread q)).
  2:{ split; [|split].
      - intros tr id q'. destruct fatal_criticals; [discriminate|]. intros [= <- <- <-].
        left. repeat split. now eexists.
      - intros tr expr. destruct fatal_criticals; discriminate.
      - discriminate. }
  destruct (g_dbus_is_name name && negb (g_dbus_is_unique_name name)).
  2:{ split; [|split].
      - intros tr id q'. destruct fatal_criticals; [discriminate|]. intros [= <- <- <-].
        left. repeat split. now eexists.
      - intros tr expr. destruct fatal_criticals; discriminate.
      - discriminate. }
  destruct acquired as [id0|]; [destruct (N.eqb_spec id0 0) as [->|Hne]|].
  - split; [|split]; [discriminate | discriminate |]. reflexivity.
  - split; [|split].
    + intros tr id q' [= <- <- <-]. right. now repeat split.
    + discriminate.
    + intros _ _ [E|E]; [discriminate | congruence].
  - split; [|split]; [discriminate | discriminate |]. reflexivity.
Qed.

(** X8: what [gt_dbus_queue_export_object] can do.  Its
    [g_assert (id != 0)] never fails, since the wait loop ends only with a
    non-zero ID or an error.  A returned non-zero ID comes from a call with
    a clear error location and without error, is the ID registered by the
    server thread and has been appended to the tracked object IDs.  A
    returned 0 leaves the queue unchanged, and is either a failed
    precondition check (a critical, and the call sets no error; a call
    whose error location already holds an error is one of these) or the
    error of [g_dbus_connection_register_object] propagated. *)
Theorem X8_export_object_outcomes
    (q : GtDBusQueue) (object_path : string)
    (interface_info : GDBusInterfaceInfo) (error_set : bool)
    (registered : option (guint * option string)) :
  (forall tr expr,
      gt_dbus_queue_export_object object_path interface_info error_set
        registered q <>
      (tr, Aborted (AssertionFailed expr))) /\
  (forall tr id error q',
      gt_dbus_queue_export_object object_path interface_info error_set
        registered q =
        (tr, Returned ((id, error), q')) ->
      (id <> 0%N /\ error = None /\ error_set = false /\
       registered = Some (id, None) /\
       q' = set_object_ids q (object_ids q ++ [id])) \/
      (id = 0%N /\ q' = q /\
       ((error = None /\ exists expr, tr = [EvCritical expr]) \/
        (exists rid e, error = Some e /\ error_set = false /\
                       registered = Some (rid, Some e))))) /\
  (connected q -> g_variant_is_object_path object_path = true ->
   gt_dbus_queue_export_object object_path interface_info true
     registered q =
   ([EvCritical "error == NULL || *error == NULL"],
    if fatal_criticals
    then Aborted (FatalCritical "error == NULL || *error == NULL")
    else Returned ((0%N, None), q))).
Proof.
  unfold connected.
  unfold gt_dbus_queue_export_object, g_return_val_if_fail, bind, get.
  cbv beta iota.
  destruct (is_some (server_thread q)).
  2:{ split; [|split].
      - intros tr expr. destruct fatal_criticals; discriminate.
      - intros tr id error q'.
        destruct fatal_criticals; [discriminate|]. intros [= <- <- <- <-].
        right. repeat split. left. split; [reflexivity | now eexists].
      - discriminate. }
  destruct (g_variant_is_object_path object_path).
  2:{ split; [|split].
      - intros tr expr. destruct fatal_criticals; discriminate.
      - intros tr id error q'.
        destruct fatal_criticals; [discriminate|]. intros [= <- <- <- <-].
        right. repeat split. left. split; [reflexivity | now eexists].
      - discriminate. }
  split; [|split]; [| |intros _ _; now destruct fatal_criticals].
  - destruct error_set; cbn [negb];
      [intros tr expr; destruct fatal_criticals; discriminate|].
    destruct registered as [[rid [e|]]|]; try discriminate.
    + now destruct (N.eqb rid 0).
    + cbn [is_some negb]. rewrite andb_true_r. unfold g_assert.
      destruct (N.eqb rid 0); discriminate.
  - destruct error_set; cbn [negb].
    { intros tr id error q'.
      destruct fatal_criticals; [discriminate|]. intros [= <- <- <- <-].
      right. repeat split. left. split; [reflexivity | now eexists]. }
    destruct registered as [[rid [e|]]|].
    + replace (N.eqb rid 0 && negb (is_some (Some e))) with false
        by (cbn; now rewrite andb_false_r).
      intros tr id error q' [= <- <- <- <-]. right. repeat split.
      right. now exists rid, e.
    + cbn [is_some negb]. rewrite andb_true_r.
      destruct (N.eqb_spec rid 0) as [->|Hne]; [discriminate|].
      unfold g_assert. cbn [negb].
      intros tr id error q' [= <- <- <- <-]. left. now repeat split.
    + discriminate.
Qed.

(** X9: exporting an object and unexporting the returned ID is a round
    trip.  On a connected queue, for a valid object path and a fresh
    non-zero registration ID, [gt_dbus_queue_export_object] returns the ID
    without error and tracks it, and [gt_dbus_queue_unexport_object] on it
    (the connection still having the object) gives back exactly the queue
    from before, unregistering the object once, after the lock is
    released. *)
Theorem X9_export_unexport_object_round_trip
    (q : GtDBusQueue) (object_path : string)
    (interface_info : GDBusInterfaceInfo) (id : guint) :
  connected q ->
  g_variant_is_object_path object_path = true ->
  id <> 0%N ->
  ~ In id (object_ids q) ->
  exists q1,
    gt_dbus_queue_export_object object_path interface_info false
        (Some (id, None)) q =
      ([EvInvoke "export_object_cb"; EvMutexLock; EvMutexUnlock],
       Returned ((id, None), q1)) /\
    object_ids q1 = object_ids q ++ [id] /\
    gt_dbus_queue_unexport_object id true q1 =
      ([EvMutexLock; EvMutexUnlock; EvUnregisterObject id],
       Returned (tt, q)).
Proof.
  unfold connected. intros Hc Hp Hid Hfresh.
  exists (set_object_ids q (GArray.append_val (object_ids q) id)).
  apply N.eqb_neq in Hid.
  split; [|split].
  - unfold gt_dbus_queue_export_object, bind at 1, get at 1,
      g_return_val_if_fail.
    rewrite Hc, Hp. unfold bind at 1, emit at 1. cbn [is_some negb].
    rewrite Hid. reflexivity.
  - now destruct q.
  - unfold gt_dbus_queue_unexport_object, bind at 1, get at 1,
      g_return_val_if_fail.
    replace (server_thread (set_object_ids q _)) with (server_thread q)
      by now destruct q.
    rewrite Hc, Hid. cbn [negb].
    replace (object_ids
               (set_object_ids q (GArray.append_val (object_ids q) id)))
      with (object_ids q ++ [id]) by now destruct q.
    unfold bind at 1, emit at 1.
    rewrite (find_id_app_fresh _ _ 0 Hfresh). cbn [Nat.add].
    unfold bind, emit, modify, g_assert, ret. cbn [app].
    replace (object_ids
               (set_object_ids q (GArray.append_val (object_ids q) id)))
      with (object_ids q ++ [id]) by now destruct q.
    now rewrite remove_index_fast_last, set_object_ids_back.
Qed.

(** X10: how [gt_dbus_queue_unexport_object] fails on a connected queue,
    for a non-zero ID.  An ID that is not tracked reaches
    [g_assert_not_reached] with nothing unregistered; a tracked ID that the
    connection no longer knows fails the assertion [was_registered], after
    the unregister call; and a tracked ID that the connection knows
    returns, with the remaining IDs the same up to order. *)
Theorem X10_unexport_object_outcomes
    (q : GtDBusQueue) (id : guint) (was_registered : bool) :
  connected q ->
  id <> 0%N ->
  (~ In id (object_ids q) ->
   gt_dbus_queue_unexport_object id was_registered q =
     ([EvMutexLock; EvMutexUnlock],
      Aborted (AssertionFailed "code should not be reached"))) /\
  (In id (object_ids q) ->
   if was_registered
   then exists ids',
       gt_dbus_queue_unexport_object id true q =
         ([EvMutexLock; EvMutexUnlock; EvUnregisterObject id],
          Returned (tt, set_object_ids q ids')) /\
       Permutation (object_ids q) (id :: ids')
   else gt_dbus_queue_unexport_object id false q =
          ([EvMutexLock; EvMutexUnlock; EvUnregisterObject id],
           Aborted (AssertionFailed "was_registered"))).
Proof.
  unfold connected; intros Hc Hid.
  unfold gt_dbus_queue_unexport_object, g_return_val_if_fail, bind, get.
  cbv beta iota.
  rewrite Hc. apply N.eqb_neq in Hid; rewrite Hid; cbn [negb].
  split.
  - intros Hin. apply (find_id_none _ _ 0) in Hin.
    unfold bind, emit. now rewrite Hin.
  - intros Hin.
    destruct (find_id (object_ids q) id 0) as [i|] eqn:F.
    + destruct (find_id_some _ _ _ _ F) as (pre & post & E & -> & _).
      destruct was_registered.
      * exists (GArray.remove_index_fast (object_ids q)
                  (0 + List.length pre)).
        split; [reflexivity|].
        rewrite E at 1. rewrite E. cbn [Nat.add].
        rewrite <- remove_index_fast_split.
        symmetry. apply Permutation_middle.
      * reflexivity.
    + apply (find_id_none _ _ 0) in F. now elim F.
Qed.

(** ** Freeing the queue *)

Lemma disconnect_true_returns (q q' : GtDBusQueue) (thread_exits : bool)
    (tr : list Event) :
  connected q ->
  gt_dbus_queue_disconnect true thread_exits q = (tr, Returned (tt, q')) ->
  q' = torn_down q.
Proof.
  intros Hc E.
  destruct (Z.eq_dec (gt_dbus_queue_get_n_messages q) 0) as [H0|Hn].
  - destruct (disconnect_tears_down q true thread_exits Hc (fun _ => H0))
      as (tr' & E' & _).
    destruct thread_exits; congruence.
  - exfalso. revert E. unfold connected in Hc.
    unfold gt_dbus_queue_disconnect, bind at 1, get at 1,
      g_return_val_if_fail.
    rewrite Hc. unfold bind at 1. rewrite assert_no_messages_spec.
    pose proof (get_n_messages_nonneg q) as Hge.
    assert (Hgt : (gt_dbus_queue_get_n_messages q >? 0)%Z = true)
      by (apply Z.gtb_lt; lia).
    rewrite Hgt. discriminate.
Qed.

(** X11: [gt_dbus_queue_free] asserts that no message is left, also on a
    queue that is already disconnected.  Whenever it returns, the message
    queue was empty at the call.  A connected queue with an empty message
    queue and nothing left to dispatch is disconnected and freed when the
    server thread comes to its end, and the call blocks in [g_thread_join]
    when it does not.  But after a [gt_dbus_queue_disconnect] with
    [assert_queue_empty] [FALSE] that has returned from a queue holding a
    message, the following free fails the assertion on
    [g_async_queue_try_pop]. *)
Theorem X11_free_asserts_an_empty_message_queue (w : World) :
  (forall thread_exits tr w',
      gt_dbus_queue_free thread_exits w = (tr, Returned (tt, w')) ->
      GAsyncQueue.items (server_message_queue (self w)) = []) /\
  (connected (self w) ->
   GAsyncQueue.items (server_message_queue (self w)) = [] ->
   pending w = [] ->
   forall thread_exits,
   exists tr,
     gt_dbus_queue_free thread_exits w =
       (tr, if thread_exits
            then Returned (tt, mkWorld (torn_down (self w)) [])
            else Blocked)) /\
  (connected (self w) ->
   GAsyncQueue.items (server_message_queue (self w)) <> [] ->
   forall thread_exits,
   exists tr,
     gt_dbus_queue_disconnect false thread_exits (self w) =
       (tr, if thread_exits then Returned (tt, torn_down (self w))
            else Blocked) /\
     gt_dbus_queue_free thread_exits
       (mkWorld (torn_down (self w)) (pending w)) =
       ([], Aborted
              (AssertionFailed
                 "g_async_queue_try_pop (self->server_message_queue) == NULL"))).
Proof.
  destruct w as [q batches]. cbn [self pending]. split; [|split].
  - intros thread_exits tr w' E. unfold gt_dbus_queue_free in E.
    apply bind_returned_inv in E as (tr0 & w0 & s0 & tr0' & E0 & E & _).
    injection E0 as _ <- <-.
    apply bind_returned_inv in E as (tr1 & [] & s1 & tr1' & E1 & E & _).
    apply bind_returned_inv in E as (tr2 & w2 & s2 & tr2' & E2 & E & _).
    injection E2 as _ <- <-.
    apply bind_returned_inv in E as (tr3 & [] & s3 & tr3' & _ & E & _).
    apply bind_returned_inv in E as (tr4 & [] & s4 & tr4' & _ & E & _).
    apply bind_returned_inv in E as (tr5 & [] & s5 & tr5' & _ & E & _).
    apply bind_returned_inv in E as (tr6 & [] & s6 & tr6' & E6 & _ & _).
    assert (Hmq : server_message_queue (self s1) = server_message_queue q).
    { cbn [self] in E1. destruct (is_some (server_thread q)) eqn:Hc.
      - unfold liftQ in E1. cbn [self pending] in E1.
        destruct (gt_dbus_queue_disconnect true thread_exits q)
          as [trd [[[] qd]| |]] eqn:Ed; try discriminate.
        injection E1 as _ <-. cbn [self].
        now rewrite (disconnect_true_returns q qd thread_exits trd Hc Ed).
      - now injection E1 as _ <-. }
    rewrite Hmq in E6. unfold GAsyncQueue.try_pop in E6.
    destruct (GAsyncQueue.items (server_message_queue q)); [reflexivity|].
    discriminate.
  - intros Hc Hempty -> thread_exits.
    assert (H0 : gt_dbus_queue_get_n_messages q = 0%Z).
    { unfold gt_dbus_queue_get_n_messages, GAsyncQueue.length.
      rewrite Hempty. simpl. lia. }
    destruct (disconnect_tears_down q true thread_exits Hc (fun _ => H0))
      as (tr & E & _).
    unfold connected in Hc.
    unfold gt_dbus_queue_free, bind at 1, get at 1. cbn [self].
    rewrite Hc. unfold bind at 1, liftQ at 1. cbn [self pending].
    rewrite E. destruct thread_exits; [|eexists; reflexivity].
    unfold bind at 1, get at 1. cbn [self torn_down object_ids
      name_ids List.length Nat.eqb g_assert].
    unfold GAsyncQueue.try_pop.
    change (server_message_queue (torn_down q))
      with (server_message_queue q).
    rewrite Hempty.
    eexists. cbn. reflexivity.
  - intros Hc Hfull thread_exits.
    destruct (disconnect_tears_down q false thread_exits Hc)
      as (tr & E & _); [discriminate|].
    exists tr. split; [exact E|].
    unfold gt_dbus_queue_free, bind at 1, get at 1. cbn [self torn_down
      server_thread is_some].
    unfold bind at 1, ret at 1. unfold bind at 1, get at 1.
    cbn [self object_ids name_ids List.length Nat.eqb g_assert].
    unfold GAsyncQueue.try_pop.
    change (server_message_queue (torn_down q))
      with (server_message_queue q).
    destruct (GAsyncQueue.items (server_message_queue q)) as [|m rest];
      [now elim Hfull|].
    reflexivity.
Qed.

(** ** Asserting on the next message *)

Lemma happen_keeps_client (h : Happening) (q q' : GtDBusQueue)
    (tr : list Event) (x : unit) :
  happen h q = (tr, Returned (x, q')) ->
  client_connection q' = client_connection q.
Proof.
  destruct h as [inv|f d|]; simpl.
  - unfold gt_dbus_queue_method_call, bind, modify, emit; simpl.
    intros [= _ _ <-]. now destruct q.
  - unfold gt_dbus_queue_set_server_func, bind, modify, get; simpl.
    destruct (server_func q); simpl; [discriminate|].
    intros [= _ _ <-]. now destruct q.
  - unfold modify. intros [= _ _ <-]. now destruct q.
Qed.

Lemma for_each_happen_keeps_client (batch : list Happening) :
  forall (q q' : GtDBusQueue) (tr : list Event) (x : unit),
    for_each batch happen q = (tr, Returned (x, q')) ->
    client_connection q' = client_connection q.
Proof.
  induction batch as [|h batch IH]; intros q q' tr x.
  - now intros [= _ _ <-].
  - cbn [for_each]. intros E.
    apply bind_returned_inv in E as (tr1 & a & q1 & tr2 & E1 & E2 & _).
    rewrite (IH _ _ _ _ E2). exact (happen_keeps_client _ _ _ _ _ E1).
Qed.

Lemma dispatch_keeps_client (ctx : GMainContext) (may_block : bool)
    (batch : list Happening) (q q' : GtDBusQueue) (tr : list Event)
    (x : bool) :
  dispatch ctx may_block batch q = (tr, Returned (x, q')) ->
  client_connection q' = client_connection q.
Proof.
  unfold dispatch. intros E.
  apply bind_returned_inv in E as (tr1 & [] & q1 & tr2 & E1 & E & _).
  injection E1 as _ <-.
  apply bind_returned_inv in E as (tr3 & [] & q3 & tr4 & E3 & E & _).
  injection E as _ _ <-.
  exact (for_each_happen_keeps_client _ _ _ _ _ E3).
Qed.

Lemma pop_message_loop_keeps_client (ctx : GMainContext)
    (batches : list (list Happening)) :
  forall (q : GtDBusQueue) (tr : list Event)
         (o : option GDBusMethodInvocation) (w' : World),
    pop_message_loop ctx batches q = (tr, Returned (o, w')) ->
    client_connection (self w') = client_connection q.
Proof.
  induction batches as [|batch rest IH]; intros q tr o w'; simpl;
    unfold GAsyncQueue.try_pop;
    destruct (GAsyncQueue.items (server_message_queue q)) as [|m its];
    simpl; try discriminate;
    try (intros [= _ _ <-]; now destruct q).
  destruct (dispatch ctx true batch q) as [tr1 [[x q1]| |]] eqn:Ed;
    try discriminate.
  destruct (pop_message_loop ctx rest q1) as [tr2 o2] eqn:El.
  intros [= _ ->]. rewrite (IH _ _ _ _ El).
  exact (dispatch_keeps_client _ _ _ _ _ _ _ Ed).
Qed.

Lemma pop_message_keeps_client (ctx : GMainContext) (out : bool)
    (w w' : World) (tr : list Event)
    (r : bool * option GDBusMethodInvocation) :
  connected (self w) ->
  gt_dbus_queue_pop_message ctx out w = (tr, Returned (r, w')) ->
  client_connection (self w') = client_connection (self w).
Proof.
  unfold connected; intros Hc.
  unfold gt_dbus_queue_pop_message, gt_dbus_queue_pop_message_internal.
  intros E.
  apply bind_returned_inv in E as (tr0 & w0 & s0 & tr0' & E0 & E & _).
  injection E0 as _ <- <-.
  unfold g_return_val_if_fail in E. rewrite Hc in E.
  apply bind_returned_inv in E as (tr1 & o & w1 & tr2 & E1 & E & _).
  apply bind_returned_inv in E as (tr3 & b & w3 & tr4 & E3 & E & _).
  injection E as _ _ <-.
  assert (w3 = w1) as ->.
  { destruct o; [|now injection E3].
    apply bind_returned_inv in E3 as (? & [] & ? & ? & E3 & E4 & _).
    injection E3 as _ <-. now injection E4. }
  exact (pop_message_loop_keeps_client _ _ _ _ _ _ E1).
Qed.

(** X12: the contract of [gt_dbus_queue_assert_pop_message_impl].  On a
    connected queue whose client connection has a unique name, called with
    well-formed expected strings while no other thread sets the server
    function, and with [m] the first message in arrival order: the call
    never blocks; it returns exactly when [m] was sent by the client
    connection to the expected path, interface and method, and then it
    returns [m], has handed the parameters of [m] with the format string
    to [g_variant_get_va], and leaves the later arrivals; otherwise it
    fails with the "but saw:" message that ends with [m] formatted.  The
    parameters of [m] are not compared with anything. *)
Theorem X12_assert_pop_message_contract
    (ctx : GMainContext) (w : World) (macro_line : Z)
    (path iface method parameters_format : string)
    (client : GDBusConnection) (name : string)
    (m : GDBusMethodInvocation) (rest : list GDBusMethodInvocation) :
  connected (self w) ->
  (0 <= macro_line)%Z ->
  g_variant_is_object_path path = true ->
  g_dbus_is_interface_name iface = true ->
  g_dbus_is_member_name method = true ->
  client_connection (self w) = Some client ->
  unique_name client = Some name ->
  quiet (pending w) ->
  arrivals w = m :: rest ->
  match gt_dbus_queue_assert_pop_message_impl ctx macro_line path iface
          method parameters_format w with
  | (tr, Returned (o, w')) =>
      is_expected_call (self w) m path iface method = true /\
      o = Some m /\ arrivals w' = rest /\
      In (EvVariantGet (inv_parameters m) parameters_format) tr
  | (_, Aborted a) =>
      is_expected_call (self w) m path iface method = false /\
      a = AssertionFailed
            (saw_other_message path iface method
               (gt_dbus_queue_format_message m))
  | (_, Blocked) => False
  end.
Proof.
  intros Hc Hline Hp Hi Hm Hclient Hname Hquiet Harr.
  unfold gt_dbus_queue_assert_pop_message_impl, g_return_val_if_fail.
  apply Z.leb_le in Hline. rewrite Hline, Hp, Hi, Hm.
  unfold bind at 1.
  pose proof (pop_message_spec ctx true w Hc) as Hpop.
  pose proof (pop_message_keeps_client ctx true w) as Hkeep.
  destruct (gt_dbus_queue_pop_message ctx true w)
    as [tr [[[popped o] w']|a|]].
  - destruct Hpop as (-> & inv & -> & Harr' & _).
    specialize (Hkeep w' tr _ Hc eq_refl).
    rewrite Harr in Harr'. injection Harr' as <- Hrest.
    cbn [fst snd negb]. unfold bind at 1, liftQ.
    rewrite (match_client_message_spec (self w') m path iface method None
               client name Hp Hi Hm) by congruence.
    unfold is_expected_call. rewrite Hclient, Hname.
    rewrite andb_true_r.
    destruct (String.eqb (inv_sender m) name &&
              String.eqb (inv_object_path m) path &&
              String.eqb (inv_interface_name m) iface &&
              String.eqb (inv_method_name m) method).
    + cbn. repeat split.
      * now symmetry.
      * apply in_or_app. right. now left.
    + cbn. split; reflexivity.
  - destruct Hpop as [_ Hn]. now elim Hn.
  - rewrite Harr in Hpop. discriminate.
Qed.

(* ===================================================================== *)
(** * The signal logger                                                   *)
(* ===================================================================== *)

Lemma store_signal_id_length (cs : list GtLoggedClosure) (id : gulong) :
  forall i, List.length (store_signal_id cs i id) = List.length cs.
Proof.
  induction cs as [|c cs IH]; intros [|i]; simpl; try reflexivity.
  now rewrite IH.
Qed.



Lemma pop_emission_empty (l : GtSignalLogger)
    (want_obj want_type want_signal want_emission : bool) :
  log l = [] ->
  gt_signal_logger_pop_emission want_obj want_type want_signal
    want_emission l =
  ([], Returned ((false, mkPopped 0%N None None None), l)).
Proof.
  intros H. unfold gt_signal_logger_pop_emission, bind, get. now rewrite H.
Qed.

Lemma pop_emission_nonempty (l : GtSignalLogger)
    (emission : GtSignalLoggerEmission)
    (rest : list GtSignalLoggerEmission) (c : GtLoggedClosure)
    (want_obj want_type want_signal want_emission : bool) :
  log l = emission :: rest ->
  nth_error (closures l) (emission_closure emission) = Some c ->
  gt_signal_logger_pop_emission want_obj want_type want_signal
    want_emission l =
  ([], Returned
         ((true,
           mkPopped
             (if want_obj then closure_obj c else 0%N)
             (if want_type then Some (closure_obj_type_name c) else None)
             (if want_signal then Some (closure_signal_name c) else None)
             (if want_emission then Some emission else None)),
          set_log l rest)).
Proof.
  intros Hl Hc.
  unfold gt_signal_logger_pop_emission, bind at 1, get at 1. rewrite Hl.
  unfold bind at 1, modify at 1.
  assert (Hd : emission_closure_deref emission (set_log l rest) =
               ([], Returned (c, set_log l rest))).
  { unfold emission_closure_deref, bind, get. cbn [closures set_log].
    now rewrite Hc. }
  destruct want_obj, want_type, want_signal, want_emission;
    unfold bind, ret; rewrite ?Hd; reflexivity.
Qed.

(** X13: signal emissions are logged in emission order, without the
    instance.  On a logger whose log points to its closures, marshalling a
    sequence of emissions of closures of the logger, each with the instance
    as first value, returns without any event; the log is the old log
    followed by one entry per emission, in order, with the values after the
    instance; the closures are untouched; and the count grows by the number
    of emissions.  An emission without any value fails the assertion
    [n_param_values >= 1]. *)
Theorem X13_emissions_are_logged_in_order
    (l : GtSignalLogger) (signals : list (nat * list GValue)) :
  log_valid l ->
  Forall (fun s => fst s < List.length (closures l) /\ snd s <> []) signals ->
  (exists l',
      for_each signals
        (fun s => gt_logged_closure_marshal (fst s) (snd s)) l =
        ([], Returned (tt, l')) /\
      log l' =
        log l ++ map (fun s => mkEmission (fst s) (tl (snd s))) signals /\
      closures l' = closures l /\
      log_valid l' /\
      gt_signal_logger_get_n_emissions l' =
        gt_signal_logger_get_n_emissions l + List.length signals) /\
  (forall closure,
      gt_logged_closure_marshal closure [] l =
      ([], Aborted (AssertionFailed "n_param_values >= 1"))).
Proof.
  intros Hv Hs. split; [|reflexivity].
  revert l Hv Hs. induction signals as [|[c ps] signals IH]; intros l Hv Hs.
  - exists l. cbn. rewrite app_nil_r. repeat split; [exact Hv | lia].
  - inversion Hs as [|? ? [Hc Hps] Hs']; subst. cbn [fst snd] in Hc, Hps.
    destruct ps as [|instance ps]; [now elim Hps|].
    set (l1 := set_log l (log l ++ [mkEmission c ps])).
    assert (Hv1 : log_valid l1).
    { unfold log_valid, l1. cbn [log closures set_log].
      apply Forall_app. split; [exact Hv|]. constructor; [exact Hc|].
      constructor. }
    destruct (IH l1 Hv1 Hs') as (l' & E & Hlog & Hcl & Hv' & Hn).
    exists l'. cbn [for_each]. unfold bind at 1.
    replace (gt_logged_closure_marshal (fst (c, instance :: ps))
               (snd (c, instance :: ps)) l)
      with (@nil Event, Returned (tt, l1)) by reflexivity.
    rewrite E. repeat split.
    + rewrite Hlog. unfold l1. cbn [log set_log map fst snd tl].
      now rewrite <- app_assoc.
    + exact Hcl.
    + exact Hv'.
    + rewrite Hn. unfold gt_signal_logger_get_n_emissions, l1.
      cbn [log set_log List.length]. rewrite length_app. cbn. lia.
Qed.

(** X14: emissions are popped oldest first.  On a logger whose log points
    to its closures, [n] pops with all four return locations log nothing
    and hand out the first [n] logged emissions in order, each with the
    object pointer, type name and signal name of its closure; the rest of
    the log stays; and once the log is empty a pop returns [FALSE] with
    every return location set to [NULL], whichever locations are
    passed. *)
Theorem X14_emissions_are_popped_oldest_first (l : GtSignalLogger) (n : nat) :
  log_valid l ->
  (exists popped,
      pop_emissions n l =
        ([], Returned (popped, set_log l (skipn n (log l)))) /\
      map out_emission popped = map Some (firstn n (log l)) /\
      map popped_view popped = map (seen l) (firstn n (log l)) /\
      Forall (fun p => popped_view p <> None) popped) /\
  (forall want_obj want_type want_signal want_emission,
      gt_signal_logger_pop_emission want_obj want_type want_signal
        want_emission (set_log l []) =
      ([], Returned ((false, mkPopped 0%N None None None), set_log l []))).
Proof.
  intros Hv. split; [|intros; now apply pop_emission_empty].
  revert l Hv. induction n as [|n IH]; intros l Hv.
  - exists []. cbn. repeat split; [now destruct l | constructor].
  - destruct (log l) as [|emission rest] eqn:Hl.
    + exists []. cbn [pop_emissions]. unfold bind.
      rewrite pop_emission_empty by exact Hl. cbn.
      repeat split; [|constructor]. destruct l; cbn in *. now subst.
    + unfold log_valid in Hv. rewrite Hl in Hv.
      inversion Hv as [|? ? Hlt Hrest]; subst.
      apply nth_error_Some in Hlt.
      destruct (nth_error (closures l) (emission_closure emission))
        as [c|] eqn:Hc; [clear Hlt | now elim Hlt].
      destruct (IH (set_log l rest)) as (popped & E & Ho & Hview & Hsome).
      { exact Hrest. }
      cbn [log set_log closures] in E, Ho, Hview.
      exists (mkPopped (closure_obj c) (Some (closure_obj_type_name c))
                (Some (closure_signal_name c)) (Some emission) :: popped).
      cbn [pop_emissions]. unfold bind at 1.
      rewrite (pop_emission_nonempty l emission rest c true true true true Hl Hc).
      cbn [fst snd]. unfold bind at 1. rewrite E. cbn [skipn firstn map].
      repeat split.
      * now rewrite Ho.
      * unfold seen at 1. rewrite Hc. cbn [popped_view out_obj
          out_obj_type_name out_signal_name out_emission]. f_equal.
        exact Hview.
      * constructor; [discriminate | exact Hsome].
Qed.


Lemma pop_emissions_returns (n : nat) :
  forall l,
    log_valid l ->
    exists popped,
      pop_emissions n l =
      ([], Returned (popped, set_log l (skipn n (log l)))).
Proof.
  induction n as [|n IH]; intros l Hv.
  - exists []. cbn. now destruct l.
  - destruct (log l) as [|emission rest] eqn:Hl.
    + exists []. cbn [pop_emissions]. unfold bind.
      rewrite pop_emission_empty by exact Hl. cbn.
      destruct l; cbn in *. now subst.
    + unfold log_valid in Hv. rewrite Hl in Hv.
      inversion Hv as [|? ? Hlt Hrest]; subst.
      apply nth_error_Some in Hlt.
      destruct (nth_error (closures l) (emission_closure emission))
        as [c|] eqn:Hc; [clear Hlt | now elim Hlt].
      destruct (IH (set_log l rest) Hrest) as (popped & E).
      cbn [log set_log closures] in E.
      eexists. cbn [pop_emissions]. unfold bind at 1.
      rewrite (pop_emission_nonempty l emission rest c true true true true
                 Hl Hc).
      cbn [fst snd]. unfold bind at 1. rewrite E. reflexivity.
Qed.

(** X16: connecting, emitting and popping is a round trip.  On a logger
    whose log points to its closures, connecting a signal of a live object
    returns the handler ID of [g_signal_connect_closure] and adds one
    closure, leaving the log and the other closures alone; an emission of
    that closure is logged behind the emissions already there; and once
    those have been popped, the next pop hands out the address of the
    object, a copy of its type name, the signal name and the values after
    the instance, and leaves the log empty.  Connecting something that is
    not an object logs a critical, returns 0 and changes nothing. *)
Theorem X16_connect_emit_pop_round_trip
    (l : GtSignalLogger) (obj : GObject) (signal_name : string)
    (handler_id : gulong) (instance : GValue) (params : list GValue) :
  log_valid l ->
  (exists l1,
      gt_signal_logger_connect (Some obj) signal_name handler_id l =
        ([], Returned (handler_id, l1)) /\
      log l1 = log l /\
      closures l1 =
        closures l ++
        [mkClosure (G_OBJECT obj) (object_type_name obj) signal_name
           handler_id] /\
      (closure <- gt_signal_logger_connect (Some obj) signal_name
                    handler_id ;;
       gt_logged_closure_marshal (List.length (closures l))
         (instance :: params)) l =
      ([], Returned
             (tt, set_log l1
                    (log l ++
                     [mkEmission (List.length (closures l)) params]))) /\
      (closure <- gt_signal_logger_connect (Some obj) signal_name
                    handler_id ;;
       gt_logged_closure_marshal (List.length (closures l))
         (instance :: params) ;;;
       pop_emissions (List.length (log l)) ;;;
       gt_signal_logger_pop_emission true true true true) l =
      ([], Returned
             ((true,
               mkPopped (G_OBJECT obj) (Some (object_type_name obj))
                 (Some signal_name)
                 (Some (mkEmission (List.length (closures l)) params))),
              set_log l1 []))) /\
  gt_signal_logger_connect None signal_name handler_id l =
    ([EvCritical "G_IS_OBJECT (obj)"],
     if fatal_criticals
     then Aborted (FatalCritical "G_IS_OBJECT (obj)")
     else Returned (0%N, l)).
Proof.
  intros Hv. split.
  2:{ unfold gt_signal_logger_connect, g_return_val_if_fail.
      now destruct fatal_criticals. }
  destruct l as [lg cs]. unfold log_valid in Hv. cbn [log closures] in *.
  set (c := mkClosure (G_OBJECT obj) (object_type_name obj) signal_name
              handler_id).
  set (e := mkEmission (List.length cs) params).
  assert (Hstore :
            store_signal_id
              (cs ++
               [mkClosure (G_OBJECT obj) (object_type_name obj) signal_name
                  0%N])
              (List.length cs) handler_id = cs ++ [c]).
  { clear Hv. induction cs as [|x xs IH]; [reflexivity|].
    cbn. now rewrite IH. }
  assert (Hconnect :
            gt_signal_logger_connect (Some obj) signal_name handler_id
              (mkLogger lg cs) =
            ([], Returned (handler_id, mkLogger lg (cs ++ [c])))).
  { unfold gt_signal_logger_connect, gt_logged_closure_new, bind, get,
      modify, ret. cbn. now rewrite Hstore. }
  assert (Hmarshal :
            gt_logged_closure_marshal (List.length cs) (instance :: params)
              (mkLogger lg (cs ++ [c])) =
            ([], Returned (tt, mkLogger (lg ++ [e]) (cs ++ [c]))))
    by reflexivity.
  assert (Hv2 : log_valid (mkLogger (lg ++ [e]) (cs ++ [c]))).
  { unfold log_valid. cbn [log closures]. rewrite length_app. cbn.
    apply Forall_app. split.
    - eapply Forall_impl; [|exact Hv]. cbn. intros x Hx. lia.
    - constructor; [cbn; lia | constructor]. }
  destruct (pop_emissions_returns (List.length lg) _ Hv2) as (popped & Hpops).
  cbn [log set_log closures] in Hpops.
  rewrite skipn_app, skipn_all, Nat.sub_diag in Hpops. cbn [skipn app] in Hpops.
  exists (mkLogger lg (cs ++ [c])).
  split; [exact Hconnect|]. split; [reflexivity|]. split; [reflexivity|].
  split.
  - unfold bind at 1. rewrite Hconnect, Hmarshal. reflexivity.
  - unfold bind at 1. rewrite Hconnect. unfold bind at 1.
    rewrite Hmarshal. unfold bind at 1. rewrite Hpops.
    change (set_log (mkLogger (lg ++ [e]) (cs ++ [c])) [e])
      with (mkLogger [e] (cs ++ [c])).
    rewrite (pop_emission_nonempty (mkLogger [e] (cs ++ [c])) e [] c
               true true true true eq_refl).
    + reflexivity.
    + cbn [closures emission_closure e].
      rewrite nth_error_app2 by lia. now rewrite Nat.sub_diag.
Qed.

(** ** The invariant of the logger *)

Lemma store_signal_id_live (cs : list GtLoggedClosure) (id : gulong) :
  forall i,
    Forall (fun c => closure_obj c <> 0%N) cs ->
    Forall (fun c => closure_obj c <> 0%N) (store_signal_id cs i id).
Proof.
  induction cs as [|c cs IH]; intros [|i] H; simpl; try exact H.
  - inversion H; subst. constructor; assumption.
  - inversion H; subst. constructor; [assumption | now apply IH].
Qed.

(** X22: the log of a logger always points to closures of the logger, and
    the closures always hold non-[NULL] object pointers.  Both hold for
    [gt_signal_logger_new], and every operation that returns keeps them:
    connecting (whether or not the object is valid), marshalling an
    emission of a closure of the logger, popping with any return
    locations, and invalidating a closure. *)
Theorem X22_logger_invariant (l : GtSignalLogger) :
  (log_valid gt_signal_logger_new /\ closures_live gt_signal_logger_new) /\
  (log_valid l -> closures_live l ->
   (forall obj signal_name handler_id tr r l',
       gt_signal_logger_connect obj signal_name handler_id l =
         (tr, Returned (r, l')) ->
       log_valid l' /\ closures_live l') /\
   (forall closure values tr l',
       closure < List.length (closures l) ->
       gt_logged_closure_marshal closure values l =
         (tr, Returned (tt, l')) ->
       log_valid l' /\ closures_live l') /\
   (forall want_obj want_type want_signal want_emission tr r l',
       gt_signal_logger_pop_emission want_obj want_type want_signal
         want_emission l = (tr, Returned (r, l')) ->
       log_valid l' /\ closures_live l') /\
   (forall closure tr l',
       gt_logged_closure_invalidate closure l = (tr, Returned (tt, l')) ->
       log_valid l' /\ closures_live l')).
Proof.
  split; [split; constructor|].
  intros Hv Hlive. unfold log_valid, closures_live in *.
  split; [|split; [|split]].
  - intros [obj|] signal_name handler_id tr r l'.
    + unfold gt_signal_logger_connect, gt_logged_closure_new, bind, get,
        modify, ret. cbn. intros [= _ _ <-].
      cbn [log closures set_closures set_log].
      rewrite store_signal_id_length, length_app. split.
      * eapply Forall_impl; [|exact Hv]. cbn. intros e He. lia.
      * apply store_signal_id_live. apply Forall_app. split; [exact Hlive|].
        constructor; [discriminate | constructor].
    + unfold gt_signal_logger_connect, g_return_val_if_fail.
      destruct fatal_criticals; [discriminate|].
      intros [= _ _ <-]. split; assumption.
  - intros closure values tr l' Hc.
    unfold gt_logged_closure_marshal, g_assert, bind, modify, ret, abort.
    destruct values as [|instance values]; cbn; [discriminate|].
    intros [= _ <-]. cbn [log closures set_log]. split; [|exact Hlive].
    apply Forall_app. split; [exact Hv|]. constructor; [exact Hc|].
    constructor.
  - intros want_obj want_type want_signal want_emission tr r l'.
    destruct (log l) as [|e rest] eqn:Hl.
    + rewrite pop_emission_empty by exact Hl. intros [= _ _ <-].
      rewrite Hl. split; [constructor | exact Hlive].
    + inversion Hv as [|? ? Hlt Hrest]; subst.
      apply nth_error_Some in Hlt.
      destruct (nth_error (closures l) (emission_closure e)) as [c|] eqn:Hc;
        [|now elim Hlt].
      rewrite (pop_emission_nonempty l e rest c want_obj want_type
                 want_signal want_emission Hl Hc).
      intros [= _ _ <-]. cbn [log closures set_log].
      split; [exact Hrest | exact Hlive].
  - intros closure tr l'. unfold gt_logged_closure_invalidate, modify.
    intros [= _ <-]. cbn [log closures set_closures].
    rewrite store_signal_id_length. split; [exact Hv|].
    now apply store_signal_id_live.
Qed.

(** ** Formatting emissions *)

Lemma concat_empty_cons (a : string) (l : list string) :
  String.concat "" (a :: l) = (a ++ String.concat "" l)%string.
Proof.
  destruct l as [|b l]; simpl; [now rewrite string_app_empty_r | reflexivity].
Qed.

Lemma concat_sep_cons (sep : string) (xs : list string) :
  forall x,
    String.concat sep (x :: xs) =
    (x ++ String.concat "" (map (fun y => sep ++ y) xs))%string.
Proof.
  induction xs as [|y ys IH]; intros x.
  - simpl. now rewrite string_app_empty_r.
  - change (String.concat sep (x :: y :: ys))
      with (x ++ sep ++ String.concat sep (y :: ys))%string.
    rewrite IH. cbn [map]. rewrite concat_empty_cons.
    now rewrite string_app_assoc.
Qed.

Lemma format_param_values_next {St} (values : list GValue) :
  forall (i : nat) (str : string) (s : St),
    0 < i ->
    forallb printable values = true ->
    format_param_values i values str s =
    ([], Returned
           ((str ++
             String.concat ""
               (map (fun v => ", " ++ printed_value v) values))%string, s)).
Proof.
  induction values as [|v rest IH]; intros i str s Hi Hp.
  - cbn. now rewrite string_app_empty_r.
  - cbn [forallb] in Hp. apply andb_prop in Hp as [Hv Hrest].
    cbn [format_param_values map]. rewrite concat_empty_cons.
    apply Nat.ltb_lt in Hi. rewrite Hi.
    unfold bind at 1. cbn [g_string_append ret].
    unfold printable in Hv. unfold printed_value.
    destruct (value_as_string v) as [[x|]|]; try discriminate;
      unfold bind; cbn [g_string_append ret];
      rewrite IH by (try lia; exact Hrest);
      cbn [app]; now rewrite !string_app_assoc.
Qed.

Lemma format_param_values_first {St} (values : list GValue)
    (str : string) (s : St) :
  forallb printable values = true ->
  format_param_values 0 values str s =
  ([], Returned
         ((str ++ String.concat ", " (map printed_value values))%string, s)).
Proof.
  destruct values as [|v rest]; intros Hp.
  - cbn. now rewrite string_app_empty_r.
  - cbn [forallb] in Hp. apply andb_prop in Hp as [Hv Hrest].
    cbn [format_param_values map]. rewrite concat_sep_cons, map_map.
    cbn [Nat.ltb Nat.leb]. unfold bind at 1, ret at 1.
    unfold printable in Hv. unfold printed_value.
    destruct (value_as_string v) as [[x|]|]; try discriminate;
      unfold bind; cbn [g_string_append ret];
      rewrite format_param_values_next by (try lia; exact Hrest);
      cbn [app]; now rewrite !string_app_assoc.
Qed.

(** A value whose string is [NULL] costs a critical. *)
Lemma format_param_values_null {St} (values : list GValue) :
  forall (i : nat) (str : string) (s : St),
    forallb printable values = false ->
    In (EvCritical "val != NULL") (fst (format_param_values i values str s)).
Proof.
  induction values as [|v rest IH]; intros i str s Hp; [discriminate|].
  cbn [forallb] in Hp. cbn [format_param_values].
  set (sep := if (0 <? i)%nat then g_string_append str (Some ", ")
              else ret str).
  assert (Hsep : exists str', sep s = ([], Returned (str', s))).
  { unfold sep. destruct (0 <? i)%nat; eexists; reflexivity. }
  destruct Hsep as [str' Hsep]. unfold bind at 1. rewrite Hsep.
  cbn [app]. unfold printable in Hp.
  destruct (value_as_string v) as [[x|]|].
  - unfold bind. cbn [g_string_append ret]. simpl in Hp.
    specialize (IH (S i) (str' ++ x)%string s Hp).
    destruct (format_param_values (S i) rest (str' ++ x) s) as [tr o].
    exact IH.
  - unfold bind. cbn [g_string_append]. unfold g_return_val_if_fail.
    destruct fatal_criticals; [now left|].
    destruct (format_param_values (S i) rest str' s) as [tr o].
    now left.
  - unfold bind, ret. simpl in Hp.
    specialize (IH (S i)
                  (str' ++ "GValue of type " ++ value_type_name v)%string
                  s Hp).
    destruct (format_param_values (S i) rest
                (str' ++ "GValue of type " ++ value_type_name v) s)
      as [tr o].
    exact IH.
Qed.

Lemma format_emission_printable {St} (s : St) (obj : gpointer)
    (obj_type_name signal_name : string)
    (emission : GtSignalLoggerEmission) :
  obj <> 0%N ->
  forallb printable (emission_param_values emission) = true ->
  gt_signal_logger_format_emission obj (Some obj_type_name)
    (Some signal_name) (Some emission) s =
  ([], Returned
         (Some (formatted_emission obj obj_type_name signal_name
                  (emission_param_values emission)), s)).
Proof.
  intros Hobj Hp.
  unfold gt_signal_logger_format_emission, g_return_val_if_fail.
  apply N.eqb_neq in Hobj. rewrite Hobj. cbn [negb is_some printf_s].
  unfold bind. rewrite format_param_values_first by exact Hp.
  cbn [app]. unfold formatted_emission, ret.
  destruct (emission_param_values emission) as [|v rest].
  - cbn [List.length Nat.eqb is_nil map String.concat].
    rewrite string_app_empty_r. do 3 f_equal.
    now rewrite !string_app_assoc.
  - cbn [List.length Nat.eqb is_nil].
    do 3 f_equal. now rewrite !string_app_assoc.
Qed.

Lemma format_param_values_returns {St} (values : list GValue) :
  forall (i : nat) (str : string) (s : St),
    snd (format_param_values i values str s) <> Blocked.
Proof.
  induction values as [|v rest IH]; intros i str s; [discriminate|].
  cbn [format_param_values]. unfold bind at 1.
  destruct (0 <? i)%nat; cbn [g_string_append ret].
  - unfold bind at 1.
    destruct (value_as_string v) as [[x|]|]; cbn [g_string_append ret].
    + specialize (IH (S i) ((str ++ ", ") ++ x)%string s).
      destruct (format_param_values (S i) rest _ s) as [tr o]. exact IH.
    + unfold g_return_val_if_fail.
      destruct fatal_criticals; [discriminate|].
      specialize (IH (S i) (str ++ ", ")%string s).
      destruct (format_param_values (S i) rest _ s) as [tr o]. exact IH.
    + specialize (IH (S i)
                    ((str ++ ", ") ++ "GValue of type " ++
                     value_type_name v)%string s).
      destruct (format_param_values (S i) rest _ s) as [tr o]. exact IH.
  - unfold bind at 1.
    destruct (value_as_string v) as [[x|]|]; cbn [g_string_append ret].
    + specialize (IH (S i) (str ++ x)%string s).
      destruct (format_param_values (S i) rest _ s) as [tr o]. exact IH.
    + unfold g_return_val_if_fail.
      destruct fatal_criticals; [discriminate|].
      specialize (IH (S i) str s).
      destruct (format_param_values (S i) rest _ s) as [tr o]. exact IH.
    + specialize (IH (S i)
                    (str ++ "GValue of type " ++ value_type_name v)%string s).
      destruct (format_param_values (S i) rest _ s) as [tr o]. exact IH.
Qed.

Lemma format_emission_returns {St} (s : St) (obj : gpointer)
    (obj_type_name signal_name : option string)
    (emission : option GtSignalLoggerEmission) :
  snd (gt_signal_logger_format_emission obj obj_type_name signal_name
         emission s) <> Blocked.
Proof.
  unfold gt_signal_logger_format_emission, g_return_val_if_fail.
  destruct (negb (N.eqb obj 0));
    [|destruct fatal_criticals; discriminate].
  destruct (is_some signal_name);
    [|destruct fatal_criticals; discriminate].
  destruct emission as [e|]; [|destruct fatal_criticals; discriminate].
  unfold bind.
  pose proof (format_param_values_returns (emission_param_values e) 0
                (printf_s obj_type_name ++ "::" ++ printf_s signal_name ++
                 " from " ++ format_pointer obj ++ " (")%string s) as H.
  destruct (format_param_values 0 (emission_param_values e) _ s)
    as [tr [[str s']|a|]]; [discriminate | discriminate | now elim H].
Qed.

(** X17: what [gt_signal_logger_format_emission] prints.  For a non-[NULL]
    object pointer and values that all print, it logs nothing and returns
    the type name, "::", the signal name, " from ", the pointer and, in
    parentheses, the printed values separated by ", " or "no arguments"
    when there is none; a value without a transformation to a string prints
    as "GValue of type" and its type name.  For a [NULL] object pointer it
    logs a critical and returns [NULL] (or aborts when criticals are
    fatal).  And a value whose string is [NULL] makes [g_string_append]
    log a critical. *)
Theorem X17_format_emission
    (St : Type) (s : St) (obj : gpointer) (obj_type_name signal_name : string)
    (emission : GtSignalLoggerEmission) :
  (obj <> 0%N ->
   forallb printable (emission_param_values emission) = true ->
   gt_signal_logger_format_emission obj (Some obj_type_name)
     (Some signal_name) (Some emission) s =
   ([], Returned
          (Some (formatted_emission obj obj_type_name signal_name
                   (emission_param_values emission)), s))) /\
  (obj <> 0%N ->
   forallb printable (emission_param_values emission) = false ->
   In (EvCritical "val != NULL")
     (fst (gt_signal_logger_format_emission obj (Some obj_type_name)
             (Some signal_name) (Some emission) s))) /\
  gt_signal_logger_format_emission 0%N (Some obj_type_name)
    (Some signal_name) (Some emission) s =
  ([EvCritical "obj != NULL"],
   if fatal_criticals then Aborted (FatalCritical "obj != NULL")
   else Returned (None, s)).
Proof.
  split; [|split].
  - apply format_emission_printable.
  - intros Hobj Hp.
    unfold gt_signal_logger_format_emission, g_return_val_if_fail.
    apply N.eqb_neq in Hobj. rewrite Hobj. cbn [negb is_some printf_s].
    unfold bind.
    pose proof (format_param_values_null (emission_param_values emission) 0
                  (obj_type_name ++ "::" ++ signal_name ++ " from " ++
                   format_pointer obj ++ " (")%string s Hp) as H.
    destruct (format_param_values 0 (emission_param_values emission)
                (obj_type_name ++ "::" ++ signal_name ++ " from " ++
                 format_pointer obj ++ " (") s) as [tr [[str s']|a|]];
      cbn [fst] in *; try exact H.
    apply in_or_app. now left.
  - unfold gt_signal_logger_format_emission, g_return_val_if_fail.
    cbn. now destruct fatal_criticals.
Qed.

(** X18: the width that [gt_signal_logger_format_emissions] works out for
    its counter is the number of decimal digits of the number of
    emissions, so every number printed, from 1 to that number, fits the
    column. *)
Theorem X18_counter_width (n_emissions : nat) :
  let width := counter_width n_emissions n_emissions 1 in
  10 ^ (width - 1) <= Nat.max n_emissions 1 /\
  n_emissions < 10 ^ width /\
  forall i, i < n_emissions -> i + 1 < 10 ^ width.
Proof.
  assert (H : forall fuel n width,
             n <= fuel ->
             exists k,
               counter_width fuel n width = width + k /\
               10 ^ k <= Nat.max n 1 /\ n < 10 ^ (S k)).
  { induction fuel as [|fuel IH]; intros n width Hn.
    - exists 0. cbn. repeat split; lia.
    - cbn [counter_width]. destruct (Nat.leb_spec 10 n) as [Hge|Hlt].
      + destruct (IH (n / 10) (S width)) as (k & E & Hlo & Hhi).
        { pose proof (Nat.div_mod_eq n 10). lia. }
        exists (S k). rewrite E. split; [lia|].
        pose proof (Nat.div_mod_eq n 10) as Hdm.
        pose proof (Nat.mod_upper_bound n 10) as Hmod.
        assert (Hq : 1 <= n / 10) by lia.
        rewrite Nat.max_l in Hlo by lia.
        rewrite Nat.max_l by lia.
        rewrite !Nat.pow_succ_r' in *. lia.
      + exists 0. cbn. repeat split; lia. }
  intros width. subst width.
  destruct (H n_emissions n_emissions 1 (le_n _)) as (k & -> & Hlo & Hhi).
  replace (1 + k - 1) with k by lia. replace (1 + k) with (S k) by lia.
  repeat split; [exact Hlo | exact Hhi | lia].
Qed.

(** ** Listing and asserting on emissions *)

Lemma logged_emission_ok (l : GtSignalLogger)
    (emissions : list GtSignalLoggerEmission) :
  Forall (fun e => emission_closure e < List.length (closures l)) emissions ->
  closures_live l ->
  Forall (fun e => forallb printable (emission_param_values e) = true)
    emissions ->
  Forall (fun e =>
            exists c,
              nth_error (closures l) (emission_closure e) = Some c /\
              closure_obj c <> 0%N /\
              forallb printable (emission_param_values e) = true)
    emissions.
Proof.
  intros Hv Hlive Hp. induction emissions as [|e rest IH]; constructor.
  - inversion Hv as [|? ? Hlt _]; inversion Hp as [|? ? Hpe _]; subst.
    apply nth_error_Some in Hlt.
    destruct (nth_error (closures l) (emission_closure e)) as [c|] eqn:Hc;
      [|now elim Hlt].
    exists c. repeat split; [|exact Hpe].
    unfold closures_live in Hlive. rewrite Forall_forall in Hlive.
    apply Hlive. exact (nth_error_In _ _ Hc).
  - inversion Hv; inversion Hp; subst. now apply IH.
Qed.

Lemma format_log_step (l : GtSignalLogger) (width i : nat)
    (e : GtSignalLoggerEmission) (rest : list GtSignalLoggerEmission)
    (str : string) (c : GtLoggedClosure) :
  nth_error (closures l) (emission_closure e) = Some c ->
  closure_obj c <> 0%N ->
  forallb printable (emission_param_values e) = true ->
  format_log width i (e :: rest) str l =
  format_log width (S i) rest
    ((if (0 <? i)%nat then str ++ newline else str) ++
     numbered_emission l width (i + 1) e)%string l.
Proof.
  intros Hc Hobj Hp. cbn [format_log].
  unfold bind at 1, emission_closure_deref, bind at 1, get at 1.
  rewrite Hc. cbn [ret app]. unfold bind at 1.
  rewrite format_emission_printable by assumption.
  cbn [app printf_s]. unfold numbered_emission, seen. rewrite Hc.
  destruct (format_log width (S i) rest _ l) as [tr o] eqn:E.
  rewrite <- E. reflexivity.
Qed.

Lemma format_log_next (l : GtSignalLogger) (width : nat)
    (emissions : list GtSignalLoggerEmission) :
  forall (i : nat) (str : string),
    0 < i ->
    Forall (fun e =>
              exists c,
                nth_error (closures l) (emission_closure e) = Some c /\
                closure_obj c <> 0%N /\
                forallb printable (emission_param_values e) = true)
      emissions ->
    format_log width i emissions str l =
    ([], Returned
           ((str ++
             String.concat ""
               (map (fun line => newline ++ line)
                  (numbered_from l width (i + 1) emissions)))%string, l)).
Proof.
  induction emissions as [|e rest IH]; intros i str Hi Hok.
  - cbn. now rewrite string_app_empty_r.
  - inversion Hok as [|? ? (c & Hc & Hobj & Hp) Hrest]; subst.
    rewrite (format_log_step l width i e rest str c Hc Hobj Hp).
    rewrite IH by (try lia; exact Hrest).
    apply Nat.ltb_lt in Hi. rewrite Hi.
    unfold numbered_from. cbn [List.length seq combine map fst snd].
    rewrite concat_empty_cons.
    replace (S (i + 1)) with (S i + 1) by lia.
    now rewrite !string_app_assoc.
Qed.

Lemma format_emissions_dump (l : GtSignalLogger) :
  log_valid l -> closures_live l -> log_printable l ->
  gt_signal_logger_format_emissions l =
  ([], Returned (emissions_dump l, l)).
Proof.
  intros Hv Hlive Hp.
  pose proof (logged_emission_ok l (log l) Hv Hlive Hp) as Hok.
  unfold gt_signal_logger_format_emissions, bind, get, emissions_dump.
  cbn [app].
  destruct (log l) as [|e rest]; [reflexivity|].
  inversion Hok as [|? ? (c & Hc & Hobj & Hpe) Hrest]; subst.
  rewrite (format_log_step l _ 0 e rest "" c Hc Hobj Hpe).
  rewrite format_log_next by (try lia; exact Hrest).
  cbn [Nat.ltb Nat.leb Nat.add]. unfold numbered_from at 2.
  cbn [List.length seq combine map fst snd].
  rewrite concat_sep_cons. reflexivity.
Qed.

(** X19: what [gt_signal_logger_format_emissions] returns.  When the log is
    empty, the empty string.  When the log points to closures of live
    objects and its values print, the logger is unchanged, nothing is
    logged, and the result is the logged emissions, oldest first, each as
    a space, its number from 1 right-justified in the counter width, ". "
    and the formatted emission, joined by newlines: no newline at the end,
    and not the empty string when an emission is logged. *)
Theorem X19_format_emissions (l : GtSignalLogger) :
  (log l = [] ->
   gt_signal_logger_format_emissions l = ([], Returned ("", l))) /\
  (log_valid l -> closures_live l -> log_printable l ->
   gt_signal_logger_format_emissions l =
     ([], Returned (emissions_dump l, l)) /\
   (log l <> [] -> emissions_dump l <> "")).
Proof.
  split.
  - intros H. unfold gt_signal_logger_format_emissions, bind, get.
    now rewrite H.
  - intros Hv Hlive Hp. split; [now apply format_emissions_dump|].
    unfold emissions_dump, numbered_from.
    destruct (log l) as [|e rest]; [intros H; now elim H|].
    intros _. cbn [List.length seq combine map fst snd].
    rewrite concat_sep_cons. unfold numbered_emission. discriminate.
Qed.

(** X20: [gt_signal_logger_assert_no_emissions] returns exactly when the
    log is empty, and then it has logged nothing and changed nothing.
    With emissions logged it never returns; when they print, it fails with
    "Expected no signal emissions, but saw", the number of emissions, a
    colon, a newline and the list of the emissions. *)
Theorem X20_assert_no_emissions (l : GtSignalLogger) :
  (log l = [] ->
   gt_signal_logger_assert_no_emissions l = ([], Returned (tt, l))) /\
  (log l <> [] ->
   is_returned (snd (gt_signal_logger_assert_no_emissions l)) = false /\
   (log_valid l -> closures_live l -> log_printable l ->
    gt_signal_logger_assert_no_emissions l =
    ([], Aborted
           (AssertionFailed
              ("Expected no signal emissions, but saw " ++
               format_unsigned (Z.of_nat (List.length (log l))) ++ ":" ++
               newline ++ emissions_dump l))))).
Proof.
  split.
  - intros H.
    unfold gt_signal_logger_assert_no_emissions, bind, get,
      gt_signal_logger_get_n_emissions.
    now rewrite H.
  - intros H.
    assert (Hn : (0 <? List.length (log l))%nat = true).
    { destruct (log l); [now elim H | reflexivity]. }
    assert (E : gt_signal_logger_assert_no_emissions l =
                match gt_signal_logger_format_emissions l with
                | (tr, Returned (ane_list, l')) =>
                    (tr ++ [],
                     Aborted
                       (AssertionFailed
                          ("Expected no signal emissions, but saw " ++
                           format_unsigned
                             (Z.of_nat (List.length (log l'))) ++ ":" ++
                           newline ++ ane_list)))
                | (tr, Aborted a) => (tr, Aborted a)
                | (tr, Blocked) => (tr, Blocked)
                end).
    { unfold gt_signal_logger_assert_no_emissions, bind at 1, get at 1,
        gt_signal_logger_get_n_emissions.
      rewrite Hn. cbn [app]. unfold bind at 1.
      destruct (gt_signal_logger_format_emissions l) as [tr [[str l']| |]];
        reflexivity. }
    rewrite E. split.
    + destruct (gt_signal_logger_format_emissions l) as [tr [[str l']| |]];
        reflexivity.
    + intros Hv Hlive Hp.
      rewrite format_emissions_dump by assumption. reflexivity.
Qed.

(** X21: the contract of [gt_signal_logger_assert_emission_pop].  On an
    empty log it fails with "... but saw no emissions".  On a log that
    points to the closures, with [e] the oldest emission and [c] its
    closure, the emission is popped, and the call returns exactly when [c]
    was made for the address of the expected object and for the expected
    signal name, comparing neither the type name nor the values; it then
    logs nothing, hands out the values of [e] and leaves the later
    emissions.  Otherwise it never returns; when [e] prints it fails with
    "... but saw:" and [e] formatted. *)
Theorem X21_assert_emission_pop_contract
    (l : GtSignalLogger) (obj : GObject) (signal_name : string) :
  (log l = [] ->
   gt_signal_logger_assert_emission_pop obj signal_name l =
   ([], Aborted
          (AssertionFailed
             (expected_emission obj signal_name ++
              ", but saw no emissions")))) /\
  (forall e rest c,
      log l = e :: rest ->
      nth_error (closures l) (emission_closure e) = Some c ->
      let expected :=
        N.eqb (closure_obj c) (G_OBJECT obj) &&
        String.eqb (closure_signal_name c) signal_name in
      match gt_signal_logger_assert_emission_pop obj signal_name l with
      | (tr, Returned (values, l')) =>
          expected = true /\ tr = [] /\
          values = emission_param_values e /\ l' = set_log l rest
      | (_, Aborted a) =>
          expected = false /\
          (closure_obj c <> 0%N ->
           forallb printable (emission_param_values e) = true ->
           a = AssertionFailed
                 (expected_emission obj signal_name ++ ", but saw: " ++
                  formatted_emission (closure_obj c)
                    (closure_obj_type_name c) (closure_signal_name c)
                    (emission_param_values e)))
      | (_, Blocked) => False
      end).
Proof.
  split.
  - intros H. unfold gt_signal_logger_assert_emission_pop, bind at 1.
    now rewrite pop_emission_empty by exact H.
  - intros e rest c Hl Hc expected.
    unfold gt_signal_logger_assert_emission_pop, bind at 1.
    rewrite (pop_emission_nonempty l e rest c true true true true Hl Hc).
    cbn [fst snd out_obj out_obj_type_name out_signal_name out_emission
         app].
    subst expected.
    destruct (N.eqb (closure_obj c) (G_OBJECT obj)) eqn:Eobj;
      [destruct (String.eqb (closure_signal_name c) signal_name) eqn:Esig|];
      cbn [andb]; unfold bind at 1, ret at 1; cbn [app].
    + unfold gt_signal_logger_emission_get_params. now repeat split.
    + unfold bind at 1.
      pose proof (format_emission_returns (set_log l rest) (closure_obj c)
                    (Some (closure_obj_type_name c))
                    (Some (closure_signal_name c)) (Some e)) as Hret.
      pose proof (format_emission_printable (set_log l rest) (closure_obj c)
                    (closure_obj_type_name c) (closure_signal_name c) e)
        as Hfmt.
      destruct (gt_signal_logger_format_emission (closure_obj c)
                  (Some (closure_obj_type_name c))
                  (Some (closure_signal_name c)) (Some e) (set_log l rest))
        as [tr [[args l']|a|]]; cbn in Hret |- *.
      * split; [reflexivity|]. intros Hobj Hp.
        specialize (Hfmt Hobj Hp). now injection Hfmt as _ -> _.
      * split; [reflexivity|]. intros Hobj Hp.
        specialize (Hfmt Hobj Hp). discriminate.
      * now elim Hret.
    + unfold bind at 1.
      pose proof (format_emission_returns (set_log l rest) (closure_obj c)
                    (Some (closure_obj_type_name c))
                    (Some (closure_signal_name c)) (Some e)) as Hret.
      pose proof (format_emission_printable (set_log l rest) (closure_obj c)
                    (closure_obj_type_name c) (closure_signal_name c) e)
        as Hfmt.
      destruct (gt_signal_logger_format_emission (closure_obj c)
                  (Some (closure_obj_type_name c))
                  (Some (closure_signal_name c)) (Some e) (set_log l rest))
        as [tr [[args l']|a|]]; cbn in Hret |- *.
      * split; [reflexivity|]. intros Hobj Hp.
        specialize (Hfmt Hobj Hp). now injection Hfmt as _ -> _.
      * split; [reflexivity|]. intros Hobj Hp.
        specialize (Hfmt Hobj Hp). discriminate.
      * now elim Hret.
Qed.

End Model.

(* ===================================================================== *)
(** * The fixture of tests/dbus-queue.c, run through the model            *)
(* ===================================================================== *)

(** C1 (the non-blocking pop): with two calls queued on the connected
    sample queue, [gt_dbus_queue_try_pop_message] returns [FALSE] and
    [NULL] and leaves both queued, however often it is called, whereas the
    blocking pops hand them out in arrival order. *)
Theorem C1_try_pop_never_hands_out_a_message :
  let m1 := sample_invocation 1%N in
  let m2 := sample_invocation 2%N in
  let w := mkWorld (sample_queue [m1; m2]) [] in
  gt_dbus_queue_try_pop_message false client_context true w =
    ([], Returned ((false, None), w)) /\
  snd (run_schedule false print_serial
         [ATryPop client_context; ATryPop server_context] w) =
    Returned ([], w) /\
  snd (run_schedule false print_serial
         [APop client_context; APop server_context] w) =
    Returned ([m1; m2], mkWorld (sample_queue []) []).
Proof. repeat split. Qed.

Lemma C3_disconnect_order_witness :
  exists q',
    gt_dbus_queue_disconnect false print_serial true true
      (sample_queue []) =
      ([EvConnectionClose sample_client; EvMutexLock;
        EvBusUnownName 7%N; EvBusUnownName 8%N; EvUnregisterObject 9%N;
        EvMutexUnlock; EvRemoveFilter 5%N; EvConnectionClose sample_server;
        EvTestDBusDown; EvAtomicSetQuitting; EvWakeup server_context;
        EvThreadJoin 1%N],
       Returned (tt, q')) /\
    name_ids q' = [] /\ object_ids q' = [] /\
    quitting q' = true /\ server_thread q' = None /\
    client_connection q' = None /\ server_connection q' = None /\
    server_message_queue q' = server_message_queue (sample_queue []).
Proof.
  apply (C3_disconnect_order false print_serial (sample_queue []) true
           true 1%N sample_client sample_server);
    [reflexivity | reflexivity | reflexivity | discriminate | reflexivity].
Defined.

(** The lock is held while the names are released and the objects
    unregistered. *)
Lemma C3_disconnect_unregisters_under_the_lock :
  fst (gt_dbus_queue_disconnect false print_serial false true
         (sample_queue [])) =
    [EvConnectionClose sample_client; EvMutexLock;
     EvBusUnownName 7%N; EvBusUnownName 8%N; EvUnregisterObject 9%N;
     EvMutexUnlock; EvRemoveFilter 5%N; EvConnectionClose sample_server;
     EvTestDBusDown; EvAtomicSetQuitting; EvWakeup server_context;
     EvThreadJoin 1%N] /\
  unregisters_outside_lock false
    (fst (gt_dbus_queue_disconnect false print_serial false true
            (sample_queue []))) = false.
Proof. split; reflexivity. Qed.

(** [gt_dbus_queue_unown_name], by contrast, releases the name after it
    has unlocked. *)
Lemma unown_name_unregisters_outside_the_lock :
  unregisters_outside_lock false
    (fst (gt_dbus_queue_unown_name false 7%N (sample_queue []))) = true.
Proof. reflexivity. Qed.

Lemma C4_try_pop_on_empty_queue_witness :
  connected (self (mkWorld (sample_queue []) [])) /\
  (exists w',
      gt_dbus_queue_try_pop_message true client_context true
        (mkWorld (sample_queue []) []) =
        ([], Returned ((false, None), w')) /\
      w' = mkWorld (sample_queue []) [] /\
      gt_dbus_queue_get_n_messages (self w') = 0%Z).
Proof.
  split; [reflexivity|].
  apply (C4_try_pop_on_empty_queue true client_context true
           (mkWorld (sample_queue []) [])); reflexivity.
Defined.

Lemma C6_unown_name_witness :
  exists ids',
    gt_dbus_queue_unown_name false 7%N (sample_queue []) =
      ([EvMutexLock; EvMutexUnlock; EvBusUnownName 7%N],
       Returned (tt, set_name_ids (sample_queue []) ids')) /\
    Permutation (name_ids (sample_queue [])) (7%N :: ids').
Proof.
  destruct (C6_unown_name false (sample_queue []) 7%N) as [H _].
  destruct H as [_ H].
  - reflexivity.
  - discriminate.
  - simpl. repeat constructor; simpl; intuition discriminate.
  - destruct H as (ids' & H1 & H2 & _); [simpl; now left|].
    exists ids'. split; assumption.
Defined.

(** Outside its documented state an untracked ID does not reach
    [g_assert_not_reached]: after a disconnect, when no ID is tracked any
    more, or with the ID 0, the precondition check logs a critical and the
    call returns. *)
Lemma C6_untracked_id_returns_when_not_connected :
  ~ In 7%N (name_ids (torn_down (sample_queue []))) /\
  gt_dbus_queue_unown_name false 7%N (torn_down (sample_queue [])) =
    ([EvCritical "self->server_thread != NULL"],
     Returned (tt, torn_down (sample_queue []))) /\
  ~ In 0%N (name_ids (sample_queue [])) /\
  gt_dbus_queue_unown_name false 0%N (sample_queue []) =
    ([EvCritical "id != 0"], Returned (tt, sample_queue [])).
Proof.
  repeat split.
  - intros [].
  - simpl. intros [H|[H|[]]]; discriminate.
Qed.

(** With criticals not fatal, a path that does not start with '/' gets the
    zero ID back; nothing aborts. *)
Lemma C8_malformed_path_returns_zero :
  g_variant_is_object_path "com/example/Test" = false /\
  gt_dbus_queue_export_object false "com/example/Test"
    "com.example.Test.Manager" false (Some (3%N, None)) (sample_queue []) =
  ([EvCritical
      "object_path != NULL && g_variant_is_object_path (object_path)"],
   Returned ((0%N, None), sample_queue [])) /\
  is_aborted
    (snd (gt_dbus_queue_export_object false "com/example/Test"
            "com.example.Test.Manager" false (Some (3%N, None))
            (sample_queue []))) = false.
Proof. repeat split. Qed.

Lemma C8_export_object_malformed_path_witness :
  g_variant_is_object_path "com/example/Test" = false /\
  exists expr,
    gt_dbus_queue_export_object true "com/example/Test"
      "com.example.Test.Manager" false (Some (3%N, None))
      (sample_queue []) =
    ([EvCritical expr], Aborted (FatalCritical expr)).
Proof.
  split; [reflexivity|].
  apply (C8_export_object_malformed_path true (sample_queue [])
           "com/example/Test" "com.example.Test.Manager" false
           (Some (3%N, None))).
  left. reflexivity.
Defined.

Lemma C9_match_client_message_witness :
  exists matches,
    gt_dbus_queue_match_client_message false parse_sample any_name any_name
      (sample_invocation 1%N) "/com/example/Test"
      "com.example.Test.Manager" "GetObjectPath" (Some "(@u 123,)")
      (sample_queue []) = ([], Returned (matches, sample_queue [])) /\
    (matches = true <->
     inv_sender (sample_invocation 1%N) = ":1.1" /\
     inv_object_path (sample_invocation 1%N) = "/com/example/Test" /\
     inv_interface_name (sample_invocation 1%N) =
       "com.example.Test.Manager" /\
     inv_method_name (sample_invocation 1%N) = "GetObjectPath" /\
     forall s, Some "(@u 123,)" = Some s ->
               parse_sample s = Some (inv_parameters (sample_invocation 1%N))).
Proof.
  apply (C9_match_client_message false parse_sample any_name any_name
           (sample_queue []) (sample_invocation 1%N) "/com/example/Test"
           "com.example.Test.Manager" "GetObjectPath" (Some "(@u 123,)")
           sample_client ":1.1");
    try reflexivity.
  intros s [= <-]. discriminate.
Defined.



(** A run of the server thread: it waits through one iteration, another
    thread installs the server function, the thread calls it once, serves a
    method call, and leaves when told to quit. *)
Lemma server_thread_sample_run :
  gt_dbus_queue_server_thread_cb idle_server_func
    (mkWorld (sample_queue [])
       [[]; [HSetServerFunc 4%N 5%N];
        [HMethodCall (sample_invocation 1%N)]; [HQuit]; []]) =
  ([EvPushThreadDefault server_context;
    EvIteration server_context true;
    EvIteration server_context true; EvWakeup server_context;
    EvServerFunc 4%N 5%N;
    EvIteration server_context true;
    EvDebug "gt_dbus_queue_method_call" 1%N;
    EvWakeup client_context; EvWakeup server_context;
    EvIteration server_context true;
    EvIteration server_context false;
    EvPopThreadDefault server_context],
   Returned
     (tt,
      mkWorld
        (set_quitting
           (set_server_func
              (set_server_func_data
                 (sample_queue [sample_invocation 1%N]) 5%N)
              (Some 4%N))
           true)
        [])).
Proof. reflexivity. Qed.

(** The slot and the quitting flag outlive a disconnect: on a queue that is
    connected again, the new server thread finds the server function still
    installed and calls it, once. *)
Lemma reconnected_queue_calls_server_func_again :
  let q := set_server_func (set_server_func_data (sample_queue []) 5%N)
             (Some 4%N) in
  match snd (gt_dbus_queue_disconnect false print_serial false true q) with
  | Returned (_, q1) =>
      match snd (gt_dbus_queue_connect false false (Some sample_client)
                   (Some sample_server) 6%N 2%N q1) with
      | Returned (true, q2) =>
          fst (gt_dbus_queue_server_thread_cb idle_server_func
                 (mkWorld q2 [])) =
          [EvPushThreadDefault server_context; EvServerFunc 4%N 5%N;
           EvIteration server_context false;
           EvPopThreadDefault server_context]
      | _ => False
      end
  | _ => False
  end.
Proof. vm_compute. reflexivity. Qed.

(* ===================================================================== *)
(** * Further properties, on the fixture                                  *)
(* ===================================================================== *)

Lemma X1_disconnect_asserts_before_teardown_witness :
  gt_dbus_queue_disconnect false print_serial true true
    (sample_queue [sample_invocation 1%N]) =
    ([EvAsyncQueueLock; EvAsyncQueueUnlock],
     Aborted
       (AssertionFailed
          (expected_no_messages print_serial
             (sample_queue [sample_invocation 1%N])))) /\
  contains
    (expected_no_messages print_serial
       (sample_queue [sample_invocation 1%N]))
    (formatted_dump print_serial [sample_invocation 1%N]).
Proof.
  apply (X1_disconnect_asserts_before_teardown false print_serial
           (sample_queue [sample_invocation 1%N]) true);
    reflexivity.
Defined.

Lemma X2_failed_connect_leaves_the_bus_up_witness :
  exists tr q',
    gt_dbus_queue_connect false false None (Some sample_server) 5%N 1%N
      unconnected_queue = (tr, Returned (false, q')) /\
    bus_up q' = true /\ server_thread q' = None /\
    gt_dbus_queue_disconnect false print_serial true true q' =
      ([EvCritical "self->server_thread != NULL"], Returned (tt, q')).
Proof.
  destruct (X2_failed_connect_leaves_the_bus_up false print_serial
              unconnected_queue None (Some sample_server) 5%N 1%N true true)
    as (tr & q' & E & _ & _ & Hbus & Ht & _ & Hd).
  - reflexivity.
  - left. reflexivity.
  - exists tr, q'. repeat split; assumption.
Defined.


Lemma X4_quitting_server_thread_does_not_wait_witness :
  let w := mkWorld (set_quitting (sample_queue []) true) [] in
  has_blocking_iteration
    (fst (gt_dbus_queue_server_thread_cb idle_server_func w)) = false /\
  count_server_func
    (fst (gt_dbus_queue_server_thread_cb idle_server_func w)) = 0 /\
  snd (gt_dbus_queue_server_thread_cb idle_server_func w) <> Blocked.
Proof.
  apply (X4_quitting_server_thread_does_not_wait idle_server_func
           (mkWorld (set_quitting (sample_queue []) true) []));
    reflexivity.
Defined.

Lemma X5_server_thread_returns_after_quitting_witness :
  let w :=
    mkWorld (set_server_func (sample_queue []) (Some 3%N)) [[HQuit]] in
  exists rest,
    fst (gt_dbus_queue_server_thread_cb idle_server_func w) =
      EvPushThreadDefault server_context :: EvServerFunc 3%N 0%N :: rest /\
    count_server_func
      (fst (gt_dbus_queue_server_thread_cb idle_server_func w)) = 1.
Proof.
  destruct (X5_server_thread_returns_after_quitting idle_server_func
              (mkWorld (set_server_func (sample_queue []) (Some 3%N))
                 [[HQuit]])) as [_ H].
  exact (H 3%N eq_refl).
Defined.

Lemma X6_own_unown_name_round_trip_witness :
  exists q1,
    gt_dbus_queue_own_name false any_name (fun _ => false)
      "com.example.Other" (Some 11%N) (sample_queue []) =
      ([EvInvoke "own_name_cb"; EvMutexLock; EvMutexUnlock],
       Returned (11%N, q1)) /\
    name_ids q1 = [7%N; 8%N; 11%N] /\
    gt_dbus_queue_unown_name false 11%N q1 =
      ([EvMutexLock; EvMutexUnlock; EvBusUnownName 11%N],
       Returned (tt, sample_queue [])).
Proof.
  apply (X6_own_unown_name_round_trip false any_name (fun _ => false)
           (sample_queue []) "com.example.Other" 11%N).
  - reflexivity.
  - reflexivity.
  - reflexivity.
  - discriminate.
  - simpl. intros [H|[H|[]]]; discriminate.
Defined.

Lemma X7_own_name_outcomes_witness :
  snd (gt_dbus_queue_own_name false any_name (fun _ => false)
         "com.example.Other" None (sample_queue [])) = Blocked.
Proof.
  destruct (X7_own_name_outcomes false any_name (fun _ => false)
              (sample_queue []) "com.example.Other" None) as (_ & _ & H).
  apply H; [reflexivity | reflexivity | now left].
Defined.

Lemma X9_export_unexport_object_round_trip_witness :
  exists q1,
    gt_dbus_queue_export_object false "/com/example/Other"
      "com.example.Test.Manager" false (Some (12%N, None))
      (sample_queue []) =
      ([EvInvoke "export_object_cb"; EvMutexLock; EvMutexUnlock],
       Returned ((12%N, None), q1)) /\
    object_ids q1 = [9%N; 12%N] /\
    gt_dbus_queue_unexport_object false 12%N true q1 =
      ([EvMutexLock; EvMutexUnlock; EvUnregisterObject 12%N],
       Returned (tt, sample_queue [])).
Proof.
  apply (X9_export_unexport_object_round_trip false (sample_queue [])
           "/com/example/Other" "com.example.Test.Manager" 12%N).
  - reflexivity.
  - reflexivity.
  - discriminate.
  - simpl. intros [H|[]]. discriminate.
Defined.

Lemma X10_unexport_object_outcomes_witness :
  gt_dbus_queue_unexport_object false 9%N false (sample_queue []) =
    ([EvMutexLock; EvMutexUnlock; EvUnregisterObject 9%N],
     Aborted (AssertionFailed "was_registered")) /\
  gt_dbus_queue_unexport_object false 10%N true (sample_queue []) =
    ([EvMutexLock; EvMutexUnlock],
     Aborted (AssertionFailed "code should not be reached")).
Proof.
  split.
  - destruct (X10_unexport_object_outcomes false (sample_queue []) 9%N
                false) as [_ H]; [reflexivity | discriminate |].
    apply H. simpl. now left.
  - destruct (X10_unexport_object_outcomes false (sample_queue []) 10%N
                true) as [H _]; [reflexivity | discriminate |].
    apply H. simpl. intros [H1|[]]. discriminate.
Defined.

Lemma X11_free_asserts_an_empty_message_queue_witness :
  let w := mkWorld (sample_queue [sample_invocation 1%N]) [] in
  exists tr,
    gt_dbus_queue_disconnect false print_serial false true (self w) =
      (tr, Returned (tt, torn_down (self w))) /\
    gt_dbus_queue_free false print_serial true
      (mkWorld (torn_down (self w)) (pending w)) =
      ([], Aborted
             (AssertionFailed
                "g_async_queue_try_pop (self->server_message_queue) == NULL")).
Proof.
  destruct (X11_free_asserts_an_empty_message_queue false print_serial
              (mkWorld (sample_queue [sample_invocation 1%N]) []))
    as (_ & _ & H).
  apply (H eq_refl); discriminate.
Defined.

Lemma X12_assert_pop_message_contract_witness :
  let w := mkWorld (sample_queue []) [[HMethodCall (sample_invocation 1%N)]] in
  match gt_dbus_queue_assert_pop_message_impl false print_serial
          parse_sample any_name any_name client_context 10%Z
          "/com/example/Test" "com.example.Test.Manager" "GetObjectPath"
          "(u)" w with
  | (tr, Returned (o, w')) =>
      is_expected_call (self w) (sample_invocation 1%N) "/com/example/Test"
        "com.example.Test.Manager" "GetObjectPath" = true /\
      o = Some (sample_invocation 1%N) /\ arrivals w' = [] /\
      In (EvVariantGet (inv_parameters (sample_invocation 1%N)) "(u)") tr
  | (_, Aborted a) =>
      is_expected_call (self w) (sample_invocation 1%N) "/com/example/Test"
        "com.example.Test.Manager" "GetObjectPath" = false /\
      a = AssertionFailed
            (saw_other_message "/com/example/Test"
               "com.example.Test.Manager" "GetObjectPath"
               (gt_dbus_queue_format_message print_serial
                  (sample_invocation 1%N)))
  | (_, Blocked) => False
  end.
Proof.
  apply (X12_assert_pop_message_contract false print_serial parse_sample
           any_name any_name client_context
           (mkWorld (sample_queue [])
              [[HMethodCall (sample_invocation 1%N)]])
           10%Z "/com/example/Test" "com.example.Test.Manager"
           "GetObjectPath" "(u)" sample_client ":1.1"
           (sample_invocation 1%N) []).
  - reflexivity.
  - discriminate.
  - reflexivity.
  - reflexivity.
  - reflexivity.
  - reflexivity.
  - reflexivity.
  - intros f d [H|[]]. discriminate.
  - reflexivity.
Defined.

(** ** The signal logger, on a sample logger *)

Lemma X13_emissions_are_logged_in_order_witness :
  exists l',
    for_each
      [(0, [sample_instance; string_value "a"]); (0, [sample_instance])]
      (fun s => gt_logged_closure_marshal (fst s) (snd s))
      (sample_logger []) = ([], Returned (tt, l')) /\
    log l' = [mkEmission 0 [string_value "a"]; mkEmission 0 []] /\
    gt_signal_logger_get_n_emissions l' = 2.
Proof.
  destruct (X13_emissions_are_logged_in_order (sample_logger [])
              [(0, [sample_instance; string_value "a"]);
               (0, [sample_instance])])
    as [(l' & E & Hlog & _ & _ & Hn) _].
  - constructor.
  - repeat constructor; discriminate.
  - exists l'. repeat split; assumption.
Defined.

Lemma X14_emissions_are_popped_oldest_first_witness :
  let l :=
    sample_logger [mkEmission 0 [string_value "a"]; mkEmission 0 []] in
  exists popped,
    pop_emissions 2 l = ([], Returned (popped, sample_logger [])) /\
    map popped_view popped =
      [Some (4096%N, "GObject", "notify", [string_value "a"]);
       Some (4096%N, "GObject", "notify", [])].
Proof.
  destruct (X14_emissions_are_popped_oldest_first
              (sample_logger
                 [mkEmission 0 [string_value "a"]; mkEmission 0 []]) 2)
    as [(popped & E & _ & Hview & _) _].
  - repeat constructor.
  - exists popped. split; [exact E | exact Hview].
Defined.

Lemma X16_connect_emit_pop_round_trip_witness :
  bind (gt_signal_logger_connect false (Some sample_object) "changed" 2%N)
    (fun _ =>
       bind (gt_logged_closure_marshal 1
               [sample_instance; string_value "b"])
         (fun _ =>
            bind (pop_emissions 1)
              (fun _ => gt_signal_logger_pop_emission true true true true)))
    (sample_logger [mkEmission 0 [string_value "a"]]) =
  ([], Returned
         ((true,
           mkPopped 4096%N (Some "GObject") (Some "changed")
             (Some (mkEmission 1 [string_value "b"]))),
          mkLogger []
            [sample_closure;
             mkClosure (G_OBJECT sample_object) "GObject" "changed" 2%N])).
Proof.
  destruct (X16_connect_emit_pop_round_trip false
              (sample_logger [mkEmission 0 [string_value "a"]])
              sample_object "changed" 2%N sample_instance
              [string_value "b"])
    as [(l1 & E & Hlog & Hcl & _ & Hrun) _].
  - repeat constructor.
  - destruct l1 as [lg cs]. cbn in Hlog, Hcl. subst lg cs. exact Hrun.
Defined.

Lemma X17_format_emission_witness :
  gt_signal_logger_format_emission false print_pointer 4096%N
    (Some "GObject") (Some "notify")
    (Some (mkEmission 0 [string_value "a"; mkValue "GParam" None])) tt =
  ([], Returned
         (Some "GObject::notify from 0x1000 (a, GValue of type GParam)", tt)).
Proof.
  destruct (X17_format_emission false print_pointer unit tt 4096%N
              "GObject" "notify"
              (mkEmission 0 [string_value "a"; mkValue "GParam" None]))
    as [H _].
  apply H; [discriminate | reflexivity].
Defined.

Lemma X19_format_emissions_witness :
  let l :=
    sample_logger [mkEmission 0 [string_value "a"]; mkEmission 0 []] in
  gt_signal_logger_format_emissions false print_pointer l =
  ([], Returned
         ((" 1. GObject::notify from 0x1000 (a)" ++ newline ++
           " 2. GObject::notify from 0x1000 (no arguments)")%string, l)).
Proof.
  destruct (X19_format_emissions false print_pointer
              (sample_logger
                 [mkEmission 0 [string_value "a"]; mkEmission 0 []]))
    as [_ H].
  destruct H as [H _].
  - repeat constructor.
  - repeat constructor; discriminate.
  - repeat constructor.
  - exact H.
Defined.

Lemma X20_assert_no_emissions_witness :
  let l := sample_logger [mkEmission 0 []] in
  gt_signal_logger_assert_no_emissions false print_pointer l =
  ([], Aborted
         (AssertionFailed
            ("Expected no signal emissions, but saw 1:" ++ newline ++
             " 1. GObject::notify from 0x1000 (no arguments)"))).
Proof.
  destruct (X20_assert_no_emissions false print_pointer
              (sample_logger [mkEmission 0 []])) as [_ H].
  destruct H as [_ H]; [discriminate|].
  apply H.
  - repeat constructor.
  - repeat constructor; discriminate.
  - repeat constructor.
Defined.

Lemma X21_assert_emission_pop_contract_witness :
  gt_signal_logger_assert_emission_pop false print_pointer sample_object
    "notify" (sample_logger [mkEmission 0 [string_value "a"]]) =
    ([], Returned ([string_value "a"], sample_logger [])) /\
  snd (gt_signal_logger_assert_emission_pop false print_pointer
         sample_object "notify::name"
         (sample_logger [mkEmission 0 [string_value "a"]])) =
    Aborted
      (AssertionFailed
         ("Expected emission of GObject::notify::name from 0x1000, " ++
          "but saw: GObject::notify from 0x1000 (a)")).
Proof.
  split.
  - destruct (X21_assert_emission_pop_contract false print_pointer
                (sample_logger [mkEmission 0 [string_value "a"]])
                sample_object "notify") as [_ H].
    specialize (H (mkEmission 0 [string_value "a"]) [] sample_closure
                  eq_refl eq_refl).
    cbv zeta in H.
    destruct (gt_signal_logger_assert_emission_pop false print_pointer
                sample_object "notify"
                (sample_logger [mkEmission 0 [string_value "a"]]))
      as [tr [[values l']|a|]].
    + destruct H as (_ & -> & -> & ->). reflexivity.
    + destruct H as [H _]. discriminate H.
    + contradiction.
  - destruct (X21_assert_emission_pop_contract false print_pointer
                (sample_logger [mkEmission 0 [string_value "a"]])
                sample_object "notify::name") as [_ H].
    specialize (H (mkEmission 0 [string_value "a"]) [] sample_closure
                  eq_refl eq_refl).
    cbv zeta in H.
    destruct (gt_signal_logger_assert_emission_pop false print_pointer
                sample_object "notify::name"
                (sample_logger [mkEmission 0 [string_value "a"]]))
      as [tr [[values l']|a|]].
    + destruct H as [H _]. discriminate H.
    + destruct H as [_ H]. cbn [snd].
      rewrite H; [reflexivity | discriminate | reflexivity].
    + contradiction.
Defined.

End DBusQueue.
